(** * Distillation tray unit model ([idaes/unit_models/distillation/tray.py])

    A shallow embedding of [TrayData]: the Python object is a finite map from
    attribute names to Pyomo components, methods are computations in a
    state-and-exception monad over that map, and Pyomo expressions are kept
    as syntax trees, so that what a port or a constraint holds can be
    compared symbolically. *)

From Stdlib Require Import ZArith Ascii String PrimFloat.
From stdpp Require Import base option list strings gmap.

Local Open Scope string_scope.
Local Open Scope Z_scope.
Local Open Scope list_scope.

(** ** Python strings *)

Module PyStr.

(** [sub in s] *)
Fixpoint contains (sub s : string) : bool :=
  match s with
  | EmptyString => String.prefix sub EmptyString
  | String _ s' => String.prefix sub s || contains sub s'
  end.

(** [s.split(sep)] for a one-character separator: never the empty list. *)
Fixpoint split (sep : ascii) (s : string) : list string :=
  match s with
  | EmptyString => [EmptyString]
  | String c s' =>
      if Ascii.eqb c sep then EmptyString :: split sep s'
      else match split sep s' with
           | [] => [String c EmptyString]
           | w :: ws => String c w :: ws
           end
  end.

(** [sep.join(l)] *)
Definition join (sep : string) (l : list string) : string :=
  String.concat sep l.

Definition underscore : ascii := "_"%char.

End PyStr.

(** ** Exceptions and the method monad *)

Inductive exn : Type :=
| TypeError
| IndexError
| NameError
| KeyError
| AttributeError
| ValueError
| RuntimeError
| PropertyPackageError (msg : string)
| Exception_ (msg : string).

Inductive outcome (A : Type) : Type :=
| Ok (a : A)
| Raise (e : exn).
Arguments Ok {A} a.
Arguments Raise {A} e.

(** A pure computation that may raise. *)
Definition obind {A B} (o : outcome A) (f : A -> outcome B) : outcome B :=
  match o with
  | Ok a => f a
  | Raise e => Raise e
  end.

(** [mapM] over a list, left to right, stopping at the first exception. *)
Fixpoint omap {A B} (f : A -> outcome B) (l : list A) : outcome (list B) :=
  match l with
  | [] => Ok []
  | a :: l' => obind (f a) (fun b => obind (omap f l') (fun bs => Ok (b :: bs)))
  end.

(** A method of a Python object with state [S]: it may mutate the object and
    may raise; mutations made before an exception stay. *)
Definition ST (S A : Type) : Type := S -> outcome A * S.

#[global] Instance ST_ret {S} : MRet (ST S) := fun A a s => (Ok a, s).
#[global] Instance ST_bind {S} : MBind (ST S) := fun A B f m s =>
  match m s with
  | (Ok a, s') => f a s'
  | (Raise e, s') => (Raise e, s')
  end.

Definition raise {S A} (e : exn) : ST S A := fun s => (Raise e, s).

Definition lift {S A} (o : outcome A) : ST S A := fun s => (o, s).

(** ** Pyomo objects *)

Module Pyomo.

(** An index of an indexed component: a phase or component name, or
    Python's [None] (the only index of a scalar component). *)
Inductive index : Type :=
| Idx (s : string)
| NoneIdx.

(** Pyomo expressions, as written in the source.  The leaves are what the
    tray reads from its state blocks and its own variables. *)
Inductive pexpr : Type :=
| Num (n : Z)
| TrayVar (name : string)
    (* self.<name> *)
| StateComponent (blk : string) (t : Z) (name : string) (idx : list index)
    (* self.<blk>[t].component(name)[idx] *)
| StateAttr (blk : string) (t : Z) (name : string)
    (* self.<blk>[t].<name> *)
| MaterialFlowTerm (blk : string) (t : Z) (p j : string)
    (* self.<blk>[t].get_material_flow_terms(p, j) *)
| EnthalpyFlowTerm (blk : string) (t : Z) (p : string)
    (* self.<blk>[t].get_enthalpy_flow_terms(p) *)
| Add (a b : pexpr)
| Sub (a b : pexpr)
| Mul (a b : pexpr).

(** [lhs == rhs] *)
Inductive relation : Type :=
| Equals (lhs rhs : pexpr).

(** Python's [sum(...)]: a left fold of [+] that starts from [0]. *)
Definition py_sum (l : list pexpr) : pexpr := fold_left Add l (Num 0).

(** [a == b] on two plain numbers is a Python [bool], not a Pyomo
    relation; an expression is a plain number when it has no leaf. *)
Fixpoint is_numeric (e : pexpr) : bool :=
  match e with
  | Num _ => true
  | Add a b | Sub a b | Mul a b => is_numeric a && is_numeric b
  | _ => false
  end.

(** Python's arithmetic on the values of the leaves: the numbers, the
    value of an integer literal, [+], [-] and [*].  Nothing is assumed of
    it, so what is proved of values holds of floating-point numbers, with
    their rounding, as of exact ones. *)
Record arithmetic : Type := mkArithmetic {
  carrier :> Type;
  py_int : Z -> carrier;
  py_add : carrier -> carrier -> carrier;
  py_sub : carrier -> carrier -> carrier;
  py_mul : carrier -> carrier -> carrier
}.

(** The value of an expression, given the values of its leaves; operands
    are combined in the order in which the source wrote them. *)
Fixpoint eval (A : arithmetic) (rho : pexpr -> A) (e : pexpr) : A :=
  match e with
  | Num n => py_int A n
  | Add a b => py_add A (eval A rho a) (eval A rho b)
  | Sub a b => py_sub A (eval A rho a) (eval A rho b)
  | Mul a b => py_mul A (eval A rho a) (eval A rho b)
  | leaf => rho leaf
  end.

Definition holds (A : arithmetic) (rho : pexpr -> A) (r : relation) : Prop :=
  match r with Equals lhs rhs => eval A rho lhs = eval A rho rhs end.

(** [sum(...)] on values: from [0], adding left to right. *)
Definition sum_values (A : arithmetic) (l : list A) : A :=
  fold_left (py_add A) l (py_int A 0).

(** [x1 + x2 + ... + xn], left to right. *)
Definition add_all (A : arithmetic) (l : list A) : A :=
  match l with
  | [] => py_int A 0
  | x :: l' => fold_left (py_add A) l' x
  end.

(** A numeric literal of the source ([0], [0.01] = 1e-2). *)
Inductive pynum : Type :=
| IntLit (n : Z)
| FloatLit (mantissa exp10 : Z).

(** Values stored in the argument dictionary of a state block. *)
Inductive pyval : Type :=
| PyBool (b : bool)
| PyInt (n : Z)
| PyString (s : string)
| PyParameters.

(** What a port holds under a member name. *)
Inductive port_member : Type :=
| PReference (blk name : string) (sliced : bool)
    (* Reference(self.<blk>[:].component(name))        when not sliced,
       Reference(self.<blk>[:].component(name)[...])   when sliced *)
| PExpression (body : list (Z * list index * pexpr)).

Inductive component : Type :=
| StateBlock (doc : string) (default : gmap string pyval)
| Var (initialize : pynum) (doc : string)
| Constraint (doc : string) (body : list (Z * list index * relation))
| Expression (body : list (Z * list index * pexpr))
| Port (inlet_of : option string) (doc : string)
       (members : list (string * port_member)).

(** A variable handle returned by [define_port_members()]. *)
Record member : Type := mkMember {
  local_name : string;
  indices : option (list index)   (* None: a scalar variable *)
}.

Definition is_indexed (m : member) : bool :=
  match indices m with Some _ => true | None => false end.

(** [m.index_set()]; a scalar component is indexed by [{None}]. *)
Definition index_set (m : member) : list index :=
  match indices m with Some l => l | None => [NoneIdx] end.

(** The block: attribute name to component. *)
Abbreviation block := (gmap string component).

(** Methods run on the block, may mutate it and may raise. *)
Abbreviation M := (ST block).

(** [self.<name>] *)
Definition getattr (name : string) : M component := fun s =>
  match s !! name with
  | Some c => (Ok c, s)
  | None => (Raise AttributeError, s)
  end.

(** [self.<name> = c], [setattr(self, name, c)] *)
Definition setattr (name : string) (c : component) : M unit := fun s =>
  (Ok tt, <[name := c]> s).

(** [self.add_component(name, c)]: a name can be declared once. *)
Definition add_component (name : string) (c : component) : M unit := fun s =>
  match s !! name with
  | Some _ => (Raise RuntimeError, s)
  | None => (Ok tt, <[name := c]> s)
  end.

(** [self.add_component(name, Expression(..., rule=rule))]: the name is
    declared, then the rule is run on every key.  The rules of the tray
    fail on the first key or on none, so a failed construction leaves the
    declared expression empty. *)
Definition add_expression (name : string) (keys : list (Z * list index))
    (rule : Z * list index -> outcome pexpr)
  : M (list (Z * list index * pexpr)) :=
  add_component name (Expression []) ;;
  body ← lift (omap (fun key => obind (rule key) (fun e => Ok (key, e))) keys) ;
  setattr name (Expression body) ;;
  mret body.

(** [[f(x) for x in l]], left to right, in a method. *)
Fixpoint for_each {S A B} (f : A -> ST S B) (l : list A) : ST S (list B) :=
  match l with
  | [] => mret []
  | a :: l' => b ← f a ; bs ← for_each f l' ; mret (b :: bs)
  end.

(** What [Constraint] makes of the value its rule returned: a relation
    between two plain numbers has already been decided by Python, and a
    trivial Boolean is refused. *)
Definition check_relation (r : relation) : outcome relation :=
  match r with
  | Equals lhs rhs =>
      if is_numeric lhs && is_numeric rhs then Raise ValueError else Ok r
  end.

(** The construction of a declared constraint: the rule is run on every
    key in turn, and what it returns is stored under the key.  A rule
    that raises stops the construction; the constraint stays declared with
    the keys built before. *)
Fixpoint construct_constraint {K} (name doc : string)
    (to_key : K -> Z * list index) (rule : K -> M relation)
    (keys : list K) (body : list (Z * list index * relation)) : M unit :=
  match keys with
  | [] => mret tt
  | key :: rest =>
      r ← rule key ;
      r ← lift (check_relation r) ;
      let body := body ++ [(to_key key, r)] in
      setattr name (Constraint doc body) ;;
      construct_constraint name doc to_key rule rest body
  end.

(** [@self.Constraint(sets, doc=doc)] over a rule named [name], on a
    block under construction: the constraint is attached to the block
    under the name of the rule, then constructed. *)
Definition add_constraint {K} (name doc : string)
    (to_key : K -> Z * list index) (keys : list K) (rule : K -> M relation)
  : M unit :=
  setattr name (Constraint doc []) ;;
  construct_constraint name doc to_key rule keys [].

(** Lookup in an ordered list of named entries. *)
Fixpoint assoc {V} (k : string) (l : list (string * V)) : option V :=
  match l with
  | [] => None
  | (k', v) :: l' => if decide (k' = k) then Some v else assoc k l'
  end.

(** [d[k] = v] on a dictionary kept in insertion order: a key that is
    present keeps its place and gets the new value, a new key goes to the
    end. *)
Fixpoint dict_set {V} (k : string) (v : V) (l : list (string * V))
  : list (string * V) :=
  match l with
  | [] => [(k, v)]
  | (k', v') :: l' =>
      if decide (k' = k) then (k, v) :: l' else (k', v') :: dict_set k v l'
  end.

(** [port.add(x, k)] on the port stored under [port]: [port.vars[k] = x].
    An entry that the port already holds under [k] is replaced (Pyomo logs
    a warning and goes on). *)
Definition port_add (port : string) (x : port_member) (k : string) : M unit :=
  c ← getattr port ;
  match c with
  | Port io doc members => setattr port (Port io doc (dict_set k x members))
  | _ => raise AttributeError
  end.

(** Keys of a component indexed by time, and by time and one more set. *)
Definition keys1 (time : list Z) : list (Z * list index) :=
  map (fun t => (t, [])) time.
Definition keys2 (time : list Z) (ix : list index) : list (Z * list index) :=
  t ← time ; map (fun i => (t, [i])) ix.

End Pyomo.

(** ** The tray *)

Module TrayData.
Import Pyomo.

(** The state-block class of a property package, as far as the tray uses
    it. *)
Record property_package : Type := mkPackage {
  phase_list : list string;
  component_list : list string;
  define_port_members : list (string * member)
}.

Record config : Type := mkConfig {
  is_feed_tray : bool;
  has_liquid_side_draw : bool;
  has_vapor_side_draw : bool;
  has_heat_transfer : bool;
  has_pressure_change : bool;
  package : property_package;
  property_package_args : gmap string pyval
}.

(** *** Python values handled by [build] *)

(** [l[i]]: only integers index a list. *)
Definition list_getitem (l : list pyval) (i : pyval) : outcome pyval :=
  match i with
  | PyInt n =>
      let n' := if n <? 0 then n + Z.of_nat (length l) else n in
      if n' <? 0 then Raise IndexError
      else match l !! Z.to_nat n' with
           | Some v => Ok v
           | None => Raise IndexError
           end
  | PyBool b =>
      match l !! (if b then 1%nat else 0%nat) with
      | Some v => Ok v
      | None => Raise IndexError
      end
  | _ => Raise TypeError
  end.

(** [a + b] on strings. *)
Definition str_add (a b : pyval) : outcome pyval :=
  match a, b with
  | PyString x, PyString y => Ok (PyString (x +:+ y))
  | _, _ => Raise TypeError
  end.

(** [setattr(self, name, c)] with a computed name. *)
Definition setattr_val (name : pyval) (c : component) : M unit :=
  match name with
  | PyString n => setattr n c
  | _ => raise TypeError
  end.

Section Methods.

Variable cfg : config.
(** [self.flowsheet().config.time] *)
Variable time : list Z.

Let pkg := package cfg.

(** *** State blocks *)

(** [self.<blk>[t]] *)
Definition state_block_at (blk : string) (t : Z) : M unit :=
  c ← getattr blk ;
  match c with
  | StateBlock _ _ => if decide (t ∈ time) then mret tt else raise KeyError
  | _ => raise AttributeError
  end.

(** [self.<blk>[t].get_material_flow_terms(p, j)] *)
Definition get_material_flow_terms (blk : string) (t : Z) (p j : string)
  : M pexpr :=
  state_block_at blk t ;;
  mret (MaterialFlowTerm blk t p j).

(** [self.<blk>[t].get_enthalpy_flow_terms(p)] *)
Definition get_enthalpy_flow_terms (blk : string) (t : Z) (p : string)
  : M pexpr :=
  state_block_at blk t ;;
  mret (EnthalpyFlowTerm blk t p).

(** [self.<blk>[t].pressure] *)
Definition pressure (blk : string) (t : Z) : M pexpr :=
  state_block_at blk t ;;
  mret (StateAttr blk t "pressure").

(** *** Balance equations *)

(** The rules are run while the constraint is constructed, on the tray as
    it is then: they look the state blocks up.  [sum] takes the terms of
    its generator one phase after the other. *)
Definition material_mixing_equations (t : Z) (j : string) : M relation :=
  if is_feed_tray cfg then
    terms ← for_each (fun p =>
               feed ← get_material_flow_terms "properties_in_feed" t p j ;
               liq ← get_material_flow_terms "properties_in_liq" t p j ;
               vap ← get_material_flow_terms "properties_in_vap" t p j ;
               out ← get_material_flow_terms "properties_out" t p j ;
               mret (Sub (Add (Add feed liq) vap) out))
             (phase_list pkg) ;
    mret (Equals (Num 0) (py_sum terms))
  else
    terms ← for_each (fun p =>
               liq ← get_material_flow_terms "properties_in_liq" t p j ;
               vap ← get_material_flow_terms "properties_in_vap" t p j ;
               out ← get_material_flow_terms "properties_out" t p j ;
               mret (Sub (Add liq vap) out))
             (phase_list pkg) ;
    mret (Equals (Num 0) (py_sum terms)).

Definition _add_material_balance : M unit :=
  add_constraint "material_mixing_equations" "material balance"
    (fun tj => (tj.1, [Idx tj.2]))
    (t ← time ; map (fun j => (t, j)) (component_list pkg))
    (fun tj => material_mixing_equations tj.1 tj.2).

(** [sum(self.<blk>[t].get_enthalpy_flow_terms(p) for p in phase_list)] *)
Definition enthalpy_sum (blk : string) (t : Z) : M pexpr :=
  terms ← for_each (get_enthalpy_flow_terms blk t) (phase_list pkg) ;
  mret (py_sum terms).

Definition enthalpy_mixing_equations (t : Z) : M relation :=
  if is_feed_tray cfg then
    if has_heat_transfer cfg then
      feed ← enthalpy_sum "properties_in_feed" t ;
      liq ← enthalpy_sum "properties_in_liq" t ;
      vap ← enthalpy_sum "properties_in_vap" t ;
      out ← enthalpy_sum "properties_out" t ;
      getattr "heat_duty" ;;
      mret (Equals (Num 0)
              (Add (Sub (Add (Add feed liq) vap) out) (TrayVar "heat_duty")))
    else
      feed ← enthalpy_sum "properties_in_feed" t ;
      liq ← enthalpy_sum "properties_in_liq" t ;
      vap ← enthalpy_sum "properties_in_vap" t ;
      out ← enthalpy_sum "properties_out" t ;
      mret (Equals (Num 0) (Sub (Add (Add feed liq) vap) out))
  else
    if has_heat_transfer cfg then
      liq ← enthalpy_sum "properties_in_liq" t ;
      vap ← enthalpy_sum "properties_in_vap" t ;
      out ← enthalpy_sum "properties_out" t ;
      getattr "heat_duty" ;;
      mret (Equals (Num 0)
              (Add (Sub (Add liq vap) out) (TrayVar "heat_duty")))
    else
      liq ← enthalpy_sum "properties_in_liq" t ;
      vap ← enthalpy_sum "properties_in_vap" t ;
      out ← enthalpy_sum "properties_out" t ;
      mret (Equals (Num 0) (Sub (Add liq vap) out)).

Definition _add_energy_balance : M unit :=
  (if has_heat_transfer cfg
   then setattr "heat_duty" (Var (IntLit 0) "heat duty for the tray")
   else mret tt) ;;
  add_constraint "enthalpy_mixing_equations" "energy balance"
    (fun t => (t, [])) time enthalpy_mixing_equations.

Definition pressure_drop_equation (t : Z) : M relation :=
  if has_pressure_change cfg then
    out ← pressure "properties_out" t ;
    vap ← pressure "properties_in_vap" t ;
    getattr "deltaP" ;;
    mret (Equals out (Sub vap (TrayVar "deltaP")))
  else
    out ← pressure "properties_out" t ;
    vap ← pressure "properties_in_vap" t ;
    mret (Equals out vap).

Definition _add_pressure_balance : M unit :=
  (if has_pressure_change cfg
   then setattr "deltaP" (Var (IntLit 0) "pressure drop across tray")
   else mret tt) ;;
  add_constraint "pressure_drop_equation" "pressure balance for tray"
    (fun t => (t, [])) time pressure_drop_equation.

(** *** Ports *)

(** The rules closed over [local_name], [phase] and [side_sf].  The
    variable [local_name] of [_make_phase_split] is unbound until one of
    the branches assigns it.  What the outlet state holds under a name is
    the property package's business: the rules are written for a package
    that keeps its side of the naming convention, that is, whose outlet
    state holds the sibling they name, indexed by phase and by the index
    of the member.  The lookup of a sibling that the package does not
    have is outside this model. *)
Definition rule_mole_frac (local_name : option string) (phase : string)
    (key : Z * list index) : outcome pexpr :=
  match local_name with
  | Some n => Ok (StateComponent "properties_out" key.1 n (Idx phase :: key.2))
  | None => Raise NameError
  end.

Definition rule_flow (local_name : option string) (phase : string)
    (side_sf : pexpr) (key : Z * list index) : outcome pexpr :=
  match local_name with
  | Some n =>
      Ok (Mul (StateComponent "properties_out" key.1 n (Idx phase :: key.2))
              side_sf)
  | None => Raise NameError
  end.

Definition rule_enth (local_name : option string) (phase : string)
    (key : Z * list index) : outcome pexpr :=
  match local_name with
  | Some n => Ok (StateComponent "properties_out" key.1 n (Idx phase :: key.2))
  | None => Raise NameError
  end.

(** One iteration of [for k in member_list], from the value of
    [local_name] before it to the value after it. *)
Definition phase_split_member (port phase : string) (side_sf : pexpr)
    (k : string) (m : member) (local_name : option string)
  : M (option string) :=
  if negb (PyStr.contains "flow" k) && negb (PyStr.contains "frac" k)
     && negb (PyStr.contains "enth" k) then
    port_add port
      (PReference "properties_out" (Pyomo.local_name m) (is_indexed m)) k ;;
    mret local_name
  else if PyStr.contains "frac" k
          && (PyStr.contains "mole" k || PyStr.contains "mass" k) then
    let index_set := index_set m in
    if negb (PyStr.contains "phase" k) then
      let str_split := PyStr.split PyStr.underscore k in
      match str_split !! 2%nat with
      | None => raise IndexError
      | Some s2 =>
          let local_name :=
            Some (PyStr.join "_" (take 2 str_split) +:+ "_phase" +:+ "_" +:+ s2) in
          expr ← add_expression ("e_mole_frac_" +:+ port)
                   (keys2 time index_set) (rule_mole_frac local_name phase) ;
          port_add port (PExpression expr) k ;;
          mret local_name
      end
    else
      port_add port
        (PReference "properties_out" (Pyomo.local_name m) true) k ;;
      mret local_name
  else if PyStr.contains "flow" k then
    if negb (PyStr.contains "phase" k) then
      if negb (is_indexed m) then
        let local_name := Some (Pyomo.local_name m +:+ "_phase") in
        expr ← add_expression ("e_flow_" +:+ port)
                 (keys1 time) (rule_flow local_name phase side_sf) ;
        port_add port (PExpression expr) k ;;
        mret local_name
      else
        let str_split := PyStr.split PyStr.underscore (Pyomo.local_name m) in
        let local_name :=
          match str_split with
          | [s0; s1; s2] =>
              if bool_decide (s2 = "comp")
              then Some (s0 +:+ "_" +:+ s1 +:+ "_phase_" +:+ "comp")
              else local_name
          | _ => local_name
          end in
        let index_set := index_set m in
        expr ← add_expression ("e_flow_" +:+ port)
                 (keys2 time index_set) (rule_flow local_name phase side_sf) ;
        port_add port (PExpression expr) k ;;
        mret local_name
    else mret local_name
  else if PyStr.contains "enth" k then
    if negb (PyStr.contains "phase" k) then
      if negb (is_indexed m) then
        let local_name := Some (Pyomo.local_name m +:+ "_phase") in
        expr ← add_expression ("e_enth_" +:+ port)
                 (keys1 time) (rule_enth local_name phase) ;
        port_add port (PExpression expr) k ;;
        mret local_name
      else raise (PropertyPackageError "Expected an unindexed variable.")
    else if PyStr.contains "phase" k then
      port_add port
        (PReference "properties_out" (Pyomo.local_name m) (is_indexed m)) k ;;
      mret local_name
    else
      raise (Exception_ ("Unrecognized enthalpy state variable. "
               +:+ "Only total mixture enthalpy or enthalpy by "
               +:+ "phase are supported."))
  else mret local_name.

Fixpoint phase_split_loop (port phase : string) (side_sf : pexpr)
    (member_list : list (string * member)) (local_name : option string)
  : M (option string) :=
  match member_list with
  | [] => mret local_name
  | (k, m) :: rest =>
      local_name ← phase_split_member port phase side_sf k m local_name ;
      phase_split_loop port phase side_sf rest local_name
  end.

(** [_make_phase_split(port, phase, side_sf)]; the two side-draw flags
    of the signature are not read by the body.  The port is passed by
    its attribute name, which is also its [local_name]. *)
Definition _make_phase_split (port phase : string) (side_sf : pexpr)
  : M unit :=
  state_block_at "properties_out" 0 ;;
  let member_list := define_port_members pkg in
  phase_split_loop port phase side_sf member_list None ;;
  mret tt.

(** Modelled from the spec: [add_inlet_port] of the unit-model base
    class is not part of the source file.  An inlet port is exposed
    under [name] as direct pass-through references to the members of
    the inlet state block, with no splitting. *)
Definition add_inlet_port (name blk : string) : M unit :=
  state_block_at blk 0 ;;
  setattr name
    (Port (Some blk) "Inlet Port"
       (map (fun km => (km.1, PReference blk (Pyomo.local_name km.2)
                                (is_indexed km.2)))
            (define_port_members pkg))).

Definition _add_ports : M unit :=
  (if is_feed_tray cfg
   then add_inlet_port "feed" "properties_in_feed"
   else mret tt) ;;
  add_inlet_port "liq_in" "properties_in_liq" ;;
  add_inlet_port "vap_in" "properties_in_vap" ;;
  setattr "liq_out" (Port None "liquid outlet from tray" []) ;;
  (if has_liquid_side_draw cfg then
     setattr "liq_side_sf"
       (Var (FloatLit 1 (-2)) "split fraction for the liquid side draw") ;;
     setattr "liq_side_draw" (Port None "liquid side draw." []) ;;
     _make_phase_split "liq_side_draw" "Liq" (TrayVar "liq_side_sf") ;;
     _make_phase_split "liq_out" "Liq" (Sub (Num 1) (TrayVar "liq_side_sf"))
   else
     _make_phase_split "liq_out" "Liq" (Num 1)) ;;
  setattr "vap_out" (Port None "vapor outlet from tray" []) ;;
  (if has_vapor_side_draw cfg then
     setattr "vap_side_sf"
       (Var (FloatLit 1 (-2)) "split fraction for the vapor side draw") ;;
     setattr "vap_side_draw" (Port None "vapor side draw." []) ;;
     _make_phase_split "vap_side_draw" "Vap" (TrayVar "vap_side_sf") ;;
     _make_phase_split "vap_out" "Vap" (Sub (Num 1) (TrayVar "vap_side_sf"))
   else
     _make_phase_split "vap_out" "Vap" (Num 1)).

(** *** build *)

(** The base class's [build], which sets up dynamics, is outside the
    source file; it is a parameter. *)
Variable super_build : M unit.

(** The body of [for i in inlet_list], from the creation of the state
    block to its attachment.  The arguments of the constructor are
    evaluated first, [doc] among them. *)
Definition build_inlet (inlet_list : list pyval)
    (state_block_args : gmap string pyval) (i : pyval) : M unit :=
  doc ← lift (obind (list_getitem inlet_list i) (fun x =>
              obind (str_add (PyString "State block for ") x) (fun y =>
              str_add y (PyString "_inlet to tray")))) ;
  match doc with
  | PyString doc =>
      let state_obj := StateBlock doc state_block_args in
      name ← lift (str_add (PyString "properties_in_") i) ;
      setattr_val name state_obj
  | _ => raise TypeError
  end.

Fixpoint build_inlets (inlet_list : list pyval)
    (state_block_args : gmap string pyval) (todo : list pyval) : M unit :=
  match todo with
  | [] => mret tt
  | i :: rest =>
      build_inlet inlet_list state_block_args i ;;
      build_inlets inlet_list state_block_args rest
  end.

Definition build : M unit :=
  super_build ;;
  let inlet_list :=
    if is_feed_tray cfg
    then [PyString "feed"; PyString "liq"; PyString "vap"]
    else [PyString "liq"; PyString "vap"] in
  let state_block_args :=
    <["defined_state" := PyBool true]>
      (<["parameters" := PyParameters]>
         (<["has_phase_equilibrium" := PyBool false]>
            (property_package_args cfg))) in
  build_inlets inlet_list state_block_args inlet_list ;;
  let mixed_block_args :=
    <["defined_state" := PyBool false]>
      (<["parameters" := PyParameters]>
         (<["has_phase_equilibrium" := PyBool true]>
            (property_package_args cfg))) in
  setattr "properties_out"
    (StateBlock "State block for mixed outlet from tray" mixed_block_args) ;;
  _add_material_balance ;;
  _add_energy_balance ;;
  _add_pressure_balance ;;
  _add_ports.

End Methods.

(** *** Observations on a tray *)

Definition is_inlet_port (c : component) : bool :=
  match c with
  | Port (Some _) _ _ => true
  | _ => false
  end.

(** Names of the inlet ports of a tray. *)
Definition inlet_ports (s : block) : gset string :=
  dom (filter (fun kc => is_inlet_port kc.2 = true) s).

(** The entries of the port stored under [port]. *)
Definition members_of (s : block) (port : string)
  : option (list (string * port_member)) :=
  match s !! port with
  | Some (Port _ _ members) => Some members
  | _ => None
  end.

(** What the port [port] holds under the member name [k]. *)
Definition port_member_of (s : block) (port k : string) : option port_member :=
  members_of s port ≫= assoc k.

(** The inlet blocks that enter the balances of a tray. *)
Definition inlet_blocks (cfg : config) : list string :=
  if is_feed_tray cfg
  then ["properties_in_feed"; "properties_in_liq"; "properties_in_vap"]
  else ["properties_in_liq"; "properties_in_vap"].

(** The tray holds a state block under [blk]. *)
Definition is_state_block (s : block) (blk : string) : Prop :=
  exists doc args, s !! blk = Some (StateBlock doc args).

(** The state blocks that the material and energy balances read. *)
Definition balance_blocks (cfg : config) : list string :=
  inlet_blocks cfg ++ ["properties_out"].

(** The members that the resolver treats as mole or mass fractions. *)
Definition is_fraction (k : string) : bool :=
  PyStr.contains "frac" k
  && (PyStr.contains "mole" k || PyStr.contains "mass" k).

(** The body of an expression whose rule yields [f key] on every key. *)
Definition expression_body (keys : list (Z * list index))
    (f : Z * list index -> pexpr) : list (Z * list index * pexpr) :=
  map (fun key => (key, f key)) keys.

(** [properties_out[t].component(name)[phase, ...]] *)
Definition phase_component (name phase : string) (key : Z * list index) : pexpr :=
  StateComponent "properties_out" key.1 name (Idx phase :: key.2).

(** The value of [local_name] after an iteration that returns. *)
Definition next_local_name (k : string) (m : member)
    (local_name : option string) : option string :=
  if negb (PyStr.contains "flow" k) && negb (PyStr.contains "frac" k)
     && negb (PyStr.contains "enth" k) then local_name
  else if is_fraction k then
    if negb (PyStr.contains "phase" k) then
      let str_split := PyStr.split PyStr.underscore k in
      match str_split !! 2%nat with
      | Some s2 =>
          Some (PyStr.join "_" (take 2 str_split) +:+ "_phase" +:+ "_" +:+ s2)
      | None => local_name
      end
    else local_name
  else if PyStr.contains "flow" k then
    if negb (PyStr.contains "phase" k) then
      if negb (is_indexed m) then Some (Pyomo.local_name m +:+ "_phase")
      else match PyStr.split PyStr.underscore (Pyomo.local_name m) with
           | [s0; s1; s2] =>
               if bool_decide (s2 = "comp")
               then Some (s0 +:+ "_" +:+ s1 +:+ "_phase_" +:+ "comp")
               else local_name
           | _ => local_name
           end
    else local_name
  else if PyStr.contains "enth" k then
    if negb (PyStr.contains "phase" k) then
      if negb (is_indexed m) then Some (Pyomo.local_name m +:+ "_phase")
      else local_name
    else local_name
  else local_name.

(** The entry that an iteration which returns has put on the port
    under [k], if any. *)
Definition member_entry (time : list Z) (phase : string) (side_sf : pexpr)
    (k : string) (m : member) (local_name : option string)
  : option port_member :=
  if negb (PyStr.contains "flow" k) && negb (PyStr.contains "frac" k)
     && negb (PyStr.contains "enth" k) then
    Some (PReference "properties_out" (Pyomo.local_name m) (is_indexed m))
  else if is_fraction k then
    if negb (PyStr.contains "phase" k) then
      let str_split := PyStr.split PyStr.underscore k in
      match str_split !! 2%nat with
      | Some s2 =>
          let n := PyStr.join "_" (take 2 str_split) +:+ "_phase" +:+ "_" +:+ s2 in
          Some (PExpression (expression_body (keys2 time (index_set m))
                               (phase_component n phase)))
      | None => None
      end
    else Some (PReference "properties_out" (Pyomo.local_name m) true)
  else if PyStr.contains "flow" k then
    if negb (PyStr.contains "phase" k) then
      let keys := if negb (is_indexed m) then keys1 time
                  else keys2 time (index_set m) in
      match next_local_name k m local_name with
      | Some n =>
          Some (PExpression (expression_body keys
                               (fun key => Mul (phase_component n phase key) side_sf)))
      | None => Some (PExpression [])
      end
    else None
  else if PyStr.contains "enth" k then
    if negb (PyStr.contains "phase" k) then
      if negb (is_indexed m) then
        Some (PExpression (expression_body (keys1 time)
                             (phase_component (Pyomo.local_name m +:+ "_phase") phase)))
      else None
    else Some (PReference "properties_out" (Pyomo.local_name m) (is_indexed m))
  else None.

(** How an iteration that puts [x] under [k] changes the ports. *)
Definition entered (port k : string) (x : port_member) (s s' : block) : Prop :=
  (forall q, q <> port -> members_of s' q = members_of s q) /\
  exists ms, members_of s port = Some ms /\
             members_of s' port = Some (dict_set k x ms).

(** The entries that come from processing the declared port members. *)
Definition from_member (cfg : config) (time : list Z) (phase k : string)
    (y : port_member) : Prop :=
  exists m ln0 sf, (k, m) ∈ define_port_members (package cfg) /\
                   member_entry time phase sf k m ln0 = Some y.

(** The phase-indexed sibling of a total or component flow: [X_phase]
    for a scalar [X], [X_Y_phase_comp] for an indexed [X_Y_comp]. *)
Definition flow_sibling (m : member) : option string :=
  if negb (is_indexed m) then Some (Pyomo.local_name m +:+ "_phase")
  else match PyStr.split PyStr.underscore (Pyomo.local_name m) with
       | [s0; s1; s2] =>
           if bool_decide (s2 = "comp")
           then Some (s0 +:+ "_" +:+ s1 +:+ "_phase_" +:+ "comp")
           else None
       | _ => None
       end.

(** The outlet-side ports of a tray. *)
Definition outlet_ports (cfg : config) : list string :=
  ["liq_out"; "vap_out"]
  ++ (if has_liquid_side_draw cfg then ["liq_side_draw"] else [])
  ++ (if has_vapor_side_draw cfg then ["vap_side_draw"] else []).

End TrayData.

(** ** Staged initialization *)

Module Initializer.
Import TrayData.

Inductive termination_condition : Type :=
| optimal
| other (name : string).

Definition is_optimal (tc : termination_condition) : bool :=
  match tc with optimal => true | other _ => false end.

(** What [initialize] toggles: constraint activation and the fixed flag
    of variables.  A split-fraction variable exists only on a tray built
    with the corresponding side draw. *)
Record flags : Type := mkFlags {
  enthalpy_mixing_equations_active : bool;
  pressure_drop_equation_active : bool;
  out_temperature_fixed : bool;
  out_pressure_fixed : bool;
  liq_side_sf_fixed : option bool;
  vap_side_sf_fixed : option bool
}.

Inductive event : Type :=
| StateInitialize (blk : string) (outlvl : Z)
| Solve (tee : bool) (seen : flags) (status : termination_condition)
| Info (msg : string).

Definition is_solve (e : event) : bool :=
  match e with Solve _ _ _ => true | _ => false end.

(** The solver calls recorded in a log. *)
Definition solves (l : list event) : list event :=
  filter (fun e => is_solve e = true) l.

Section Initialize.

(** Variable values are floating-point numbers; they and the one
    computation made on them, [0.5 * (a + b)], are parameters. *)
Variable num : Type.
Variable half_sum : num -> num -> num.

Record values : Type := mkValues {
  feed_temperature : num;   (* properties_in_feed[0].temperature.value *)
  liq_temperature : num;    (* properties_in_liq[0].temperature.value *)
  vap_temperature : num;    (* properties_in_vap[0].temperature.value *)
  vap_pressure : num;       (* properties_in_vap[0].pressure.value *)
  out_temperature : num;    (* properties_out[:].temperature *)
  out_pressure : num        (* properties_out[:].pressure *)
}.

Record model : Type := mkModel {
  vals : values;
  flgs : flags;
  events : list event       (* calls to collaborators and log records *)
}.

(** The collaborators: a state block's own [initialize] and the
    solver act on the values of the variables. *)
Variable state_initialize : string -> Z -> values -> values.
Definition solver : Type := flags -> bool -> values -> values * termination_condition.

Variable cfg : config.
(** [self.name] *)
Variable name : string.

Abbreviation I := (ST model).

Definition emit (e : event) : I unit := fun s =>
  (Ok tt, mkModel (vals s) (flgs s) (events s ++ [e])).

Definition set_values (v : values) : I unit := fun s =>
  (Ok tt, mkModel v (flgs s) (events s)).

Definition set_flags (f : flags) : I unit := fun s =>
  (Ok tt, mkModel (vals s) f (events s)).

Definition get_values : I values := fun s => (Ok (vals s), s).
Definition get_flags : I flags := fun s => (Ok (flgs s), s).

(** [self.enthalpy_mixing_equations.activate()] / [.deactivate()] *)
Definition enthalpy_mixing_equations_activate (b : bool) : I unit :=
  fl ← get_flags ;
  set_flags (mkFlags b (pressure_drop_equation_active fl)
               (out_temperature_fixed fl) (out_pressure_fixed fl)
               (liq_side_sf_fixed fl) (vap_side_sf_fixed fl)).

(** [self.pressure_drop_equation.activate()] / [.deactivate()] *)
Definition pressure_drop_equation_activate (b : bool) : I unit :=
  fl ← get_flags ;
  set_flags (mkFlags (enthalpy_mixing_equations_active fl) b
               (out_temperature_fixed fl) (out_pressure_fixed fl)
               (liq_side_sf_fixed fl) (vap_side_sf_fixed fl)).

(** [self.properties_out[:].temperature.fix(x)] and [.unfix()] *)
Definition out_temperature_fix (x : num) : I unit :=
  v ← get_values ;
  set_values (mkValues (feed_temperature v) (liq_temperature v)
                (vap_temperature v) (vap_pressure v)
                x (out_pressure v)) ;;
  fl ← get_flags ;
  set_flags (mkFlags (enthalpy_mixing_equations_active fl)
               (pressure_drop_equation_active fl)
               true (out_pressure_fixed fl)
               (liq_side_sf_fixed fl) (vap_side_sf_fixed fl)).

Definition out_temperature_unfix : I unit :=
  fl ← get_flags ;
  set_flags (mkFlags (enthalpy_mixing_equations_active fl)
               (pressure_drop_equation_active fl)
               false (out_pressure_fixed fl)
               (liq_side_sf_fixed fl) (vap_side_sf_fixed fl)).

(** [self.properties_out[:].pressure.fix(x)] and [.unfix()] *)
Definition out_pressure_fix (x : num) : I unit :=
  v ← get_values ;
  set_values (mkValues (feed_temperature v) (liq_temperature v)
                (vap_temperature v) (vap_pressure v)
                (out_temperature v) x) ;;
  fl ← get_flags ;
  set_flags (mkFlags (enthalpy_mixing_equations_active fl)
               (pressure_drop_equation_active fl)
               (out_temperature_fixed fl) true
               (liq_side_sf_fixed fl) (vap_side_sf_fixed fl)).

Definition out_pressure_unfix : I unit :=
  fl ← get_flags ;
  set_flags (mkFlags (enthalpy_mixing_equations_active fl)
               (pressure_drop_equation_active fl)
               (out_temperature_fixed fl) false
               (liq_side_sf_fixed fl) (vap_side_sf_fixed fl)).

(** [blk.initialize(outlvl=outlvl)] *)
Definition initialize_state (blk : string) (outlvl : Z) : I unit :=
  v ← get_values ;
  emit (StateInitialize blk outlvl) ;;
  set_values (state_initialize blk outlvl v).

(** [solver.solve(self, tee=tee)]: the attribute [solve] is looked up
    on the solver before [tee] is read. *)
Definition solve (slv : option solver) (tee : option bool)
  : I termination_condition :=
  match slv with
  | None => raise AttributeError
  | Some f =>
      match tee with
      | None => raise NameError
      | Some tee =>
          v ← get_values ;
          fl ← get_flags ;
          let r := f fl tee v in
          emit (Solve tee fl r.2) ;;
          set_values r.1 ;;
          mret r.2
      end
  end.

Definition info (msg : string) : I unit := emit (Info (name +:+ msg)).

Definition initialize (slv : option solver) (outlvl : Z) : I unit :=
  (if has_liquid_side_draw cfg then
     fl ← get_flags ;
     match liq_side_sf_fixed fl with
     | None => raise AttributeError
     | Some fixed =>
         if negb fixed
         then raise (Exception_ "Liquid side draw split fraction not fixed.")
         else mret tt
     end
   else mret tt) ;;
  (if has_vapor_side_draw cfg then
     fl ← get_flags ;
     match vap_side_sf_fixed fl with
     | None => raise AttributeError
     | Some fixed =>
         if negb fixed
         then raise (Exception_ "Vapor side draw split fraction not fixed.")
         else mret tt
     end
   else mret tt) ;;
  (* Initialize the inlet state blocks *)
  (if is_feed_tray cfg
   then initialize_state "properties_in_feed" outlvl
   else mret tt) ;;
  initialize_state "properties_in_liq" outlvl ;;
  initialize_state "properties_in_vap" outlvl ;;
  (* Initialize the mixed outlet state block *)
  initialize_state "properties_out" outlvl ;;
  (* Deactivate energy balance *)
  enthalpy_mixing_equations_activate false ;;
  v ← get_values ;
  let average_temperature :=
    if negb (is_feed_tray cfg)
    then half_sum (liq_temperature v) (vap_temperature v)
    else feed_temperature v in
  out_temperature_fix average_temperature ;;
  (* Deactivate pressure balance *)
  pressure_drop_equation_activate false ;;
  v ← get_values ;
  out_pressure_fix (vap_pressure v) ;;
  let tee :=
    match slv with
    | Some _ => Some (2 <? outlvl)
    | None => None
    end in
  solver_output ← solve slv tee ;
  (if is_optimal solver_output
   then info " Mass balance solve successful."
   else info " Mass balance solve failed.") ;;
  (* Activate energy balance *)
  enthalpy_mixing_equations_activate true ;;
  out_temperature_unfix ;;
  solver_output ← solve slv tee ;
  (if is_optimal solver_output
   then info " Mass/Energy balance solve successful."
   else info " Mass/Energy balance solve failed.") ;;
  (* Activate pressure balance *)
  pressure_drop_equation_activate true ;;
  out_pressure_unfix ;;
  (if is_optimal solver_output
   then info " Tray initialisation complete."
   else info " Mass/Energy/Pressure balance solve failed.").

End Initialize.

End Initializer.

(** ** Sample trays *)

Module Samples.
Import Pyomo TrayData.

Definition by_component : option (list index) :=
  Some [Idx "benzene"; Idx "toluene"].
Definition by_phase : option (list index) :=
  Some [Idx "Liq"; Idx "Vap"].

(** A package that states component flows, total enthalpy, temperature
    and pressure, and also exposes two phase-indexed variables. *)
Definition vle_package : property_package :=
  mkPackage ["Liq"; "Vap"] ["benzene"; "toluene"]
    [("flow_mol_comp", mkMember "flow_mol_comp" by_component);
     ("enth_mol", mkMember "enth_mol" None);
     ("flow_mol_phase", mkMember "flow_mol_phase" by_phase);
     ("enth_mol_phase", mkMember "enth_mol_phase" by_phase);
     ("temperature", mkMember "temperature" None);
     ("pressure", mkMember "pressure" None)].

(** Packages whose member names mix the keywords of the resolver. *)
Definition fraction_flow_package : property_package :=
  mkPackage ["Liq"; "Vap"] ["benzene"; "toluene"]
    [("flow_mole_frac", mkMember "flow_mole_frac" by_component);
     ("flow_comp", mkMember "flow_comp" by_component)].


Definition fraction_flow_phase_package : property_package :=
  mkPackage ["Liq"; "Vap"] ["benzene"; "toluene"]
    [("flow_mole_frac_phase", mkMember "flow_mole_frac_phase" by_phase)].

Definition side_draw_tray (pkg : property_package) : config :=
  mkConfig false true false false false pkg ∅.

Definition feed_tray (pkg : property_package) : config :=
  mkConfig true false false false false pkg ∅.

(** A block that holds the state blocks of a tray and nothing else. *)
Definition state_blocks : block :=
  <["properties_out" := StateBlock "State block for mixed outlet from tray" ∅]>
  (<["properties_in_vap" := StateBlock "State block for vap_inlet to tray" ∅]>
  (<["properties_in_liq" := StateBlock "State block for liq_inlet to tray" ∅]>
  (<["properties_in_feed" := StateBlock "State block for feed_inlet to tray" ∅]>
   ∅))).

(** A model before [initialize], with double-precision floating-point
    numbers, Python's [float], for variable values. *)
Definition unfixed_draw : Initializer.model float :=
  Initializer.mkModel float
    (Initializer.mkValues float 350%float 341%float 360%float
       101325%float 0%float 0%float)
    (Initializer.mkFlags true true false false (Some false) None)
    [].

Definition fixed_draw : Initializer.model float :=
  Initializer.mkModel float
    (Initializer.mkValues float 350%float 341%float 360%float
       101325%float 0%float 0%float)
    (Initializer.mkFlags true true false false (Some true) None)
    [].

(** [0.5 * (a + b)] on floats. *)
Definition mean (a b : float) : float := (0.5 * (a + b))%float.

(** A state block whose [initialize] leaves the values, and a solver
    that moves nothing and reports an infeasible problem. *)
Definition idle_state (blk : string) (outlvl : Z)
    (v : Initializer.values float) : Initializer.values float := v.

Definition failing_solver : Initializer.solver float :=
  fun _ _ v => (v, Initializer.other "infeasible").

End Samples.

(** ** The stages of initialize *)

Module Stages.
Import TrayData Initializer.

(** The guards at the head of [initialize]. *)
Definition guards_pass (cfg : config) (fl : flags) : Prop :=
  (has_liquid_side_draw cfg = true -> liq_side_sf_fixed fl = Some true) /\
  (has_vapor_side_draw cfg = true -> vap_side_sf_fixed fl = Some true).

(** The flags that the two solves see, and the flags at the end. *)
Definition mass_stage (fl : flags) : flags :=
  mkFlags false false true true (liq_side_sf_fixed fl) (vap_side_sf_fixed fl).
Definition energy_stage (fl : flags) : flags :=
  mkFlags true false false true (liq_side_sf_fixed fl) (vap_side_sf_fixed fl).
Definition full_stage (fl : flags) : flags :=
  mkFlags true true false false (liq_side_sf_fixed fl) (vap_side_sf_fixed fl).

(** The state blocks initialized, in order. *)
Definition initialized_blocks (cfg : config) : list string :=
  (if is_feed_tray cfg then ["properties_in_feed"] else [])
  ++ ["properties_in_liq"; "properties_in_vap"; "properties_out"].

(** [0.5 * (a + b)], lines 518 to 520, for any reading of the literal,
    of [*] and of [+]. *)
Definition average (num : Type) (half : num) (mul add : num -> num -> num)
    (a b : num) : num :=
  mul half (add a b).

Section Values.

Variable num : Type.
Variable half_sum : num -> num -> num.
Variable state_initialize : string -> Z -> values num -> values num.
Variable cfg : config.

(** The values after the state blocks have initialized themselves. *)
Definition after_state_initialize (outlvl : Z) (v : values num) : values num :=
  fold_left (fun v blk => state_initialize blk outlvl v)
            (initialized_blocks cfg) v.

(** The values handed to the first solve: the outlet temperature is the
    guess, the outlet pressure is the vapor inlet's. *)
Definition first_guess (v : values num) : values num :=
  mkValues num (feed_temperature num v) (liq_temperature num v)
    (vap_temperature num v) (vap_pressure num v)
    (if is_feed_tray cfg then feed_temperature num v
     else half_sum (liq_temperature num v) (vap_temperature num v))
    (vap_pressure num v).

End Values.

End Stages.

(** ** What port population may change *)

Module Frames.
Import Pyomo TrayData.

(** How the attribute [q] may differ after the port [port] has been
    populated: not at all; or by a new expression whose name starts with
    [e_]; or, for the port itself, in its entries, kind and doc being kept
    and the names it held staying where they were. *)
Definition same_component (port q : string) (o o' : option component) : Prop :=
  o = o' \/
  (o = None /\ String.prefix "e_" q = true /\
   exists body, o' = Some (Expression body)) \/
  (q = port /\ exists io doc ms ms',
     o = Some (Port io doc ms) /\ o' = Some (Port io doc ms') /\
     ms.*1 `prefix_of` ms'.*1).

Definition extends (port : string) (s s' : block) : Prop :=
  forall q, same_component port q (s !! q) (s' !! q).

(** A method that only reads the block, whatever its outcome. *)
Definition reads {A} (m : M A) : Prop := forall s, (m s).2 = s.

(** A method that, when it returns, has only extended the block. *)
Definition grows {A} (port : string) (m : M A) : Prop :=
  forall s a s', m s = (Ok a, s') -> extends port s s'.

(** The exception of the last [else] of the resolver. *)
Definition is_generic (e : exn) : bool :=
  match e with Exception_ _ => true | _ => false end.

(** A method that never raises a generic [Exception]. *)
Definition specific {A} (m : M A) : Prop :=
  forall s e s', m s = (Raise e, s') -> is_generic e = false.

(** The prefix of the expression that the iteration for [k] declares. *)
Definition expression_prefix (k : string) : option string :=
  if negb (PyStr.contains "flow" k) && negb (PyStr.contains "frac" k)
     && negb (PyStr.contains "enth" k) then None
  else if is_fraction k then
    if negb (PyStr.contains "phase" k) then Some "e_mole_frac_" else None
  else if PyStr.contains "flow" k then
    if negb (PyStr.contains "phase" k) then Some "e_flow_" else None
  else if PyStr.contains "enth" k then
    if negb (PyStr.contains "phase" k) then Some "e_enth_" else None
  else None.

End Frames.

(** ** Ports and their phases *)

Module Ports.
Import Pyomo TrayData.

(** The phase tag that [_add_ports] passes for each outlet-side port. *)
Definition phase_of_port (port : string) : string :=
  if String.prefix "liq" port then "Liq" else "Vap".

(** The block that the inlet port stored under [q] passes through. *)
Definition inlet_of (s : block) (q : string) : option string :=
  match s !! q with
  | Some (Port (Some blk) _ _) => Some blk
  | _ => None
  end.

(** The inlet ports that [_add_ports] adds, with their state blocks. *)
Definition inlet_roles (cfg : config) : list (string * string) :=
  (if is_feed_tray cfg then [("feed", "properties_in_feed")] else [])
  ++ [("liq_in", "properties_in_liq"); ("vap_in", "properties_in_vap")].

End Ports.

(** ** Counting separators *)

Module Segments.

(** [s.count(c)] for a character. *)
Fixpoint count (c : ascii) (s : string) : nat :=
  match s with
  | EmptyString => 0
  | String a s' => (if Ascii.eqb a c then 1 else 0) + count c s'
  end.

End Segments.

(** ** More sample trays *)

Module MoreSamples.
Import Pyomo TrayData Samples.

(** A package that states a total flow and total mole fractions. *)
Definition fraction_package : property_package :=
  mkPackage ["Liq"; "Vap"] ["benzene"; "toluene"]
    [("flow_mol", mkMember "flow_mol" None);
     ("mole_frac_comp", mkMember "mole_frac_comp" by_component);
     ("temperature", mkMember "temperature" None);
     ("pressure", mkMember "pressure" None)].

(** A package with two total flows. *)
Definition two_flows_package : property_package :=
  mkPackage ["Liq"; "Vap"] ["benzene"; "toluene"]
    [("flow_mol", mkMember "flow_mol" None);
     ("temperature", mkMember "temperature" None);
     ("flow_mol_comp", mkMember "flow_mol_comp" by_component)].

(** A package whose fraction has a two-segment name. *)
Definition short_fraction_package : property_package :=
  mkPackage ["Liq"; "Vap"] ["benzene"; "toluene"]
    [("temperature", mkMember "temperature" None);
     ("mole_frac", mkMember "mole_frac" by_component)].

(** A package that names a phase-indexed enthalpy flow. *)
Definition enthalpy_flow_phase_package : property_package :=
  mkPackage ["Liq"; "Vap"] ["benzene"; "toluene"]
    [("temperature", mkMember "temperature" None);
     ("enth_flow_phase", mkMember "enth_flow_phase" by_phase)].

(** A package without phases. *)
Definition no_phase_package : property_package :=
  mkPackage [] ["benzene"; "toluene"]
    [("temperature", mkMember "temperature" None)].

(** A feed tray with heat transfer and a pressure change. *)
Definition heated_feed_tray (pkg : property_package) : config :=
  mkConfig true false false true true pkg ∅.


(** A block with an empty liquid outlet beside the state blocks. *)
Definition with_liq_out : block :=
  <["liq_out" := Port None "liquid outlet from tray" []]> state_blocks.

End MoreSamples.

(** * Properties *)

(** ** The method monad *)

Lemma bind_ok_inv {S A B} (m : ST S A) (f : A -> ST S B) s b s' :
  (m ≫= f) s = (Ok b, s') ->
  exists a s1, m s = (Ok a, s1) /\ f a s1 = (Ok b, s').
Proof.
  unfold mbind, ST_bind. destruct (m s) as [[a|e] s1]; intros H.
  - eauto.
  - discriminate.
Qed.

Lemma bind_ok_intro {S A B} (m : ST S A) (f : A -> ST S B) s a s1 :
  m s = (Ok a, s1) -> (m ≫= f) s = f a s1.
Proof. unfold mbind, ST_bind. intros ->. reflexivity. Qed.

Lemma bind_raise_intro {S A B} (m : ST S A) (f : A -> ST S B) s e s1 :
  m s = (Raise e, s1) -> (m ≫= f) s = (Raise e, s1).
Proof. unfold mbind, ST_bind. intros ->. reflexivity. Qed.

(** ** build *)

Section BuildFacts.
Import Pyomo TrayData.

(** A string never indexes the inlet list: the first statement of the
    loop body raises and leaves the block as it was. *)
Lemma build_inlet_string inlet_list args x (s : block) :
  build_inlet inlet_list args (PyString x) s = (Raise TypeError, s).
Proof. reflexivity. Qed.

Lemma build_inlets_raise cfg args (s : block) :
  let inlet_list :=
    if is_feed_tray cfg
    then [PyString "feed"; PyString "liq"; PyString "vap"]
    else [PyString "liq"; PyString "vap"] in
  build_inlets inlet_list args inlet_list s = (Raise TypeError, s).
Proof. destruct (is_feed_tray cfg); reflexivity. Qed.

Lemma build_after_super cfg time (super_build : M unit) (s s1 : block) :
  super_build s = (Ok tt, s1) ->
  build cfg time super_build s = (Raise TypeError, s1).
Proof.
  intros Hsuper. unfold build.
  rewrite (bind_ok_intro _ _ _ _ _ Hsuper).
  apply bind_raise_intro. apply build_inlets_raise.
Qed.

End BuildFacts.

Section BuildClaims.
Import Pyomo TrayData.

(** C2: for every configuration, [build] raises a [TypeError] in the first
    iteration of the loop over the inlet roles, where the role name itself
    is used to index the list of role names.  No inlet state block is
    attached: the block is left exactly as the base class's [build]
    returned it, and [build] does not complete. *)
Theorem build_raises_TypeError cfg time (super_build : M unit) (s s1 : block) :
  super_build s = (Ok tt, s1) ->
  build cfg time super_build s = (Raise TypeError, s1).
Proof. apply build_after_super. Qed.

Lemma build_raises_TypeError_witness :
  (mret tt : M unit) (∅ : block) = (Ok tt, ∅) /\
  build (mkConfig true false false false false (mkPackage [] [] []) ∅)
        [0] (mret tt) ∅ = (Raise TypeError, ∅).
Proof.
  split; [reflexivity|].
  apply (build_raises_TypeError _ _ (mret tt) ∅ ∅). reflexivity.
Defined.

(** C8 (the code departs from it): a tray is to expose the inlet ports
    [feed], [liq_in] and [vap_in] (or the last two), but [build] on a
    fresh block never reaches [_add_ports]: it raises [TypeError] for
    every configuration and the block holds no inlet port. *)
Theorem build_exposes_no_inlet_port cfg time :
  (build cfg time (mret tt) ∅).1 = Raise TypeError /\
  inlet_ports (build cfg time (mret tt) ∅).2 = ∅.
Proof.
  rewrite (build_after_super cfg time (mret tt) ∅ ∅ eq_refl).
  cbn [fst snd]. split; [reflexivity|].
  unfold inlet_ports. rewrite map_filter_empty. apply dom_empty_L.
Qed.

End BuildClaims.

(** ** Balance equations *)

Section BalanceFacts.
Import Pyomo TrayData Frames.

Lemma eval_fold_left_Add (A : arithmetic) (rho : pexpr -> A) l acc :
  eval A rho (fold_left Add l acc)
  = fold_left (py_add A) (map (eval A rho) l) (eval A rho acc).
Proof.
  revert acc. induction l as [|e l IH]; intros acc; [reflexivity|].
  cbn [fold_left map]. rewrite IH. reflexivity.
Qed.

Lemma eval_py_sum (A : arithmetic) (rho : pexpr -> A) l :
  eval A rho (py_sum l) = sum_values A (map (eval A rho) l).
Proof. unfold py_sum, sum_values. apply eval_fold_left_Add. Qed.

Lemma is_numeric_fold_left_Add l acc :
  is_numeric acc = false -> is_numeric (fold_left Add l acc) = false.
Proof.
  revert acc. induction l as [|e l IH]; intros acc Hacc; [exact Hacc|].
  cbn [fold_left]. apply IH. cbn. rewrite Hacc. reflexivity.
Qed.

Lemma is_numeric_py_sum e l :
  is_numeric e = false -> is_numeric (py_sum (e :: l)) = false.
Proof.
  intros He. unfold py_sum. cbn [fold_left].
  apply is_numeric_fold_left_Add. cbn. exact He.
Qed.

(** *** Methods that only read *)

Lemma reads_ret {A} (a : A) : reads (mret a : M A).
Proof. intros s. reflexivity. Qed.

Lemma reads_raise {A} e : reads (raise e : M A).
Proof. intros s. reflexivity. Qed.

Lemma reads_bind {A B} (m : M A) (f : A -> M B) :
  reads m -> (forall a, reads (f a)) -> reads (m ≫= f).
Proof.
  intros Hm Hf s. unfold mbind, ST_bind. specialize (Hm s).
  destruct (m s) as [[a|e] s1]; cbn in Hm; subst s1; [apply Hf | reflexivity].
Qed.

Lemma reads_getattr name : reads (getattr name).
Proof. intros s. unfold getattr. destruct (s !! name); reflexivity. Qed.

Lemma reads_state_block_at time blk t : reads (state_block_at time blk t).
Proof.
  unfold state_block_at. apply reads_bind; [apply reads_getattr|].
  intros [| | | |]; try apply reads_raise.
  destruct (decide (t ∈ time)); [apply reads_ret | apply reads_raise].
Qed.

Lemma reads_for_each {A B} (f : A -> M B) l :
  (forall a, reads (f a)) -> reads (for_each f l).
Proof.
  intros Hf. induction l as [|a l IH]; [apply reads_ret|].
  cbn [for_each]. apply reads_bind; [apply Hf|]. intros b.
  apply reads_bind; [exact IH|]. intros bs. apply reads_ret.
Qed.

Ltac read_only :=
  repeat first
    [ apply reads_ret | apply reads_raise | apply reads_getattr
    | apply reads_state_block_at
    | apply reads_for_each; intros ?
    | apply reads_bind; [|intros ?] ].

Lemma reads_material_mixing_equations cfg time t j :
  reads (material_mixing_equations cfg time t j).
Proof.
  unfold material_mixing_equations, get_material_flow_terms.
  destruct (is_feed_tray cfg); read_only.
Qed.

Lemma reads_enthalpy_mixing_equations cfg time t :
  reads (enthalpy_mixing_equations cfg time t).
Proof.
  unfold enthalpy_mixing_equations, enthalpy_sum, get_enthalpy_flow_terms.
  destruct (is_feed_tray cfg), (has_heat_transfer cfg); read_only.
Qed.

Lemma reads_pressure_drop_equation cfg time t :
  reads (pressure_drop_equation cfg time t).
Proof.
  unfold pressure_drop_equation, pressure.
  destruct (has_pressure_change cfg); read_only.
Qed.

(** *** State-block lookups *)

Lemma state_block_at_present time blk t (s : block) :
  is_state_block s blk -> t ∈ time ->
  state_block_at time blk t s = (Ok tt, s).
Proof.
  intros (doc & args & Hs) Ht. unfold state_block_at, getattr.
  cbv [mbind ST_bind]. rewrite Hs. rewrite decide_True by done. reflexivity.
Qed.

Lemma state_block_at_missing time blk t (s : block) :
  s !! blk = None -> state_block_at time blk t s = (Raise AttributeError, s).
Proof.
  intros Hs. unfold state_block_at, getattr. cbv [mbind ST_bind].
  rewrite Hs. reflexivity.
Qed.

(** At a time point of the flowsheet a lookup returns or raises
    [AttributeError]. *)
Lemma state_block_at_cases time blk t (s : block) :
  t ∈ time ->
  state_block_at time blk t s = (Ok tt, s) \/
  state_block_at time blk t s = (Raise AttributeError, s).
Proof.
  intros Ht. unfold state_block_at, getattr. cbv [mbind ST_bind].
  destruct (s !! blk) as [[| | | |]|]; auto.
  rewrite decide_True by done. auto.
Qed.

Lemma is_state_block_insert_ne (s : block) name c blk :
  blk <> name -> is_state_block s blk -> is_state_block (<[name := c]> s) blk.
Proof.
  intros Hne (doc & args & Hs). exists doc, args.
  rewrite lookup_insert_ne; done.
Qed.

(** *** Loops and constraint construction *)

Lemma for_each_ok {A B} (f : A -> M B) (g : A -> B) l (s : block) :
  (forall a, a ∈ l -> f a s = (Ok (g a), s)) ->
  for_each f l s = (Ok (map g l), s).
Proof.
  induction l as [|a l IH]; intros Hf; [reflexivity|].
  cbn [for_each map]. cbv [mbind ST_bind].
  rewrite Hf by left. fold (@mbind (ST block) _).
  rewrite IH by (intros; apply Hf; right; done). reflexivity.
Qed.

Lemma for_each_raise {A B} (f : A -> M B) a l e (s s' : block) :
  f a s = (Raise e, s') -> for_each f (a :: l) s = (Raise e, s').
Proof. intros Hf. cbn [for_each]. cbv [mbind ST_bind]. rewrite Hf. reflexivity. Qed.

Section Construct.

Context {K : Type} (name doc : string) (to_key : K -> Z * list index).
Context (rule : K -> M relation).

Lemma construct_constraint_ok (g : K -> relation) (P : block -> Prop) :
  (forall s c, P s -> P (<[name := c]> s)) ->
  forall keys body (s : block),
    P s ->
    (forall key s, key ∈ keys -> P s -> rule key s = (Ok (g key), s)) ->
    (forall key, key ∈ keys -> check_relation (g key) = Ok (g key)) ->
    s !! name = Some (Constraint doc body) ->
    construct_constraint name doc to_key rule keys body s
    = (Ok tt, <[name := Constraint doc
                          (body ++ map (fun key => (to_key key, g key)) keys)]> s).
Proof.
  intros HP keys. induction keys as [|key keys IH]; intros body s Hs Hrule Hcheck Hname.
  - cbn. rewrite app_nil_r, insert_id by done. reflexivity.
  - cbn [construct_constraint]. cbv [mbind ST_bind].
    rewrite Hrule by (done || left). cbv [lift].
    rewrite Hcheck by left. cbv [setattr].
    fold (@mbind (ST block) _).
    rewrite IH.
    + rewrite insert_insert_eq. cbn [map]. rewrite <- app_assoc. reflexivity.
    + apply HP. exact Hs.
    + intros key' s' Hin. apply Hrule. right. exact Hin.
    + intros key' Hin. apply Hcheck. right. exact Hin.
    + apply lookup_insert_eq.
Qed.

Lemma add_constraint_ok (g : K -> relation) (P : block -> Prop) keys (s : block) :
  (forall s c, P s -> P (<[name := c]> s)) ->
  P s ->
  (forall key s, key ∈ keys -> P s -> rule key s = (Ok (g key), s)) ->
  (forall key, key ∈ keys -> check_relation (g key) = Ok (g key)) ->
  add_constraint name doc to_key keys rule s
  = (Ok tt, <[name := Constraint doc
                        (map (fun key => (to_key key, g key)) keys)]> s).
Proof.
  intros HP Hs Hrule Hcheck. unfold add_constraint.
  cbv [mbind ST_bind setattr].
  rewrite (construct_constraint_ok g P HP keys []); try done.
  - rewrite insert_insert_eq. reflexivity.
  - apply HP. exact Hs.
  - apply lookup_insert_eq.
Qed.

Lemma add_constraint_raise key keys e (s : block) :
  (rule key ≫= fun r => lift (check_relation r))
    (<[name := Constraint doc []]> s)
  = (Raise e, <[name := Constraint doc []]> s) ->
  add_constraint name doc to_key (key :: keys) rule s
  = (Raise e, <[name := Constraint doc []]> s).
Proof.
  intros H. unfold add_constraint. cbv [mbind ST_bind setattr] in *.
  cbn [construct_constraint]. cbv [mbind ST_bind].
  destruct (rule key (<[name := Constraint doc []]> s)) as [[r|e'] s1].
  - rewrite H. reflexivity.
  - injection H as -> ->. reflexivity.
Qed.

(** Whatever the outcome, a rule that only reads leaves the constraint
    declared, with keys that are the first of the keys it was to have. *)
Lemma construct_constraint_state :
  (forall key, reads (rule key)) ->
  forall keys body (s : block),
    s !! name = Some (Constraint doc body) ->
    exists built,
      (construct_constraint name doc to_key rule keys body s).2
      = <[name := Constraint doc (body ++ built)]> s /\
      built.*1 `prefix_of` map to_key keys.
Proof.
  intros Hreads keys. induction keys as [|key keys IH]; intros body s Hname.
  - exists []. cbn. rewrite app_nil_r, insert_id by done.
    split; [reflexivity | apply prefix_nil].
  - cbn [construct_constraint]. cbv [mbind ST_bind].
    specialize (Hreads key s).
    destruct (rule key s) as [[r|e] s1]; cbn in Hreads; subst s1.
    + cbv [lift]. destruct (check_relation r) as [r'|e].
      * cbv [setattr]. fold (@mbind (ST block) _).
        destruct (IH (body ++ [(to_key key, r')])
                    (<[name := Constraint doc (body ++ [(to_key key, r')])]> s))
          as (built & Hstate & Hpre); [apply lookup_insert_eq|].
        exists ((to_key key, r') :: built). split.
        -- rewrite Hstate, insert_insert_eq, <- app_assoc. reflexivity.
        -- cbn. apply prefix_cons. exact Hpre.
      * exists []. cbn. rewrite app_nil_r, insert_id by done.
        split; [reflexivity | apply prefix_nil].
    + exists []. cbn. rewrite app_nil_r, insert_id by done.
      split; [reflexivity | apply prefix_nil].
Qed.

Lemma add_constraint_state keys (s : block) :
  (forall key, reads (rule key)) ->
  exists built,
    (add_constraint name doc to_key keys rule s).2
    = <[name := Constraint doc built]> s /\
    built.*1 `prefix_of` map to_key keys.
Proof.
  intros Hreads. unfold add_constraint. cbv [mbind ST_bind setattr].
  destruct (construct_constraint_state Hreads keys []
              (<[name := Constraint doc []]> s))
    as (built & Hstate & Hpre); [apply lookup_insert_eq|].
  exists built. rewrite Hstate, insert_insert_eq. auto.
Qed.

End Construct.

End BalanceFacts.
Section BalanceClaims.
Import Pyomo TrayData Frames.

Context (cfg : config) (time : list Z).

Lemma balance_block_name blk :
  blk ∈ balance_blocks cfg ->
  blk <> "material_mixing_equations" /\ blk <> "enthalpy_mixing_equations" /\
  blk <> "heat_duty".
Proof.
  unfold balance_blocks, inlet_blocks. intros Hin.
  destruct (is_feed_tray cfg); cbn in Hin;
    repeat (apply elem_of_cons in Hin as [->|Hin]; [done|]);
    apply elem_of_nil in Hin as [].
Qed.

Lemma balance_blocks_insert (s : block) name c :
  name = "material_mixing_equations" \/ name = "enthalpy_mixing_equations" \/
  name = "heat_duty" ->
  (forall blk, blk ∈ balance_blocks cfg -> is_state_block s blk) ->
  forall blk, blk ∈ balance_blocks cfg -> is_state_block (<[name := c]> s) blk.
Proof.
  intros Hname Hs blk Hin. apply is_state_block_insert_ne; [|auto].
  destruct (balance_block_name blk Hin) as (H1 & H2 & H3).
  destruct Hname as [-> | [-> | ->]]; done.
Qed.

Lemma get_material_flow_terms_present blk t p j (s : block) :
  is_state_block s blk -> t ∈ time ->
  get_material_flow_terms time blk t p j s = (Ok (MaterialFlowTerm blk t p j), s).
Proof.
  intros Hs Ht. unfold get_material_flow_terms. cbv [mbind ST_bind].
  rewrite state_block_at_present by done. reflexivity.
Qed.

Lemma get_material_flow_terms_cases blk t p j (s : block) :
  t ∈ time ->
  get_material_flow_terms time blk t p j s = (Ok (MaterialFlowTerm blk t p j), s) \/
  get_material_flow_terms time blk t p j s = (Raise AttributeError, s).
Proof.
  intros Ht. unfold get_material_flow_terms. cbv [mbind ST_bind].
  destruct (state_block_at_cases time blk t s Ht) as [-> | ->]; auto.
Qed.

Lemma get_material_flow_terms_missing blk t p j (s : block) :
  s !! blk = None ->
  get_material_flow_terms time blk t p j s = (Raise AttributeError, s).
Proof.
  intros Hs. unfold get_material_flow_terms. cbv [mbind ST_bind].
  rewrite state_block_at_missing by done. reflexivity.
Qed.

Lemma enthalpy_sum_present blk t (s : block) :
  is_state_block s blk -> t ∈ time ->
  enthalpy_sum cfg time blk t s
  = (Ok (py_sum (map (EnthalpyFlowTerm blk t) (phase_list (package cfg)))), s).
Proof.
  intros Hs Ht. unfold enthalpy_sum. cbv [mbind ST_bind].
  rewrite (for_each_ok _ (EnthalpyFlowTerm blk t)); [reflexivity|].
  intros p _. unfold get_enthalpy_flow_terms. cbv [mbind ST_bind].
  rewrite state_block_at_present by done. reflexivity.
Qed.

Lemma enthalpy_sum_cases blk t (s : block) :
  t ∈ time ->
  enthalpy_sum cfg time blk t s
  = (Ok (py_sum (map (EnthalpyFlowTerm blk t) (phase_list (package cfg)))), s) \/
  enthalpy_sum cfg time blk t s = (Raise AttributeError, s).
Proof.
  intros Ht. unfold enthalpy_sum. cbv [mbind ST_bind].
  destruct (state_block_at_cases time blk t s Ht) as [H|H].
  - left. rewrite (for_each_ok _ (EnthalpyFlowTerm blk t)); [reflexivity|].
    intros p _. unfold get_enthalpy_flow_terms. cbv [mbind ST_bind].
    rewrite H. reflexivity.
  - destruct (phase_list (package cfg)) as [|p ps]; [left; reflexivity|].
    right. rewrite (for_each_raise _ p ps AttributeError s s); [reflexivity|].
    unfold get_enthalpy_flow_terms. cbv [mbind ST_bind]. rewrite H. reflexivity.
Qed.

Lemma enthalpy_sum_missing blk t (s : block) :
  s !! blk = None -> phase_list (package cfg) <> [] ->
  enthalpy_sum cfg time blk t s = (Raise AttributeError, s).
Proof.
  intros Hs Hp. unfold enthalpy_sum. cbv [mbind ST_bind].
  destruct (phase_list (package cfg)) as [|p ps]; [done|].
  rewrite (for_each_raise _ p ps AttributeError s s); [reflexivity|].
  unfold get_enthalpy_flow_terms. cbv [mbind ST_bind].
  rewrite state_block_at_missing by done. reflexivity.
Qed.

Lemma pressure_cases blk t (s : block) :
  t ∈ time ->
  pressure time blk t s = (Ok (StateAttr blk t "pressure"), s) \/
  pressure time blk t s = (Raise AttributeError, s).
Proof.
  intros Ht. unfold pressure. cbv [mbind ST_bind].
  destruct (state_block_at_cases time blk t s Ht) as [-> | ->]; auto.
Qed.

Lemma pressure_present blk t (s : block) :
  is_state_block s blk -> t ∈ time ->
  pressure time blk t s = (Ok (StateAttr blk t "pressure"), s).
Proof.
  intros Hs Ht. unfold pressure. cbv [mbind ST_bind].
  rewrite state_block_at_present by done. reflexivity.
Qed.

Lemma pressure_missing blk t (s : block) :
  s !! blk = None -> pressure time blk t s = (Raise AttributeError, s).
Proof.
  intros Hs. unfold pressure. cbv [mbind ST_bind].
  rewrite state_block_at_missing by done. reflexivity.
Qed.

Lemma elem_of_pairs (l1 : list Z) (l2 : list string) t j :
  (t, j) ∈ (t ← l1 ; map (fun j => (t, j)) l2) <-> t ∈ l1 /\ j ∈ l2.
Proof.
  rewrite list_elem_of_bind. split.
  - intros (t' & Hin & Ht). apply list_elem_of_fmap in Hin as (j' & [= -> ->] & Hj).
    done.
  - intros [Ht Hj]. exists t. split; [|done].
    apply list_elem_of_fmap. eauto.
Qed.

(** C4, amended: on a tray that holds the state blocks of its inlets and
    of its outlet, and for a property package with at least one phase,
    [_add_material_balance] declares [material_mixing_equations] with
    exactly one equality per (time point, component) pair, in the order
    of the two sets.  The equality for [(t, j)] has [0] on its left and, on
    its right, Python's [sum] over the phases of the inlet material flow
    terms (feed, liquid and vapor on a feed tray, liquid and vapor
    otherwise, added in that order) minus the outlet's term; this in any
    arithmetic, floating-point included. *)
Theorem material_mixing_one_equality_per_pair (s : block) :
  (forall blk, blk ∈ balance_blocks cfg -> is_state_block s blk) ->
  phase_list (package cfg) <> [] ->
  exists body,
    _add_material_balance cfg time s =
      (Ok tt, <["material_mixing_equations" :=
                  Constraint "material balance" body]> s) /\
    body.*1 = (t ← time ; j ← component_list (package cfg) ; [(t, [Idx j])]) /\
    length body = (length time * length (component_list (package cfg)))%nat /\
    forall key r, (key, r) ∈ body ->
      exists t j, key = (t, [Idx j]) /\ t ∈ time /\
        j ∈ component_list (package cfg) /\
        forall (A : arithmetic) (rho : pexpr -> A),
          holds A rho r <->
          py_int A 0
          = sum_values A
              (map (fun p =>
                 py_sub A
                   (add_all A (map (fun blk => rho (MaterialFlowTerm blk t p j))
                                   (inlet_blocks cfg)))
                   (rho (MaterialFlowTerm "properties_out" t p j)))
               (phase_list (package cfg))).
Proof.
  intros Hblocks Hphases.
  set (comps := component_list (package cfg)).
  set (term := fun (tj : Z * string) p =>
         if is_feed_tray cfg then
           Sub (Add (Add (MaterialFlowTerm "properties_in_feed" tj.1 p tj.2)
                         (MaterialFlowTerm "properties_in_liq" tj.1 p tj.2))
                    (MaterialFlowTerm "properties_in_vap" tj.1 p tj.2))
               (MaterialFlowTerm "properties_out" tj.1 p tj.2)
         else
           Sub (Add (MaterialFlowTerm "properties_in_liq" tj.1 p tj.2)
                    (MaterialFlowTerm "properties_in_vap" tj.1 p tj.2))
               (MaterialFlowTerm "properties_out" tj.1 p tj.2)).
  set (g := fun tj => Equals (Num 0) (py_sum (map (term tj) (phase_list (package cfg))))).
  exists (map (fun tj => ((tj.1, [Idx tj.2]), g tj))
              (t ← time ; map (fun j => (t, j)) comps)).
  split; [|split; [|split]].
  - unfold _add_material_balance.
    apply (add_constraint_ok _ _ _ _ g
             (fun s => forall blk, blk ∈ balance_blocks cfg -> is_state_block s blk)).
    + intros s0 c Hs0. apply balance_blocks_insert; auto.
    + exact Hblocks.
    + intros [t j] s0 Hin Hs0. apply elem_of_pairs in Hin as [Ht Hj].
      assert (Hout : is_state_block s0 "properties_out").
      { apply Hs0. unfold balance_blocks. apply elem_of_app. right. left. }
      assert (Hin : forall blk, blk ∈ inlet_blocks cfg -> is_state_block s0 blk).
      { intros blk Hb. apply Hs0. unfold balance_blocks. apply elem_of_app. auto. }
      unfold material_mixing_equations, g, term, inlet_blocks in *. cbn [fst snd].
      destruct (is_feed_tray cfg); cbv [mbind ST_bind].
      * rewrite (for_each_ok _ (fun p =>
                   Sub (Add (Add (MaterialFlowTerm "properties_in_feed" t p j)
                                 (MaterialFlowTerm "properties_in_liq" t p j))
                            (MaterialFlowTerm "properties_in_vap" t p j))
                       (MaterialFlowTerm "properties_out" t p j))); [reflexivity|].
        intros p _. cbv [mbind ST_bind].
        rewrite !get_material_flow_terms_present; try done.
        -- apply Hin. do 2 right. left.
        -- apply Hin. right. left.
        -- apply Hin. left.
      * rewrite (for_each_ok _ (fun p =>
                   Sub (Add (MaterialFlowTerm "properties_in_liq" t p j)
                            (MaterialFlowTerm "properties_in_vap" t p j))
                       (MaterialFlowTerm "properties_out" t p j))); [reflexivity|].
        intros p _. cbv [mbind ST_bind].
        rewrite !get_material_flow_terms_present; try done.
        -- apply Hin. right. left.
        -- apply Hin. left.
    + intros tj _. unfold g, check_relation.
      destruct (phase_list (package cfg)) as [|p ps]; [done|].
      cbn [map]. rewrite is_numeric_py_sum; [reflexivity|].
      unfold term. destruct (is_feed_tray cfg); reflexivity.
  - induction time as [|t ts IH]; [reflexivity|].
    cbn. rewrite map_app, fmap_app, IH. f_equal.
    clear. induction comps as [|j js IH]; [reflexivity|].
    cbn. f_equal. exact IH.
  - rewrite length_map.
    induction time as [|t ts IH]; [reflexivity|].
    cbn. rewrite length_app, length_map, IH. reflexivity.
  - intros key r Hin.
    apply list_elem_of_fmap in Hin as ([t j] & [= -> ->] & Hin).
    apply elem_of_pairs in Hin as [Ht Hj].
    exists t, j. do 3 (split; [done|]).
    intros A rho. unfold g, term, inlet_blocks. cbn [holds eval fst snd].
    rewrite eval_py_sum, map_map.
    destruct (is_feed_tray cfg); reflexivity.
Qed.

(** X21: on a tray that lacks one of the state blocks that the material
    balance reads (the others being state blocks or lacking too), with at
    least one time point, component and phase, [_add_material_balance]
    raises [AttributeError] on the first key.  The constraint has been
    declared by then and stays, without any equality. *)
Theorem material_balance_needs_state_blocks (s : block) blk :
  blk ∈ balance_blocks cfg -> s !! blk = None ->
  (forall b, b ∈ balance_blocks cfg -> s !! b = None \/ is_state_block s b) ->
  time <> [] -> component_list (package cfg) <> [] ->
  phase_list (package cfg) <> [] ->
  _add_material_balance cfg time s
  = (Raise AttributeError,
     <["material_mixing_equations" := Constraint "material balance" []]> s).
Proof.
  intros Hblk Hnone _ Htime Hcomps Hphases. unfold _add_material_balance.
  destruct time as [|t ts] eqn:Et; [done|].
  destruct (component_list (package cfg)) as [|j js]; [done|].
  destruct (phase_list (package cfg)) as [|p ps] eqn:Ep; [done|].
  rewrite <- Et. rewrite Et at 1. cbn [mbind list_bind map app].
  apply add_constraint_raise. cbn [fst snd].
  set (s1 := <["material_mixing_equations" := Constraint "material balance" []]> s).
  assert (Ht : t ∈ time) by (rewrite Et; left).
  assert (Hmiss : forall p j, get_material_flow_terms time blk t p j s1
                              = (Raise AttributeError, s1)).
  { intros. apply get_material_flow_terms_missing. unfold s1.
    rewrite lookup_insert_ne; [done|].
    destruct (balance_block_name blk Hblk) as (H1 & _). congruence. }
  unfold material_mixing_equations, balance_blocks, inlet_blocks in *.
  rewrite Ep.
  destruct (is_feed_tray cfg); cbn in Hblk.
  - apply bind_raise_intro. apply bind_raise_intro.
    apply for_each_raise. cbv [mbind ST_bind].
    destruct (get_material_flow_terms_cases "properties_in_feed" t p j s1 Ht)
      as [H1|H1]; rewrite H1; [|reflexivity].
    destruct (get_material_flow_terms_cases "properties_in_liq" t p j s1 Ht)
      as [H2|H2]; rewrite H2; [|reflexivity].
    destruct (get_material_flow_terms_cases "properties_in_vap" t p j s1 Ht)
      as [H3|H3]; rewrite H3; [|reflexivity].
    destruct (get_material_flow_terms_cases "properties_out" t p j s1 Ht)
      as [H4|H4]; rewrite H4; [|reflexivity].
    exfalso.
    repeat (apply elem_of_cons in Hblk as [->|Hblk]; [rewrite Hmiss in *; done|]).
    apply elem_of_nil in Hblk as [].
  - apply bind_raise_intro. apply bind_raise_intro.
    apply for_each_raise. cbv [mbind ST_bind].
    destruct (get_material_flow_terms_cases "properties_in_liq" t p j s1 Ht)
      as [H2|H2]; rewrite H2; [|reflexivity].
    destruct (get_material_flow_terms_cases "properties_in_vap" t p j s1 Ht)
      as [H3|H3]; rewrite H3; [|reflexivity].
    destruct (get_material_flow_terms_cases "properties_out" t p j s1 Ht)
      as [H4|H4]; rewrite H4; [|reflexivity].
    exfalso.
    repeat (apply elem_of_cons in Hblk as [->|Hblk]; [rewrite Hmiss in *; done|]).
    apply elem_of_nil in Hblk as [].
Qed.

Ltac sum_or_raise blk t s1 Ht :=
  let H := fresh "H" in
  destruct (enthalpy_sum_cases blk t s1 Ht) as [H|H]; rewrite H; [|reflexivity].

(** X1: on a tray that holds the state blocks of its inlets and of its
    outlet, [_add_energy_balance] declares [enthalpy_mixing_equations]
    with one equality per time point, provided the package has a phase or
    heat transfer is configured.  The equality at [t] has [0] on its left
    and, on its right, the phase sums of the enthalpy flow terms of the
    inlets (the feed first on a feed tray) added in order, minus the phase
    sum of the outlet, plus [heat_duty] when heat transfer is configured;
    this in any arithmetic.  [heat_duty] is declared (with initial value
    0) only with heat transfer.  On a tray that lacks one of these state
    blocks, with a time point and a phase, the method raises
    [AttributeError] and leaves the constraint declared and empty. *)
Theorem enthalpy_mixing_one_equality_per_time (s : block) :
  ((forall blk, blk ∈ balance_blocks cfg -> is_state_block s blk) ->
   phase_list (package cfg) <> [] \/ has_heat_transfer cfg = true ->
   exists body s',
     _add_energy_balance cfg time s = (Ok tt, s') /\
     s' !! "enthalpy_mixing_equations" = Some (Constraint "energy balance" body) /\
     s' !! "heat_duty"
       = (if has_heat_transfer cfg
          then Some (Var (IntLit 0) "heat duty for the tray")
          else s !! "heat_duty") /\
     body.*1 = keys1 time /\
     forall key r, (key, r) ∈ body ->
       exists t, key = (t, []) /\ t ∈ time /\
         forall (A : arithmetic) (rho : pexpr -> A),
           let phase_sum blk :=
             sum_values A (map (fun p => rho (EnthalpyFlowTerm blk t p))
                               (phase_list (package cfg))) in
           let net :=
             py_sub A (add_all A (map phase_sum (inlet_blocks cfg)))
                      (phase_sum "properties_out") in
           holds A rho r <->
           py_int A 0
           = (if has_heat_transfer cfg
              then py_add A net (rho (TrayVar "heat_duty"))
              else net)) /\
  (forall blk,
     blk ∈ balance_blocks cfg -> s !! blk = None ->
     (forall b, b ∈ balance_blocks cfg -> s !! b = None \/ is_state_block s b) ->
     time <> [] -> phase_list (package cfg) <> [] ->
     exists s',
       _add_energy_balance cfg time s = (Raise AttributeError, s') /\
       s' !! "enthalpy_mixing_equations" = Some (Constraint "energy balance" [])).
Proof.
  set (s0 := if has_heat_transfer cfg
             then <["heat_duty" := Var (IntLit 0) "heat duty for the tray"]> s
             else s).
  assert (Hrun : _add_energy_balance cfg time s
                 = add_constraint "enthalpy_mixing_equations" "energy balance"
                     (fun t => (t, [])) time (enthalpy_mixing_equations cfg time) s0).
  { unfold _add_energy_balance, s0. destruct (has_heat_transfer cfg); reflexivity. }
  set (psum := fun blk t =>
         py_sum (map (EnthalpyFlowTerm blk t) (phase_list (package cfg)))).
  set (g := fun t =>
         let net :=
           if is_feed_tray cfg
           then Sub (Add (Add (psum "properties_in_feed" t)
                              (psum "properties_in_liq" t))
                         (psum "properties_in_vap" t))
                    (psum "properties_out" t)
           else Sub (Add (psum "properties_in_liq" t)
                         (psum "properties_in_vap" t))
                    (psum "properties_out" t) in
         Equals (Num 0)
           (if has_heat_transfer cfg then Add net (TrayVar "heat_duty") else net)).
  split.
  - intros Hblocks Hsome.
    exists (map (fun t => ((t, []), g t)) time).
    exists (<["enthalpy_mixing_equations" :=
                Constraint "energy balance" (map (fun t => ((t, []), g t)) time)]> s0).
    split; [|split; [|split; [|split]]].
    + rewrite Hrun.
      apply (add_constraint_ok _ _ _ _ g
               (fun s => (forall blk, blk ∈ balance_blocks cfg -> is_state_block s blk) /\
                         (has_heat_transfer cfg = true -> is_Some (s !! "heat_duty")))).
      * intros s1 c [Hb Hh]. split.
        -- apply balance_blocks_insert; auto.
        -- intros Hheat. rewrite lookup_insert_ne by done. auto.
      * unfold s0. split.
        -- destruct (has_heat_transfer cfg); [|exact Hblocks].
           apply balance_blocks_insert; auto.
        -- intros ->. rewrite lookup_insert_eq. eauto.
      * intros t s1 Ht [Hb Hh].
        assert (Hout : is_state_block s1 "properties_out").
        { apply Hb. unfold balance_blocks. apply elem_of_app. right. left. }
        assert (Hin : forall blk, blk ∈ inlet_blocks cfg -> is_state_block s1 blk).
        { intros blk Hblk. apply Hb. unfold balance_blocks. apply elem_of_app. auto. }
        unfold enthalpy_mixing_equations, g, psum, inlet_blocks in *.
        destruct (is_feed_tray cfg), (has_heat_transfer cfg) eqn:Eh;
          cbv [mbind ST_bind];
          rewrite ?enthalpy_sum_present by
            (try done; apply Hin; first [left | right; left | do 2 right; left]);
          try reflexivity.
        all: destruct (Hh eq_refl) as [c Hc]; unfold getattr; rewrite Hc;
          reflexivity.
      * intros t _. unfold g, check_relation.
        destruct (has_heat_transfer cfg) eqn:Eh.
        -- cbn. rewrite andb_false_r. reflexivity.
        -- destruct Hsome as [Hp|]; [|done].
           unfold psum. destruct (phase_list (package cfg)) as [|p ps]; [done|].
           cbn [map].
           destruct (is_feed_tray cfg); cbn [is_numeric];
             rewrite (is_numeric_py_sum (EnthalpyFlowTerm _ t p)) by reflexivity;
             reflexivity.
    + apply lookup_insert_eq.
    + rewrite lookup_insert_ne by done. unfold s0.
      destruct (has_heat_transfer cfg); [apply lookup_insert_eq | reflexivity].
    + unfold keys1. clear. induction time as [|t ts IH]; [reflexivity|].
      cbn. f_equal. exact IH.
    + intros key r Hin.
      apply list_elem_of_fmap in Hin as (t & [= -> ->] & Ht).
      exists t. do 2 (split; [done|]).
      intros A rho. unfold g, psum, inlet_blocks. cbv zeta.
      destruct (is_feed_tray cfg), (has_heat_transfer cfg);
        cbn [holds eval map add_all fold_left];
        rewrite !eval_py_sum, !map_map; reflexivity.
  - intros blk Hblk Hnone _ Htime Hphases.
    exists (<["enthalpy_mixing_equations" := Constraint "energy balance" []]> s0).
    split; [|apply lookup_insert_eq].
    rewrite Hrun. destruct time as [|t ts] eqn:Et; [done|].
    rewrite <- Et. rewrite Et at 1. apply add_constraint_raise.
    set (s1 := <["enthalpy_mixing_equations" := Constraint "energy balance" []]> s0).
    assert (Ht : t ∈ time) by (rewrite Et; left).
    assert (Hmiss : enthalpy_sum cfg time blk t s1 = (Raise AttributeError, s1)).
    { apply enthalpy_sum_missing; [|done]. unfold s1, s0.
      destruct (balance_block_name blk Hblk) as (_ & H2 & H3).
      rewrite lookup_insert_ne by congruence.
      destruct (has_heat_transfer cfg); [|done].
      rewrite lookup_insert_ne by congruence. done. }
    apply bind_raise_intro.
    unfold enthalpy_mixing_equations, balance_blocks, inlet_blocks in *.
    destruct (is_feed_tray cfg), (has_heat_transfer cfg); cbn in Hblk;
      cbv [mbind ST_bind].
    all: try sum_or_raise "properties_in_feed" t s1 Ht.
    all: sum_or_raise "properties_in_liq" t s1 Ht.
    all: sum_or_raise "properties_in_vap" t s1 Ht.
    all: sum_or_raise "properties_out" t s1 Ht.
    all: exfalso.
    all: repeat (apply elem_of_cons in Hblk as [->|Hblk]; [rewrite Hmiss in *; done|]).
    all: apply elem_of_nil in Hblk as [].
Qed.

(** X2: on a tray that holds the outlet and the vapor inlet state blocks,
    [_add_pressure_balance] declares [pressure_drop_equation] with one
    equality per time point: the outlet pressure on the left; on the right
    the vapor inlet's pressure, less [deltaP] when a pressure change is
    configured.  [deltaP] is declared (with initial value 0) only with a
    pressure change.  On a tray that lacks one of the two state blocks,
    with a time point, the method raises [AttributeError] and leaves the
    constraint declared and empty. *)
Theorem pressure_drop_one_equality_per_time (s : block) :
  (is_state_block s "properties_out" -> is_state_block s "properties_in_vap" ->
   exists body s',
     _add_pressure_balance cfg time s = (Ok tt, s') /\
     s' !! "pressure_drop_equation"
       = Some (Constraint "pressure balance for tray" body) /\
     s' !! "deltaP"
       = (if has_pressure_change cfg
          then Some (Var (IntLit 0) "pressure drop across tray")
          else s !! "deltaP") /\
     body.*1 = keys1 time /\
     forall key r, (key, r) ∈ body ->
       exists t, key = (t, []) /\ t ∈ time /\
         forall (A : arithmetic) (rho : pexpr -> A),
           holds A rho r <->
           rho (StateAttr "properties_out" t "pressure")
           = (if has_pressure_change cfg
              then py_sub A (rho (StateAttr "properties_in_vap" t "pressure"))
                            (rho (TrayVar "deltaP"))
              else rho (StateAttr "properties_in_vap" t "pressure"))) /\
  (forall blk,
     blk ∈ ["properties_out"; "properties_in_vap"] -> s !! blk = None ->
     (forall b, b ∈ ["properties_out"; "properties_in_vap"] ->
        s !! b = None \/ is_state_block s b) ->
     time <> [] ->
     exists s',
       _add_pressure_balance cfg time s = (Raise AttributeError, s') /\
       s' !! "pressure_drop_equation"
         = Some (Constraint "pressure balance for tray" [])).
Proof.
  set (s0 := if has_pressure_change cfg
             then <["deltaP" := Var (IntLit 0) "pressure drop across tray"]> s
             else s).
  assert (Hrun : _add_pressure_balance cfg time s
                 = add_constraint "pressure_drop_equation" "pressure balance for tray"
                     (fun t => (t, [])) time (pressure_drop_equation cfg time) s0).
  { unfold _add_pressure_balance, s0. destruct (has_pressure_change cfg); reflexivity. }
  set (g := fun t =>
         Equals (StateAttr "properties_out" t "pressure")
           (if has_pressure_change cfg
            then Sub (StateAttr "properties_in_vap" t "pressure") (TrayVar "deltaP")
            else StateAttr "properties_in_vap" t "pressure")).
  split.
  - intros Hout Hvap.
    exists (map (fun t => ((t, []), g t)) time).
    exists (<["pressure_drop_equation" :=
                Constraint "pressure balance for tray"
                  (map (fun t => ((t, []), g t)) time)]> s0).
    split; [|split; [|split; [|split]]].
    + rewrite Hrun.
      apply (add_constraint_ok _ _ _ _ g
               (fun s => is_state_block s "properties_out" /\
                         is_state_block s "properties_in_vap" /\
                         (has_pressure_change cfg = true -> is_Some (s !! "deltaP")))).
      * intros s1 c (H1 & H2 & H3). split; [|split].
        -- apply is_state_block_insert_ne; done.
        -- apply is_state_block_insert_ne; done.
        -- intros Hpc. rewrite lookup_insert_ne by done. auto.
      * unfold s0. destruct (has_pressure_change cfg).
        -- split; [|split].
           ++ apply is_state_block_insert_ne; done.
           ++ apply is_state_block_insert_ne; done.
           ++ intros _. rewrite lookup_insert_eq. eauto.
        -- split; [done|]. split; [done|]. discriminate.
      * intros t s1 Ht (H1 & H2 & H3).
        unfold pressure_drop_equation, g.
        destruct (has_pressure_change cfg); cbv [mbind ST_bind];
          rewrite !pressure_present by done; [|reflexivity].
        destruct (H3 eq_refl) as [c Hc]. unfold getattr. rewrite Hc. reflexivity.
      * intros t _. reflexivity.
    + apply lookup_insert_eq.
    + rewrite lookup_insert_ne by done. unfold s0.
      destruct (has_pressure_change cfg); [apply lookup_insert_eq | reflexivity].
    + unfold keys1. clear. induction time as [|t ts IH]; [reflexivity|].
      cbn. f_equal. exact IH.
    + intros key r Hin.
      apply list_elem_of_fmap in Hin as (t & [= -> ->] & Ht).
      exists t. do 2 (split; [done|]).
      intros A rho. unfold g.
      destruct (has_pressure_change cfg); reflexivity.
  - intros blk Hblk Hnone _ Htime.
    exists (<["pressure_drop_equation" :=
                Constraint "pressure balance for tray" []]> s0).
    split; [|apply lookup_insert_eq].
    rewrite Hrun. destruct time as [|t ts] eqn:Et; [done|].
    rewrite <- Et. rewrite Et at 1. apply add_constraint_raise.
    set (s1 := <["pressure_drop_equation" :=
                   Constraint "pressure balance for tray" []]> s0).
    assert (Ht : t ∈ time) by (rewrite Et; left).
    assert (Hmiss : pressure time blk t s1 = (Raise AttributeError, s1)).
    { apply pressure_missing. unfold s1, s0.
      assert (blk <> "pressure_drop_equation" /\ blk <> "deltaP") as [H1 H2].
      { repeat (apply elem_of_cons in Hblk as [->|Hblk]; [done|]).
        apply elem_of_nil in Hblk as []. }
      rewrite lookup_insert_ne by congruence.
      destruct (has_pressure_change cfg); [|done].
      rewrite lookup_insert_ne by congruence. done. }
    apply bind_raise_intro.
    unfold pressure_drop_equation.
    destruct (has_pressure_change cfg); cbv [mbind ST_bind].
    all: destruct (pressure_cases "properties_out" t s1 Ht) as [H1|H1];
      rewrite H1; [|reflexivity].
    all: destruct (pressure_cases "properties_in_vap" t s1 Ht) as [H2|H2];
      rewrite H2; [|reflexivity].
    all: exfalso.
    all: repeat (apply elem_of_cons in Hblk as [->|Hblk]; [rewrite Hmiss in *; done|]).
    all: apply elem_of_nil in Hblk as [].
Qed.

(** X15: When the time set and the component list have no repeated element, no
    (time point, component) pair indexes two material balances. *)
Theorem material_mixing_keys_distinct (s : block) :
  NoDup time -> NoDup (component_list (package cfg)) ->
  exists body,
    (_add_material_balance cfg time s).2 !! "material_mixing_equations"
      = Some (Constraint "material balance" body) /\
    NoDup body.*1.
Proof.
  intros Ht Hc. unfold _add_material_balance.
  destruct (add_constraint_state "material_mixing_equations" "material balance"
              (fun tj : Z * string => (tj.1, [Idx tj.2]))
              (fun tj => material_mixing_equations cfg time tj.1 tj.2)
              (t ← time ; map (fun j => (t, j)) (component_list (package cfg))) s)
    as (built & Hstate & [rest Hpre]).
  { intros tj. apply reads_material_mixing_equations. }
  exists built. rewrite Hstate. split; [apply lookup_insert_eq|].
  assert (Hall : NoDup (map (fun tj : Z * string => (tj.1, [Idx tj.2]))
                          (t ← time ; map (fun j => (t, j))
                                          (component_list (package cfg))))).
  { apply NoDup_fmap_2.
    - intros [t j] [t' j'] [= -> ->]. reflexivity.
    - clear Hstate Hpre. induction Ht as [|t ts Hnotin Hts IH]; [constructor|].
      cbn. apply NoDup_app. split; [|split].
      + apply NoDup_fmap_2; [|done]. intros j j' [= ->]. reflexivity.
      + intros [t' j'] Hin Hin'.
        apply list_elem_of_fmap in Hin as (j & [= -> ->] & _).
        apply elem_of_pairs in Hin' as [Hin' _]. done.
      + exact IH. }
  rewrite Hpre in Hall. apply NoDup_app in Hall as [Hall _]. exact Hall.
Qed.

End BalanceClaims.
(** ** Ports *)

Section PortFacts.
Import Pyomo TrayData.

Lemma assoc_dict_set_eq {V} k (v : V) l : assoc k (dict_set k v l) = Some v.
Proof.
  induction l as [|[k' v'] l IH]; cbn.
  - rewrite decide_True; done.
  - destruct (decide (k' = k)); cbn.
    + rewrite decide_True; done.
    + rewrite decide_False; done.
Qed.

Lemma assoc_dict_set_ne {V} k k' (v : V) l :
  k' <> k -> assoc k' (dict_set k v l) = assoc k' l.
Proof.
  intros Hne. induction l as [|[k0 v0] l IH]; cbn.
  - rewrite decide_False; done.
  - destruct (decide (k0 = k)) as [->|]; cbn.
    + rewrite !decide_False; done.
    + destruct (decide (k0 = k')); done.
Qed.


(** The keys keep their places. *)
Lemma dict_set_keys {V} k (v : V) l : l.*1 `prefix_of` (dict_set k v l).*1.
Proof.
  induction l as [|[k' v'] l IH]; cbn; [apply prefix_nil|].
  destruct (decide (k' = k)) as [->|]; cbn.
  - reflexivity.
  - apply prefix_cons. exact IH.
Qed.

Lemma omap_total {A B} (rule : A -> outcome B) (g : A -> B) keys :
  (forall key, rule key = Ok (g key)) ->
  omap (fun key => obind (rule key) (fun e => Ok (key, e))) keys
  = Ok (map (fun key => (key, g key)) keys).
Proof.
  intros Hr. induction keys as [|key keys IH]; cbn; [reflexivity|].
  rewrite Hr, IH. reflexivity.
Qed.

Lemma omap_raise {A B} (rule : A -> outcome B) e keys body :
  (forall key, rule key = Raise e) ->
  omap (fun key => obind (rule key) (fun e => Ok (key, e))) keys = Ok body ->
  keys = [] /\ body = [].
Proof.
  intros Hr. destruct keys as [|key keys]; cbn.
  - intros [= <-]. auto.
  - rewrite Hr. discriminate.
Qed.

Lemma add_component_ok name c (s s' : block) :
  add_component name c s = (Ok tt, s') ->
  s !! name = None /\ s' = <[name := c]> s.
Proof.
  unfold add_component. destruct (s !! name); [discriminate|].
  intros [= <-]. auto.
Qed.

Lemma add_expression_ok name keys rule (s s' : block) body :
  add_expression name keys rule s = (Ok body, s') ->
  s !! name = None /\
  omap (fun key => obind (rule key) (fun e => Ok (key, e))) keys = Ok body /\
  s' = <[name := Expression body]> s.
Proof.
  unfold add_expression. intros H.
  apply bind_ok_inv in H as ([] & s1 & H1 & H).
  apply add_component_ok in H1 as [Hnone ->].
  apply bind_ok_inv in H as (body' & s2 & H2 & H).
  unfold lift in H2. injection H2 as H2 <-.
  cbv [mbind ST_bind setattr mret ST_ret] in H. injection H as <- <-.
  rewrite insert_insert_eq. auto.
Qed.

Lemma port_add_ok port x k (s s' : block) :
  port_add port x k s = (Ok tt, s') ->
  exists io doc ms,
    s !! port = Some (Port io doc ms) /\
    s' = <[port := Port io doc (dict_set k x ms)]> s.
Proof.
  unfold port_add, getattr. cbv [mbind ST_bind].
  destruct (s !! port) as [[| | | |io doc ms]|]; try discriminate.
  cbv [setattr]. intros [= <-]. exists io, doc, ms. auto.
Qed.

Lemma members_of_insert_ne (s : block) name c q :
  q <> name -> members_of (<[name := c]> s) q = members_of s q.
Proof. intros Hne. unfold members_of. rewrite lookup_insert_ne; done. Qed.

Lemma members_of_insert_new (s : block) name body q :
  s !! name = None ->
  members_of (<[name := Expression body]> s) q = members_of s q.
Proof.
  intros Hnone. unfold members_of.
  destruct (decide (name = q)) as [->|Hne].
  - rewrite lookup_insert_eq, Hnone. reflexivity.
  - rewrite lookup_insert_ne; done.
Qed.

Lemma port_add_entered port x k (s s' : block) :
  port_add port x k s = (Ok tt, s') -> entered port k x s s'.
Proof.
  intros H. apply port_add_ok in H as (io & doc & ms & Hs & ->).
  split.
  - intros q Hq. apply members_of_insert_ne; done.
  - exists ms. unfold members_of. rewrite Hs, lookup_insert_eq. auto.
Qed.

Lemma entered_after_expression port k x name body (s s' : block) :
  s !! name = None ->
  entered port k x (<[name := Expression body]> s) s' ->
  entered port k x s s'.
Proof.
  intros Hnone [Hother (ms & Hms & Hs')]. split.
  - intros q Hq. rewrite Hother by done. apply members_of_insert_new; done.
  - exists ms. rewrite members_of_insert_new in Hms by done. auto.
Qed.

Context (cfg : config) (time : list Z).

Lemma ret_after_port_add port x k (ln ln' : option string) (s s' : block) :
  (port_add port x k ≫= fun _ => mret ln) s = (Ok ln', s') ->
  ln' = ln /\ entered port k x s s'.
Proof.
  intros H. apply bind_ok_inv in H as ([] & s1 & H1 & H).
  injection H as <- <-. split; [reflexivity|].
  apply port_add_entered; done.
Qed.

Lemma ret_after_expression name keys rule g port k (ln ln' : option string)
    (s s' : block) :
  (forall key, rule key = Ok (g key)) ->
  (add_expression name keys rule ≫= fun expr =>
     port_add port (PExpression expr) k ≫= fun _ => mret ln) s = (Ok ln', s') ->
  ln' = ln /\ entered port k (PExpression (expression_body keys g)) s s'.
Proof.
  intros Hrule H. apply bind_ok_inv in H as (body & s1 & H1 & H).
  apply add_expression_ok in H1 as (Hnone & Hbody & ->).
  rewrite (omap_total _ g) in Hbody by done. injection Hbody as <-.
  apply ret_after_port_add in H as [-> Happ]. split; [reflexivity|].
  eapply entered_after_expression; done.
Qed.

Lemma ret_after_unbound_expression name keys rule e port k
    (ln ln' : option string) (s s' : block) :
  (forall key, rule key = Raise e) ->
  (add_expression name keys rule ≫= fun expr =>
     port_add port (PExpression expr) k ≫= fun _ => mret ln) s = (Ok ln', s') ->
  ln' = ln /\ entered port k (PExpression []) s s'.
Proof.
  intros Hrule H. apply bind_ok_inv in H as (body & s1 & H1 & H).
  apply add_expression_ok in H1 as (Hnone & Hbody & ->).
  apply (omap_raise _ e) in Hbody as [_ ->]; [|done].
  apply ret_after_port_add in H as [-> Happ]. split; [reflexivity|].
  eapply entered_after_expression; done.
Qed.

(** An iteration that returns has assigned [local_name] and changed the
    ports as [next_local_name] and [member_entry] tell. *)
Lemma phase_split_member_ok port phase side_sf k m ln ln' (s s' : block) :
  phase_split_member time port phase side_sf k m ln s = (Ok ln', s') ->
  ln' = next_local_name k m ln /\
  match member_entry time phase side_sf k m ln with
  | Some x => entered port k x s s'
  | None => s' = s
  end.
Proof.
  unfold phase_split_member, member_entry, next_local_name, is_fraction.
  destruct (negb (PyStr.contains "flow" k) && negb (PyStr.contains "frac" k)
            && negb (PyStr.contains "enth" k)).
  { apply ret_after_port_add. }
  destruct (PyStr.contains "frac" k
            && (PyStr.contains "mole" k || PyStr.contains "mass" k)).
  { destruct (negb (PyStr.contains "phase" k)).
    - destruct (PyStr.split PyStr.underscore k !! 2%nat) as [s2|];
        [|discriminate].
      apply ret_after_expression. reflexivity.
    - apply ret_after_port_add. }
  destruct (PyStr.contains "flow" k).
  { destruct (negb (PyStr.contains "phase" k)); [|intros [= <- <-]; done].
    destruct (negb (is_indexed m)).
    - apply ret_after_expression. reflexivity.
    - match goal with
      | |- context [rule_flow ?l] => destruct l as [n|] eqn:El
      end.
      + apply (ret_after_expression _ _ _
                 (fun key => Mul (phase_component n phase key) side_sf)).
        reflexivity.
      + apply (ret_after_unbound_expression _ _ _ NameError). reflexivity. }
  destruct (PyStr.contains "enth" k); [|intros [= <- <-]; done].
  destruct (negb (PyStr.contains "phase" k)).
  - destruct (negb (is_indexed m)); [|discriminate].
    apply ret_after_expression. reflexivity.
  - destruct (PyStr.contains "phase" k); [|discriminate].
    apply ret_after_port_add.
Qed.

Lemma entered_new port k x (s s' : block) :
  entered port k x s s' -> port_member_of s' port k = Some x.
Proof.
  intros [_ (ms & _ & Hs')]. unfold port_member_of.
  rewrite Hs'. cbn. apply assoc_dict_set_eq.
Qed.

Lemma entered_other port k x (s s' : block) q k' :
  entered port k x s s' -> q <> port \/ k' <> k ->
  port_member_of s' q k' = port_member_of s q k'.
Proof.
  intros [Hother (ms & Hms & Hs')] Hne. unfold port_member_of.
  destruct (decide (q = port)) as [->|Hq].
  - destruct Hne as [|Hk]; [done|].
    rewrite Hms, Hs'. cbn. apply assoc_dict_set_ne. exact Hk.
  - rewrite Hother; done.
Qed.

(** A loop that returns: entries under other names and on other ports
    are as they were; a name that the port held is still held; a name
    that one of the members put on the port is held; and whatever the
    port holds was there before or comes from one of the members. *)
Lemma phase_split_loop_ok port phase side_sf l :
  forall ln ln' (s s' : block),
  phase_split_loop time port phase side_sf l ln s = (Ok ln', s') ->
  (forall q k, q <> port \/ k ∉ l.*1 ->
     port_member_of s' q k = port_member_of s q k) /\
  (forall k y0, port_member_of s port k = Some y0 ->
     exists y, port_member_of s' port k = Some y /\
       (y = y0 \/ exists m ln0, (k, m) ∈ l /\
                    member_entry time phase side_sf k m ln0 = Some y)) /\
  (forall k m x, (k, m) ∈ l ->
     (forall ln0, member_entry time phase side_sf k m ln0 = Some x) ->
     exists y, port_member_of s' port k = Some y /\
       exists m' ln0, (k, m') ∈ l /\
         member_entry time phase side_sf k m' ln0 = Some y) /\
  (forall q k y, port_member_of s' q k = Some y ->
     port_member_of s q k = Some y \/
     (q = port /\ exists m ln0, (k, m) ∈ l /\
                   member_entry time phase side_sf k m ln0 = Some y)).
Proof.
  induction l as [|[k0 m0] l IH]; intros ln ln' s s' H.
  - injection H as <- <-. split; [auto|]. split; [eauto|]. split; [|auto].
    intros k m x Hin. apply elem_of_nil in Hin as [].
  - cbn in H. apply bind_ok_inv in H as (ln1 & s1 & H1 & H).
    apply phase_split_member_ok in H1 as [-> Hentry].
    apply IH in H as (Hother & Hstay & Hnew & Honly). clear IH.
    assert (Hstay' : forall k y0, port_member_of s port k = Some y0 ->
              exists y, port_member_of s' port k = Some y /\
                (y = y0 \/ exists m ln0, (k, m) ∈ (k0, m0) :: l /\
                    member_entry time phase side_sf k m ln0 = Some y)).
    { intros k y0 Hy0.
      assert (exists y1, port_member_of s1 port k = Some y1 /\
                (y1 = y0 \/ (k = k0 /\
                   member_entry time phase side_sf k0 m0 ln = Some y1)))
        as (y1 & Hy1 & Hsrc).
      { destruct (member_entry _ _ _ k0 m0 ln) as [x|] eqn:Ex;
          [|subst; eauto].
        destruct (decide (k = k0)) as [->|Hne].
        - exists x. split; [eapply entered_new; done | auto].
        - exists y0. split; [|auto].
          rewrite (entered_other _ _ _ _ _ _ _ Hentry) by auto. exact Hy0. }
      destruct (Hstay k y1 Hy1) as (y & Hy & [->|(m & ln0 & Hin & Hm)]).
      - exists y1. split; [exact Hy|].
        destruct Hsrc as [->|[-> Hm]]; [auto|].
        right. exists m0, ln. split; [left | exact Hm].
      - exists y. split; [exact Hy|]. right. exists m, ln0.
        split; [right; exact Hin | exact Hm]. }
    split; [|split; [exact Hstay'|split]].
    + intros q k Hne. rewrite Hother.
      * destruct (member_entry _ _ _ k0 m0 ln) as [x|]; [|subst; done].
        apply (entered_other _ _ _ _ _ _ _ Hentry).
        destruct Hne as [|Hk]; [auto|]. right. intros ->. apply Hk.
        cbn. left.
      * destruct Hne as [|Hk]; [auto|]. right. intros Hin. apply Hk.
        cbn. right. exact Hin.
    + intros k m x Hin Hx. apply elem_of_cons in Hin as [[= -> ->]|Hin].
      * rewrite Hx in Hentry. apply entered_new in Hentry.
        destruct (Hstay k0 x Hentry) as (y & Hy & [->|(m & ln0 & Hin & Hm)]).
        -- exists x. split; [exact Hy|]. exists m0, ln. split; [left | apply Hx].
        -- exists y. split; [exact Hy|]. exists m, ln0.
           split; [right; exact Hin | exact Hm].
      * destruct (Hnew k m x Hin Hx) as (y & Hy & m' & ln0 & Hin' & Hm).
        exists y. split; [exact Hy|]. exists m', ln0.
        split; [right; exact Hin' | exact Hm].
    + intros q k y Hy. apply Honly in Hy as [Hy|(-> & m & ln0 & Hin & Hy)].
      * destruct (member_entry _ _ _ k0 m0 ln) as [x|] eqn:Ex; [|subst; auto].
        destruct (decide (q = port /\ k = k0)) as [[-> ->]|Hne].
        -- rewrite (entered_new _ _ _ _ _ Hentry) in Hy. injection Hy as <-.
           right. split; [done|]. exists m0, ln. split; [left | exact Ex].
        -- left. rewrite <- Hy. symmetry.
           apply (entered_other _ _ _ _ _ _ _ Hentry).
           destruct (decide (q = port)); [|auto].
           destruct (decide (k = k0)); [|auto]. exfalso. auto.
      * right. split; [done|]. exists m, ln0. split; [right|]; done.
Qed.

Lemma state_block_at_ok blk t (s s' : block) :
  state_block_at time blk t s = (Ok tt, s') -> s' = s.
Proof.
  unfold state_block_at, getattr. cbv [mbind ST_bind].
  destruct (s !! blk) as [[]|]; try discriminate.
  destruct (decide (t ∈ time)); [|discriminate].
  intros [= <-]. reflexivity.
Qed.

Lemma port_member_of_insert_ne (s : block) name c q k :
  q <> name -> port_member_of (<[name := c]> s) q k = port_member_of s q k.
Proof.
  intros Hne. unfold port_member_of. rewrite members_of_insert_ne; done.
Qed.

Lemma port_member_of_insert_empty (s : block) name io doc k :
  port_member_of (<[name := Port io doc []]> s) name k = None.
Proof.
  unfold port_member_of, members_of. rewrite lookup_insert_eq. reflexivity.
Qed.

Lemma port_member_of_insert_var (s : block) name v doc k :
  port_member_of (<[name := Var v doc]> s) name k = None.
Proof.
  unfold port_member_of, members_of. rewrite lookup_insert_eq. reflexivity.
Qed.

Lemma add_inlet_port_ok name blk (s s' : block) :
  add_inlet_port cfg time name blk s = (Ok tt, s') ->
  exists members, s' = <[name := Port (Some blk) "Inlet Port" members]> s.
Proof.
  unfold add_inlet_port. intros H.
  apply bind_ok_inv in H as ([] & s1 & H1 & H).
  apply state_block_at_ok in H1 as ->. injection H as <-. eauto.
Qed.

(** Every iteration of a loop that returns has returned. *)
Lemma phase_split_loop_member port phase side_sf l k m :
  (k, m) ∈ l ->
  forall ln ln' (s s' : block),
  phase_split_loop time port phase side_sf l ln s = (Ok ln', s') ->
  exists ln0 ln1 (s0 s1 : block),
    phase_split_member time port phase side_sf k m ln0 s0 = (Ok ln1, s1).
Proof.
  induction l as [|[k0 m0] l IH]; intros Hin ln ln' s s' H.
  - apply elem_of_nil in Hin as [].
  - cbn in H. apply bind_ok_inv in H as (ln1 & s1 & H1 & H).
    apply elem_of_cons in Hin as [[= -> ->]|Hin]; [eauto 6|].
    eapply IH; done.
Qed.

Lemma make_phase_split_member port phase side_sf k m (s s' : block) :
  (k, m) ∈ define_port_members (package cfg) ->
  _make_phase_split cfg time port phase side_sf s = (Ok tt, s') ->
  exists ln0 ln1 (s0 s1 : block),
    phase_split_member time port phase side_sf k m ln0 s0 = (Ok ln1, s1).
Proof.
  intros Hin H. unfold _make_phase_split in H.
  apply bind_ok_inv in H as ([] & s1 & _ & H).
  apply bind_ok_inv in H as (ln' & s2 & H & _).
  eapply phase_split_loop_member; done.
Qed.

Lemma phase_split_loop_app port phase sf l1 l2 :
  forall ln ln' (s s' : block),
  phase_split_loop time port phase sf (l1 ++ l2) ln s = (Ok ln', s') ->
  exists ln1 (s1 : block),
    phase_split_loop time port phase sf l1 ln s = (Ok ln1, s1) /\
    phase_split_loop time port phase sf l2 ln1 s1 = (Ok ln', s').
Proof.
  induction l1 as [|[k m] l1 IH]; intros ln ln' s s' H.
  - exists ln, s. split; [reflexivity | exact H].
  - cbn in H. apply bind_ok_inv in H as (ln0 & s0 & H0 & H).
    apply IH in H as (ln1 & s1 & H1 & H2).
    exists ln1, s1. split; [|exact H2].
    cbn. rewrite (bind_ok_intro _ _ _ _ _ H0). exact H1.
Qed.

End PortFacts.
(** ** Frame and error behaviour of the port resolver *)

Section FrameFacts.
Import Pyomo TrayData Frames.

Lemma same_component_refl port q o : same_component port q o o.
Proof. left. reflexivity. Qed.

Lemma same_component_trans port q o1 o2 o3 :
  same_component port q o1 o2 -> same_component port q o2 o3 ->
  same_component port q o1 o3.
Proof.
  intros [->|[(-> & Hq & body & ->)|(Hp & io & doc & ms & ms' & -> & -> & Hpre)]] H23;
    [exact H23| |].
  - destruct H23 as [<-|[(H & _)|(_ & io & doc & ms & ms' & H & _)]];
      try discriminate.
    right. left. eauto.
  - destruct H23 as [<-|[(H & _)|(_ & io' & doc' & ms1 & ms2 & H & -> & Hpre')]];
      try discriminate.
    + right. right. eauto 10.
    + injection H as <- <- <-. right. right. split; [done|].
      exists io, doc, ms, ms2. split; [done|]. split; [done|].
      etrans; done.
Qed.

Lemma extends_refl port (s : block) : extends port s s.
Proof. intros q. apply same_component_refl. Qed.

Lemma extends_trans port (s1 s2 s3 : block) :
  extends port s1 s2 -> extends port s2 s3 -> extends port s1 s3.
Proof. intros H12 H23 q. eapply same_component_trans; [apply H12 | apply H23]. Qed.

Lemma extends_declared port (s s' : block) q :
  extends port s s' -> s !! q <> None -> s' !! q <> None.
Proof.
  intros H Hq.
  destruct (H q) as [Heq|[(Hn & _)|(_ & io & doc & ms & ms' & _ & Hq' & _)]];
    congruence.
Qed.

Lemma grows_ret {A} port (a : A) : grows port (mret a : M A).
Proof. intros s a' s' [= <- <-]. apply extends_refl. Qed.

Lemma grows_raise {A} port e : grows port (raise e : M A).
Proof. intros s a s' H. discriminate H. Qed.

Lemma grows_bind {A B} port (m : M A) (f : A -> M B) :
  grows port m -> (forall a, grows port (f a)) -> grows port (m ≫= f).
Proof.
  intros Hm Hf s b s' H. apply bind_ok_inv in H as (a & s1 & H1 & H2).
  eapply extends_trans; [eapply Hm | eapply Hf]; done.
Qed.

Lemma grows_port_add port x k : grows port (port_add port x k).
Proof.
  intros s [] s' H. apply port_add_ok in H as (io & doc & ms & Hs & ->).
  intros q. destruct (decide (q = port)) as [->|Hne].
  - right. right. split; [done|]. exists io, doc, ms, (dict_set k x ms).
    rewrite lookup_insert_eq. split; [done|]. split; [done|].
    apply dict_set_keys.
  - left. rewrite lookup_insert_ne; done.
Qed.

Lemma grows_add_expression port name keys rule :
  String.prefix "e_" name = true -> grows port (add_expression name keys rule).
Proof.
  intros Hname s body s' H.
  apply add_expression_ok in H as (Hnone & _ & ->).
  intros q. destruct (decide (q = name)) as [->|Hne].
  - right. left. rewrite lookup_insert_eq. eauto.
  - left. rewrite lookup_insert_ne; done.
Qed.

Lemma grows_state_block_at port time blk t : grows port (state_block_at time blk t).
Proof.
  intros s [] s' H. apply state_block_at_ok in H as ->. apply extends_refl.
Qed.

Ltac grow :=
  repeat first
    [ apply grows_ret | apply grows_raise | apply grows_port_add
    | apply grows_state_block_at
    | apply grows_add_expression; reflexivity
    | apply grows_bind; [|intros ?]
    | match goal with
      | |- grows _ (if ?b then _ else _) => destruct b
      | |- grows _ (match ?x with _ => _ end) => destruct x
      | |- grows _ (let _ := _ in _) => cbv zeta
      end ].

Lemma grows_phase_split_member time port phase side_sf k m ln :
  grows port (phase_split_member time port phase side_sf k m ln).
Proof. unfold phase_split_member. grow. Qed.

Lemma grows_phase_split_loop time port phase side_sf l :
  forall ln, grows port (phase_split_loop time port phase side_sf l ln).
Proof.
  induction l as [|[k m] l IH]; intros ln; cbn.
  - apply grows_ret.
  - apply grows_bind; [apply grows_phase_split_member | apply IH].
Qed.

Lemma grows_make_phase_split cfg time port phase side_sf :
  grows port (_make_phase_split cfg time port phase side_sf).
Proof.
  unfold _make_phase_split. grow. apply grows_phase_split_loop.
Qed.

(** What a [_make_phase_split] that returns has left on the ports. *)
Lemma make_phase_split_ok cfg time port phase side_sf (s s' : block) :
  _make_phase_split cfg time port phase side_sf s = (Ok tt, s') ->
  (forall q k, q <> port \/ k ∉ (define_port_members (package cfg)).*1 ->
     port_member_of s' q k = port_member_of s q k) /\
  (forall k m x, (k, m) ∈ define_port_members (package cfg) ->
     (forall ln0, member_entry time phase side_sf k m ln0 = Some x) ->
     exists y, port_member_of s' port k = Some y /\
       exists m' ln0, (k, m') ∈ define_port_members (package cfg) /\
         member_entry time phase side_sf k m' ln0 = Some y) /\
  (forall q k y, port_member_of s' q k = Some y ->
     port_member_of s q k = Some y \/ (q = port /\ from_member cfg time phase k y)).
Proof.
  unfold _make_phase_split. intros H.
  apply bind_ok_inv in H as ([] & s1 & H1 & H).
  apply state_block_at_ok in H1 as ->.
  apply bind_ok_inv in H as (ln' & s2 & H2 & H). injection H as <-.
  apply phase_split_loop_ok in H2 as (Hother & _ & Hnew & Honly).
  split; [done|]. split; [done|].
  intros q k y Hy. apply Honly in Hy as [Hy|(-> & m & ln0 & Hin & Hy)]; [auto|].
  right. split; [done|]. exists m, ln0, side_sf. done.
Qed.


(** *** The last branch of the resolver *)

Lemma specific_ret {A} (a : A) : specific (mret a : M A).
Proof. intros s e s' H. discriminate H. Qed.

Lemma specific_raise {A} e : is_generic e = false -> specific (raise e : M A).
Proof. intros He s e' s' [= <- <-]. exact He. Qed.

Lemma specific_bind {A B} (m : M A) (f : A -> M B) :
  specific m -> (forall a, specific (f a)) -> specific (m ≫= f).
Proof.
  intros Hm Hf s e s' H. unfold mbind, ST_bind in H.
  destruct (m s) as [[a|e1] s1] eqn:Hms.
  - eapply Hf. exact H.
  - injection H as <- <-. eapply Hm. exact Hms.
Qed.

Lemma specific_port_add port x k : specific (port_add port x k).
Proof.
  intros s e s'. unfold port_add, getattr. cbv [mbind ST_bind].
  destruct (s !! port) as [[| | | |io doc ms]|]; cbv [setattr];
    try discriminate; intros [= <- <-]; reflexivity.
Qed.

Lemma omap_raise_inv {A B} (f : A -> outcome B) l e :
  omap f l = Raise e -> exists a, f a = Raise e.
Proof.
  induction l as [|a l IH]; cbn; [discriminate|].
  destruct (f a) as [b|e1] eqn:Hfa; cbn.
  - destruct (omap f l) as [bs|e2]; cbn; [discriminate|].
    intros [= <-]. apply IH. reflexivity.
  - intros [= <-]. eauto.
Qed.

Lemma specific_add_expression name keys rule :
  (forall key e, rule key = Raise e -> is_generic e = false) ->
  specific (add_expression name keys rule).
Proof.
  intros Hrule s e s'. unfold add_expression, add_component.
  cbv [mbind ST_bind lift].
  destruct (s !! name); [intros [= <- <-]; reflexivity|].
  destruct (omap _ keys) as [body|e1] eqn:Hbody.
  - cbv [setattr mret ST_ret]. discriminate.
  - intros [= <- <-]. apply omap_raise_inv in Hbody as [key Hkey].
    destruct (rule key) as [x|e2] eqn:Hx; cbn in Hkey; [discriminate|].
    injection Hkey as <-. eapply Hrule. exact Hx.
Qed.

Lemma rule_flow_raises ln phase sf key e :
  rule_flow ln phase sf key = Raise e -> is_generic e = false.
Proof. destruct ln; cbn; [discriminate|]. intros [= <-]. reflexivity. Qed.

Lemma rule_mole_frac_raises ln phase key e :
  rule_mole_frac ln phase key = Raise e -> is_generic e = false.
Proof. destruct ln; cbn; [discriminate|]. intros [= <-]. reflexivity. Qed.

Lemma rule_enth_raises ln phase key e :
  rule_enth ln phase key = Raise e -> is_generic e = false.
Proof. destruct ln; cbn; [discriminate|]. intros [= <-]. reflexivity. Qed.

Ltac be_specific :=
  repeat first
    [ apply specific_ret
    | apply specific_raise; reflexivity
    | apply specific_port_add
    | apply specific_add_expression;
        first [apply rule_flow_raises | apply rule_mole_frac_raises
              | apply rule_enth_raises]
    | apply specific_bind; [|intros ?]
    | match goal with
      | |- specific (match ?x with _ => _ end) => destruct x
      | |- specific (let _ := _ in _) => cbv zeta
      end ].

(** Whatever the name, the iteration does not reach the last [else]:
    the tests before it, "phase" not in the name and "phase" in the name,
    leave nothing over. *)
Lemma specific_phase_split_member time port phase side_sf k m ln :
  specific (phase_split_member time port phase side_sf k m ln).
Proof.
  unfold phase_split_member.
  destruct (PyStr.contains "flow" k), (PyStr.contains "frac" k),
           (PyStr.contains "enth" k), (PyStr.contains "mole" k),
           (PyStr.contains "mass" k), (PyStr.contains "phase" k);
    cbn [negb andb orb]; be_specific.
Qed.

Lemma specific_phase_split_loop time port phase side_sf l :
  forall ln, specific (phase_split_loop time port phase side_sf l ln).
Proof.
  induction l as [|[k m] l IH]; intros ln; cbn.
  - apply specific_ret.
  - apply specific_bind; [apply specific_phase_split_member | apply IH].
Qed.

Lemma specific_state_block_at time blk t : specific (state_block_at time blk t).
Proof.
  intros s e s'. unfold state_block_at, getattr. cbv [mbind ST_bind].
  destruct (s !! blk) as [[]|]; try (intros [= <- <-]; reflexivity).
  destruct (decide (t ∈ time)); [discriminate|].
  intros [= <- <-]. reflexivity.
Qed.

(** X4: the last [else] of the resolver, which raises the generic
    exception for an unrecognized enthalpy variable, is never reached:
    whatever [_make_phase_split] raises, it is not that exception. *)
Theorem make_phase_split_never_generic cfg time port phase side_sf
    (s s' : block) e :
  _make_phase_split cfg time port phase side_sf s = (Raise e, s') ->
  forall msg, e <> Exception_ msg.
Proof.
  intros H msg ->.
  assert (Hs : specific (_make_phase_split cfg time port phase side_sf)).
  { unfold _make_phase_split. cbv zeta.
    apply specific_bind; [apply specific_state_block_at|]. intros [].
    apply specific_bind; [apply specific_phase_split_loop|]. intros ln.
    apply specific_ret. }
  apply Hs in H. discriminate H.
Qed.

End FrameFacts.

(** ** Names shared by the members of a port *)

Section SharedNames.
Import Pyomo TrayData Frames Ports.

Context (cfg : config) (time : list Z).

(** An iteration that declares an expression leaves its name declared. *)
Lemma member_declares port phase sf k m ln ln' (s s' : block) p :
  expression_prefix k = Some p ->
  phase_split_member time port phase sf k m ln s = (Ok ln', s') ->
  s' !! (p +:+ port) <> None.
Proof.
  intros Hp H.
  assert (Hstep : forall name keys rule x (f : M (option string)),
             grows port f ->
             (add_expression name keys rule ≫= fun expr =>
                port_add port (x expr) k ≫= fun _ => f) s = (Ok ln', s') ->
             s' !! name <> None).
  { intros name keys rule x f Hf H1.
    apply bind_ok_inv in H1 as (body & s1 & H1 & H2).
    apply add_expression_ok in H1 as (_ & _ & ->).
    assert (grows port (port_add port (x body) k ≫= fun _ => f)) as Hg
      by (apply grows_bind; [apply grows_port_add | intros; exact Hf]).
    apply Hg in H2. eapply extends_declared; [exact H2|].
    rewrite lookup_insert_eq. discriminate. }
  unfold expression_prefix, is_fraction, phase_split_member in *.
  destruct (PyStr.contains "flow" k), (PyStr.contains "frac" k),
           (PyStr.contains "enth" k), (PyStr.contains "mole" k),
           (PyStr.contains "mass" k), (PyStr.contains "phase" k);
    cbn [negb andb orb] in *; try discriminate; injection Hp as <-.
  all: repeat match type of H with
         | context [match ?x with _ => _ end] =>
             match x with
             | _ !! _ => destruct x
             | negb _ => destruct x
             end
         end; try discriminate.
  all: cbv zeta in H;
       eapply (Hstep _ _ _ (fun e => PExpression e)); [|exact H];
       apply grows_ret.
Qed.

(** On a block where that name is declared, the iteration cannot return. *)
Lemma member_collides port phase sf k m ln (s : block) p :
  expression_prefix k = Some p ->
  s !! (p +:+ port) <> None ->
  exists e, phase_split_member time port phase sf k m ln s = (Raise e, s).
Proof.
  intros Hp Hs.
  assert (Hstep : forall name keys rule (f : _ -> M (option string)),
             s !! name <> None ->
             (add_expression name keys rule ≫= f) s = (Raise RuntimeError, s)).
  { intros name keys rule f Hname. apply bind_raise_intro.
    unfold add_expression. apply bind_raise_intro.
    unfold add_component. destruct (s !! name); [reflexivity | done]. }
  unfold expression_prefix, is_fraction, phase_split_member in *.
  destruct (PyStr.contains "flow" k), (PyStr.contains "frac" k),
           (PyStr.contains "enth" k), (PyStr.contains "mole" k),
           (PyStr.contains "mass" k), (PyStr.contains "phase" k);
    cbn [negb andb orb] in *; try discriminate; injection Hp as <-.
  all: repeat match goal with
         | |- context [match ?x with _ => _ end] =>
             match x with
             | _ !! _ => destruct x
             | negb _ => destruct x
             end
         end.
  all: cbv zeta; first [ eexists; apply Hstep; exact Hs
                       | eexists; reflexivity ].
Qed.

(** A loop over two members of the same expression rule does not
    return. *)
Lemma loop_collides port phase sf l1 k1 m1 l2 k2 m2 l3 p ln ln' (s s' : block) :
  expression_prefix k1 = Some p ->
  expression_prefix k2 = Some p ->
  phase_split_loop time port phase sf
    (l1 ++ (k1, m1) :: l2 ++ (k2, m2) :: l3) ln s <> (Ok ln', s').
Proof.
  intros Hp1 Hp2 H.
  apply phase_split_loop_app in H as (ln1 & s1 & _ & H).
  cbn in H. apply bind_ok_inv in H as (ln2 & s2 & Hfirst & H).
  apply phase_split_loop_app in H as (ln3 & s3 & Hmid & H).
  cbn in H. apply bind_ok_inv in H as (ln4 & s4 & Hsecond & _).
  apply (member_declares _ _ _ _ _ _ _ _ _ p Hp1) in Hfirst.
  apply grows_phase_split_loop in Hmid.
  apply (extends_declared _ _ _ _ Hmid) in Hfirst.
  destruct (member_collides port phase sf k2 m2 ln3 s3 p Hp2 Hfirst) as [e He].
  rewrite He in Hsecond. discriminate.
Qed.

(** So a [_make_phase_split] that returns has met one member at most
    under a name that declares an expression. *)
Lemma make_phase_split_unique port phase sf (s s' : block) k m m' p :
  _make_phase_split cfg time port phase sf s = (Ok tt, s') ->
  expression_prefix k = Some p ->
  (k, m) ∈ define_port_members (package cfg) ->
  (k, m') ∈ define_port_members (package cfg) ->
  m' = m.
Proof.
  intros H Hp Hin Hin'. unfold _make_phase_split in H.
  apply bind_ok_inv in H as ([] & s0 & _ & H).
  apply bind_ok_inv in H as (ln' & s9 & H & _).
  apply list_elem_of_split in Hin as (l1 & l2 & Hl).
  rewrite Hl in H, Hin'.
  apply elem_of_app in Hin' as [Hin'|Hin'].
  - apply list_elem_of_split in Hin' as (a & b & ->).
    rewrite <- app_assoc in H. cbn in H.
    exfalso. eapply loop_collides; [exact Hp | exact Hp | exact H].
  - apply elem_of_cons in Hin' as [[= ->]|Hin']; [reflexivity|].
    apply list_elem_of_split in Hin' as (a & b & ->).
    exfalso. eapply loop_collides; [exact Hp | exact Hp | exact H].
Qed.

(** X9: The name of a declared expression is made of the rule and the port
    only ([e_mole_frac_<port>], [e_flow_<port>], [e_enth_<port>]), and a
    name is declared once.  So when two declared members fall under the
    same expression rule, [_make_phase_split] does not return: a port
    cannot carry two total fractions, two total flows or two total
    enthalpies. *)
Theorem second_member_of_a_rule_collides port phase sf (s : block)
    l1 k1 m1 l2 k2 m2 l3 p :
  define_port_members (package cfg) = l1 ++ (k1, m1) :: l2 ++ (k2, m2) :: l3 ->
  expression_prefix k1 = Some p ->
  expression_prefix k2 = Some p ->
  exists e s', _make_phase_split cfg time port phase sf s = (Raise e, s').
Proof.
  intros Hmembers Hp1 Hp2.
  destruct (_make_phase_split cfg time port phase sf s) as [[[]|e] s'] eqn:H;
    [exfalso | eauto].
  unfold _make_phase_split in H. rewrite Hmembers in H.
  apply bind_ok_inv in H as ([] & s0 & _ & H).
  apply bind_ok_inv in H as (ln' & s9 & H & _).
  eapply loop_collides; [exact Hp1 | exact Hp2 | exact H].
Qed.

(** X10: An indexed flow whose local name is not of the form [X_Y_comp] does
    not assign [local_name]; its rule reads what an earlier iteration left
    there.  With nothing left, and a time point and an index to run the
    rule on, the iteration raises [NameError].  With [n] left, an iteration
    that returns has put [n] at the phase of the port, times the split
    fraction, on the port, and leaves [n] behind in its turn. *)
Theorem indexed_flow_reads_leftover_name port phase sf k m :
  PyStr.contains "flow" k = true ->
  PyStr.contains "phase" k = false ->
  is_fraction k = false ->
  is_indexed m = true ->
  flow_sibling m = None ->
  (forall (s : block),
     time <> [] -> index_set m <> [] ->
     s !! ("e_flow_" +:+ port) = None ->
     (phase_split_member time port phase sf k m None s).1 = Raise NameError) /\
  (forall n ln' (s s' : block),
     phase_split_member time port phase sf k m (Some n) s = (Ok ln', s') ->
     ln' = Some n /\
     port_member_of s' port k
     = Some (PExpression
               (expression_body (keys2 time (index_set m))
                  (fun key => Mul (phase_component n phase key) sf)))).
Proof.
  intros Hf Hp Hfr Hix Hsib.
  assert (Hfr' := Hfr). unfold is_fraction in Hfr'.
  assert (Hln : forall ln : option string,
             match PyStr.split PyStr.underscore (local_name m) with
             | [s0; s1; s2] =>
                 if bool_decide (s2 = "comp")
                 then Some (s0 +:+ "_" +:+ s1 +:+ "_phase_" +:+ "comp")
                 else ln
             | _ => ln
             end = ln).
  { intros ln. unfold flow_sibling in Hsib. rewrite Hix in Hsib.
    cbn [negb] in Hsib.
    destruct (PyStr.split PyStr.underscore (local_name m))
      as [|s0 [|s1 [|s2 [|]]]]; try reflexivity.
    destruct (bool_decide (s2 = "comp")); [discriminate | reflexivity]. }
  assert (Hnext : forall ln, next_local_name k m ln = ln).
  { intros ln. unfold next_local_name.
    rewrite Hf, Hp, Hfr, Hix. cbn [negb andb]. apply Hln. }
  split.
  - intros s Htime Hset Hname.
    unfold phase_split_member.
    rewrite Hf, Hp, Hfr', Hix. cbn [negb andb].
    cbv zeta. rewrite Hln.
    destruct time as [|t ts]; [done|].
    destruct (index_set m) as [|i ix]; [done|].
    unfold add_expression, add_component.
    cbv [mbind ST_bind lift]. rewrite Hname. reflexivity.
  - intros n ln' s s' H.
    apply phase_split_member_ok in H as [-> Hentry].
    rewrite Hnext in *. split; [reflexivity|].
    unfold member_entry in Hentry.
    rewrite Hnext, Hf, Hp, Hfr, Hix in Hentry. cbn [negb andb] in Hentry.
    eapply entered_new. exact Hentry.
Qed.

(** X11: [_make_phase_split] reads the port members off the outlet state at
    time [0]: without the attribute [properties_out] it raises
    [AttributeError], and on a flowsheet whose time set does not contain
    [0] it raises [KeyError]; either way before anything is declared or
    added to the port. *)
Theorem make_phase_split_reads_time_zero port phase sf (s : block) :
  (s !! "properties_out" = None ->
   _make_phase_split cfg time port phase sf s = (Raise AttributeError, s)) /\
  (forall doc args,
     s !! "properties_out" = Some (StateBlock doc args) ->
     0 ∉ time ->
     _make_phase_split cfg time port phase sf s = (Raise KeyError, s)).
Proof.
  split.
  - intros Hs. unfold _make_phase_split. apply bind_raise_intro.
    unfold state_block_at. apply bind_raise_intro.
    unfold getattr. rewrite Hs. reflexivity.
  - intros doc args Hs Ht. unfold _make_phase_split. apply bind_raise_intro.
    unfold state_block_at, getattr. cbv [mbind ST_bind]. rewrite Hs.
    rewrite decide_False by done. reflexivity.
Qed.

End SharedNames.
(** ** The ports that [_add_ports] declares *)

Section AddPortsFacts.
Import Pyomo TrayData Frames Ports.

Context (cfg : config) (time : list Z).

(** The population of a main outlet and of its optional side draw.  The
    entry that a member puts on a port is what the port holds at the end
    when no other member of that name puts another. *)
Lemma split_stage_ok (flag : bool) (out draw sfn phase vdoc pdoc : string)
    (s s' : block) :
  out <> draw -> out <> sfn -> draw <> sfn ->
  (if flag then
     setattr sfn (Var (FloatLit 1 (-2)) vdoc) ;;
     setattr draw (Port None pdoc []) ;;
     _make_phase_split cfg time draw phase (TrayVar sfn) ;;
     _make_phase_split cfg time out phase (Sub (Num 1) (TrayVar sfn))
   else
     _make_phase_split cfg time out phase (Num 1)) s = (Ok tt, s') ->
  (forall q k, q <> sfn -> q <> draw -> q <> out ->
     port_member_of s' q k = port_member_of s q k) /\
  (forall k m X, (k, m) ∈ define_port_members (package cfg) ->
     (forall sf ln0, member_entry time phase sf k m ln0 = Some (X sf)) ->
     (forall m' sf ln0 y, (k, m') ∈ define_port_members (package cfg) ->
        member_entry time phase sf k m' ln0 = Some y -> y = X sf) ->
     if flag
     then port_member_of s' draw k = Some (X (TrayVar sfn)) /\
          port_member_of s' out k = Some (X (Sub (Num 1) (TrayVar sfn)))
     else port_member_of s' out k = Some (X (Num 1))) /\
  (forall q k y, port_member_of s' q k = Some y ->
     ((flag = true -> q <> draw) /\ port_member_of s q k = Some y) \/
     ((q = out \/ q = draw) /\ from_member cfg time phase k y)).
Proof.
  intros Hod Hos Hds H. destruct flag.
  - apply bind_ok_inv in H as ([] & sa & Ha & H). injection Ha as <-.
    apply bind_ok_inv in H as ([] & sb & Hb & H). injection Hb as <-.
    apply bind_ok_inv in H as ([] & sc & Hc & H).
    apply make_phase_split_ok in Hc as (Hother1 & Hnew1 & Honly1).
    apply make_phase_split_ok in H as (Hother2 & Hnew2 & Honly2).
    split; [|split].
    + intros q k Hqs Hqd Hqo. rewrite Hother2, Hother1 by auto.
      rewrite !port_member_of_insert_ne; done.
    + intros k m X Hin HX Huniq. split.
      * rewrite Hother2 by auto.
        destruct (Hnew1 k m (X (TrayVar sfn)) Hin (HX _))
          as (y & Hy & m' & ln0 & Hin' & Hm').
        rewrite Hy. f_equal. eapply Huniq; done.
      * destruct (Hnew2 k m (X (Sub (Num 1) (TrayVar sfn))) Hin (HX _))
          as (y & Hy & m' & ln0 & Hin' & Hm').
        rewrite Hy. f_equal. eapply Huniq; done.
    + intros q k y Hy.
      apply Honly2 in Hy as [Hy|[-> Hy]]; [|right; auto].
      apply Honly1 in Hy as [Hy|[-> Hy]]; [|right; auto].
      destruct (decide (q = draw)) as [->|Hqd].
      { rewrite port_member_of_insert_empty in Hy. discriminate. }
      rewrite port_member_of_insert_ne in Hy by done.
      destruct (decide (q = sfn)) as [->|Hqs].
      { rewrite port_member_of_insert_var in Hy. discriminate. }
      rewrite port_member_of_insert_ne in Hy by done.
      left. done.
  - apply make_phase_split_ok in H as (Hother & Hnew & Honly).
    split; [|split].
    + intros q k _ _ Hqo. apply Hother. auto.
    + intros k m X Hin HX Huniq.
      destruct (Hnew k m (X (Num 1)) Hin (HX _))
        as (y & Hy & m' & ln0 & Hin' & Hm').
      rewrite Hy. f_equal. eapply Huniq; done.
    + intros q k y Hy. apply Honly in Hy as [Hy|[-> Hy]]; [|auto].
      left. split; [discriminate | done].
Qed.

(** A stage that returns has run [_make_phase_split] on its main
    outlet. *)
Lemma split_stage_runs (flag : bool) (out draw sfn phase vdoc pdoc : string)
    (s s' : block) :
  (if flag then
     setattr sfn (Var (FloatLit 1 (-2)) vdoc) ;;
     setattr draw (Port None pdoc []) ;;
     _make_phase_split cfg time draw phase (TrayVar sfn) ;;
     _make_phase_split cfg time out phase (Sub (Num 1) (TrayVar sfn))
   else
     _make_phase_split cfg time out phase (Num 1)) s = (Ok tt, s') ->
  exists sf (s0 : block),
    _make_phase_split cfg time out phase sf s0 = (Ok tt, s').
Proof.
  intros H. destruct flag; [|eauto].
  apply bind_ok_inv in H as ([] & sa & _ & H).
  apply bind_ok_inv in H as ([] & sb & _ & H).
  apply bind_ok_inv in H as ([] & sc & _ & H). eauto.
Qed.

(** What [_add_ports] leaves on the outlet-side ports. *)
Lemma add_ports_ok (s s' : block) :
  _add_ports cfg time s = (Ok tt, s') ->
  (forall k m X, (k, m) ∈ define_port_members (package cfg) ->
     (forall phase sf ln0, member_entry time phase sf k m ln0 = Some (X phase sf)) ->
     (forall m' phase sf ln0 y, (k, m') ∈ define_port_members (package cfg) ->
        member_entry time phase sf k m' ln0 = Some y -> y = X phase sf) ->
     (if has_liquid_side_draw cfg
      then port_member_of s' "liq_side_draw" k = Some (X "Liq" (TrayVar "liq_side_sf")) /\
           port_member_of s' "liq_out" k
             = Some (X "Liq" (Sub (Num 1) (TrayVar "liq_side_sf")))
      else port_member_of s' "liq_out" k = Some (X "Liq" (Num 1))) /\
     (if has_vapor_side_draw cfg
      then port_member_of s' "vap_side_draw" k = Some (X "Vap" (TrayVar "vap_side_sf")) /\
           port_member_of s' "vap_out" k
             = Some (X "Vap" (Sub (Num 1) (TrayVar "vap_side_sf")))
      else port_member_of s' "vap_out" k = Some (X "Vap" (Num 1)))) /\
  (forall port k y, port ∈ outlet_ports cfg ->
     port_member_of s' port k = Some y ->
     exists phase, from_member cfg time phase k y).
Proof.
  unfold _add_ports. intros H.
  apply bind_ok_inv in H as ([] & s1 & _ & H).
  apply bind_ok_inv in H as ([] & s2 & _ & H).
  apply bind_ok_inv in H as ([] & s3 & _ & H).
  apply bind_ok_inv in H as ([] & s4 & H4 & H). injection H4 as <-.
  apply bind_ok_inv in H as ([] & s5 & H5 & H).
  apply bind_ok_inv in H as ([] & s6 & H6 & H). injection H6 as <-.
  apply split_stage_ok in H5 as (Hother1 & Hnew1 & Honly1); [|done..].
  apply split_stage_ok in H as (Hother2 & Hnew2 & Honly2); [|done..].
  split.
  - intros k m X Hin HX Huniq. split.
    + specialize (Hnew1 k m (X "Liq") Hin (HX "Liq")
                    (fun m' => Huniq m' "Liq")).
      destruct (has_liquid_side_draw cfg).
      * destruct Hnew1 as [Hd Ho]. split.
        -- rewrite Hother2 by done. rewrite port_member_of_insert_ne; done.
        -- rewrite Hother2 by done. rewrite port_member_of_insert_ne; done.
      * rewrite Hother2 by done. rewrite port_member_of_insert_ne; done.
    + apply (Hnew2 k m (X "Vap") Hin (HX "Vap") (fun m' => Huniq m' "Vap")).
  - intros port k y Hport Hy.
    apply Honly2 in Hy as [[Hv Hy]|[_ Hy]]; [|eauto].
    destruct (decide (port = "vap_out")) as [->|Hne].
    { rewrite port_member_of_insert_empty in Hy. discriminate. }
    rewrite port_member_of_insert_ne in Hy by done.
    apply Honly1 in Hy as [[Hl Hy]|[_ Hy]]; [|eauto].
    destruct (decide (port = "liq_out")) as [->|Hne'].
    { rewrite port_member_of_insert_empty in Hy. discriminate. }
    exfalso. unfold outlet_ports in Hport.
    apply elem_of_cons in Hport as [->|Hport]; [done|].
    apply elem_of_cons in Hport as [->|Hport]; [done|].
    apply elem_of_app in Hport as [Hport|Hport].
    + destruct (has_liquid_side_draw cfg);
        [|apply elem_of_nil in Hport as []].
      apply list_elem_of_singleton in Hport as ->. apply Hl; done.
    + destruct (has_vapor_side_draw cfg);
        [|apply elem_of_nil in Hport as []].
      apply list_elem_of_singleton in Hport as ->. apply Hv; done.
Qed.

(** An [_add_ports] that returns has met one member at most under a name
    that declares an expression. *)
Lemma add_ports_unique (s s' : block) k m m' p :
  _add_ports cfg time s = (Ok tt, s') ->
  expression_prefix k = Some p ->
  (k, m) ∈ define_port_members (package cfg) ->
  (k, m') ∈ define_port_members (package cfg) ->
  m' = m.
Proof.
  unfold _add_ports. intros H Hp Hin Hin'.
  apply bind_ok_inv in H as ([] & s1 & _ & H).
  apply bind_ok_inv in H as ([] & s2 & _ & H).
  apply bind_ok_inv in H as ([] & s3 & _ & H).
  apply bind_ok_inv in H as ([] & s4 & _ & H).
  apply bind_ok_inv in H as ([] & s5 & _ & H).
  apply bind_ok_inv in H as ([] & s6 & _ & H).
  apply split_stage_runs in H as (sf & s0 & H).
  eapply make_phase_split_unique; done.
Qed.

(** The entry of a member under a name that declares an expression. *)
Lemma add_ports_expression (s s' : block) k m p X :
  _add_ports cfg time s = (Ok tt, s') ->
  (k, m) ∈ define_port_members (package cfg) ->
  expression_prefix k = Some p ->
  (forall phase sf ln0, member_entry time phase sf k m ln0 = Some (X phase sf)) ->
  (if has_liquid_side_draw cfg
   then port_member_of s' "liq_side_draw" k = Some (X "Liq" (TrayVar "liq_side_sf")) /\
        port_member_of s' "liq_out" k
          = Some (X "Liq" (Sub (Num 1) (TrayVar "liq_side_sf")))
   else port_member_of s' "liq_out" k = Some (X "Liq" (Num 1))) /\
  (if has_vapor_side_draw cfg
   then port_member_of s' "vap_side_draw" k = Some (X "Vap" (TrayVar "vap_side_sf")) /\
        port_member_of s' "vap_out" k
          = Some (X "Vap" (Sub (Num 1) (TrayVar "vap_side_sf")))
   else port_member_of s' "vap_out" k = Some (X "Vap" (Num 1))).
Proof.
  intros Hports Hin Hp HX.
  assert (Hrun := Hports). apply add_ports_ok in Hports as [Hnew _].
  apply (Hnew k m X Hin HX).
  intros m' phase sf ln0 y Hin' Hy.
  rewrite (add_ports_unique s s' k m m' p Hrun Hp Hin Hin') in Hy.
  rewrite HX in Hy. congruence.
Qed.

(** The same entry on every outlet-side port, when it depends on the
    phase of the port alone. *)
Lemma on_every_port (s' : block) k (X : string -> port_member) :
  (if has_liquid_side_draw cfg
   then port_member_of s' "liq_side_draw" k = Some (X "Liq") /\
        port_member_of s' "liq_out" k = Some (X "Liq")
   else port_member_of s' "liq_out" k = Some (X "Liq")) /\
  (if has_vapor_side_draw cfg
   then port_member_of s' "vap_side_draw" k = Some (X "Vap") /\
        port_member_of s' "vap_out" k = Some (X "Vap")
   else port_member_of s' "vap_out" k = Some (X "Vap")) ->
  forall port, port ∈ outlet_ports cfg ->
    port_member_of s' port k = Some (X (phase_of_port port)).
Proof.
  intros [Hliq Hvap] port Hport.
  unfold outlet_ports in Hport.
  apply elem_of_cons in Hport as [->|Hport].
  { destruct (has_liquid_side_draw cfg); [apply Hliq | exact Hliq]. }
  apply elem_of_cons in Hport as [->|Hport].
  { destruct (has_vapor_side_draw cfg); [apply Hvap | exact Hvap]. }
  apply elem_of_app in Hport as [Hport|Hport].
  - destruct (has_liquid_side_draw cfg); [|apply elem_of_nil in Hport as []].
    apply list_elem_of_singleton in Hport as ->. apply Hliq.
  - destruct (has_vapor_side_draw cfg); [|apply elem_of_nil in Hport as []].
    apply list_elem_of_singleton in Hport as ->. apply Hvap.
Qed.

Lemma make_phase_split_other port phase sf (s s' : block) q :
  _make_phase_split cfg time port phase sf s = (Ok tt, s') ->
  q <> port -> String.prefix "e_" q = false ->
  s' !! q = s !! q.
Proof.
  intros H Hq Hpre. apply grows_make_phase_split in H.
  destruct (H q) as [Heq|[(_ & Hp & _)|(Hp & _)]]; congruence.
Qed.

Lemma make_phase_split_port port phase sf (s s' : block) io doc ms :
  _make_phase_split cfg time port phase sf s = (Ok tt, s') ->
  s !! port = Some (Port io doc ms) ->
  exists ms', s' !! port = Some (Port io doc ms').
Proof.
  intros H Hs. apply grows_make_phase_split in H.
  destruct (H port) as [Heq|[(Hn & _)|(_ & io' & doc' & ms1 & ms2 & Hq & Hq' & _)]].
  - exists ms. congruence.
  - congruence.
  - exists ms2. congruence.
Qed.

(** The attributes after the population of a main outlet and of its
    optional side draw. *)
Lemma split_stage_attributes (flag : bool) (out draw sfn phase vdoc pdoc : string)
    (s s' : block) :
  out <> draw -> out <> sfn -> draw <> sfn ->
  String.prefix "e_" out = false ->
  String.prefix "e_" draw = false ->
  String.prefix "e_" sfn = false ->
  (if flag then
     setattr sfn (Var (FloatLit 1 (-2)) vdoc) ;;
     setattr draw (Port None pdoc []) ;;
     _make_phase_split cfg time draw phase (TrayVar sfn) ;;
     _make_phase_split cfg time out phase (Sub (Num 1) (TrayVar sfn))
   else
     _make_phase_split cfg time out phase (Num 1)) s = (Ok tt, s') ->
  (forall q, q <> out -> q <> draw -> q <> sfn ->
     String.prefix "e_" q = false -> s' !! q = s !! q) /\
  (forall io doc ms, s !! out = Some (Port io doc ms) ->
     exists ms', s' !! out = Some (Port io doc ms')) /\
  s' !! sfn = (if flag then Some (Var (FloatLit 1 (-2)) vdoc) else s !! sfn) /\
  (if flag then exists ms, s' !! draw = Some (Port None pdoc ms)
   else s' !! draw = s !! draw).
Proof.
  intros Hod Hos Hds Hpo Hpd Hps H. destruct flag.
  - apply bind_ok_inv in H as ([] & sa & Ha & H). injection Ha as <-.
    apply bind_ok_inv in H as ([] & sb & Hb & H). injection Hb as <-.
    apply bind_ok_inv in H as ([] & sc & Hc & H).
    split; [|split; [|split]].
    + intros q Hqo Hqd Hqs Hq.
      rewrite (make_phase_split_other _ _ _ _ _ q H) by done.
      rewrite (make_phase_split_other _ _ _ _ _ q Hc) by done.
      rewrite !lookup_insert_ne by done. reflexivity.
    + intros io doc ms Hs.
      eapply make_phase_split_port; [exact H|].
      rewrite (make_phase_split_other _ _ _ _ _ out Hc) by done.
      rewrite !lookup_insert_ne by done. exact Hs.
    + rewrite (make_phase_split_other _ _ _ _ _ sfn H) by done.
      rewrite (make_phase_split_other _ _ _ _ _ sfn Hc) by done.
      rewrite lookup_insert_ne by done. apply lookup_insert_eq.
    + destruct (make_phase_split_port _ _ _ _ _ None pdoc [] Hc) as [ms' Hd].
      { apply lookup_insert_eq. }
      exists ms'.
      rewrite (make_phase_split_other _ _ _ _ _ draw H); done.
  - split; [|split; [|split]].
    + intros q Hqo _ _ Hq. eapply make_phase_split_other; done.
    + intros io doc ms Hs. eapply make_phase_split_port; done.
    + eapply make_phase_split_other; done.
    + eapply make_phase_split_other; done.
Qed.

(** The run of [_add_ports], stage by stage. *)
Lemma add_ports_stages (s s' : block) :
  _add_ports cfg time s = (Ok tt, s') ->
  exists (s3 s5 : block),
    (forall q, q ∉ (inlet_roles cfg).*1 -> s3 !! q = s !! q) /\
    (forall q blk, (q, blk) ∈ inlet_roles cfg ->
       exists ms, s3 !! q = Some (Port (Some blk) "Inlet Port" ms)) /\
    (if has_liquid_side_draw cfg then
       setattr "liq_side_sf"
         (Var (FloatLit 1 (-2)) "split fraction for the liquid side draw") ;;
       setattr "liq_side_draw" (Port None "liquid side draw." []) ;;
       _make_phase_split cfg time "liq_side_draw" "Liq" (TrayVar "liq_side_sf") ;;
       _make_phase_split cfg time "liq_out" "Liq" (Sub (Num 1) (TrayVar "liq_side_sf"))
     else
       _make_phase_split cfg time "liq_out" "Liq" (Num 1))
      (<["liq_out" := Port None "liquid outlet from tray" []]> s3) = (Ok tt, s5) /\
    (if has_vapor_side_draw cfg then
       setattr "vap_side_sf"
         (Var (FloatLit 1 (-2)) "split fraction for the vapor side draw") ;;
       setattr "vap_side_draw" (Port None "vapor side draw." []) ;;
       _make_phase_split cfg time "vap_side_draw" "Vap" (TrayVar "vap_side_sf") ;;
       _make_phase_split cfg time "vap_out" "Vap" (Sub (Num 1) (TrayVar "vap_side_sf"))
     else
       _make_phase_split cfg time "vap_out" "Vap" (Num 1))
      (<["vap_out" := Port None "vapor outlet from tray" []]> s5) = (Ok tt, s').
Proof.
  unfold _add_ports. intros H.
  apply bind_ok_inv in H as ([] & s1 & H1 & H).
  apply bind_ok_inv in H as ([] & s2 & H2 & H).
  apply bind_ok_inv in H as ([] & s3 & H3 & H).
  apply bind_ok_inv in H as ([] & s4 & H4 & H). injection H4 as <-.
  apply bind_ok_inv in H as ([] & s5 & H5 & H).
  apply bind_ok_inv in H as ([] & s6 & H6 & H). injection H6 as <-.
  exists s3, s5. split; [|split; [|split; [exact H5 | exact H]]].
  - intros q Hq.
    apply add_inlet_port_ok in H3 as [ms3 ->].
    apply add_inlet_port_ok in H2 as [ms2 ->].
    unfold inlet_roles in Hq.
    destruct (is_feed_tray cfg).
    + apply add_inlet_port_ok in H1 as [ms1 ->].
      cbn in Hq. rewrite !not_elem_of_cons in Hq.
      destruct Hq as (? & ? & ? & _).
      rewrite !lookup_insert_ne by done. reflexivity.
    + injection H1 as <-.
      cbn in Hq. rewrite !not_elem_of_cons in Hq.
      destruct Hq as (? & ? & _).
      rewrite !lookup_insert_ne by done. reflexivity.
  - intros q blk Hq.
    apply add_inlet_port_ok in H3 as [ms3 ->].
    apply add_inlet_port_ok in H2 as [ms2 ->].
    unfold inlet_roles in Hq.
    assert (Hrest : (q, blk) ∈ [("liq_in", "properties_in_liq");
                                ("vap_in", "properties_in_vap")] ->
                    exists ms, (<["vap_in" := Port (Some "properties_in_vap")
                                                "Inlet Port" ms3]>
                                  (<["liq_in" := Port (Some "properties_in_liq")
                                                   "Inlet Port" ms2]> s1)) !! q
                               = Some (Port (Some blk) "Inlet Port" ms)).
    { intros Hin. apply elem_of_cons in Hin as [[= -> ->]|Hin].
      - rewrite lookup_insert_ne by done. rewrite lookup_insert_eq. eauto.
      - apply list_elem_of_singleton in Hin as [= -> ->].
        rewrite lookup_insert_eq. eauto. }
    destruct (is_feed_tray cfg); [|exact (Hrest Hq)].
    apply elem_of_app in Hq as [Hq|Hq]; [|exact (Hrest Hq)].
    apply list_elem_of_singleton in Hq as [= -> ->].
    apply add_inlet_port_ok in H1 as [ms1 ->].
    rewrite !lookup_insert_ne by done. rewrite lookup_insert_eq. eauto.
Qed.

(** X12: [_add_ports] declares the two main outlet ports in every
    configuration.  The split-fraction variable of a side draw, with initial
    value [0.01], and the side-draw port are declared exactly when the side
    draw is configured; otherwise these attributes are what they were. *)
Theorem add_ports_declares (s s' : block) :
  _add_ports cfg time s = (Ok tt, s') ->
  (exists ms, s' !! "liq_out" = Some (Port None "liquid outlet from tray" ms)) /\
  (exists ms, s' !! "vap_out" = Some (Port None "vapor outlet from tray" ms)) /\
  s' !! "liq_side_sf"
    = (if has_liquid_side_draw cfg
       then Some (Var (FloatLit 1 (-2)) "split fraction for the liquid side draw")
       else s !! "liq_side_sf") /\
  s' !! "vap_side_sf"
    = (if has_vapor_side_draw cfg
       then Some (Var (FloatLit 1 (-2)) "split fraction for the vapor side draw")
       else s !! "vap_side_sf") /\
  (if has_liquid_side_draw cfg
   then exists ms, s' !! "liq_side_draw" = Some (Port None "liquid side draw." ms)
   else s' !! "liq_side_draw" = s !! "liq_side_draw") /\
  (if has_vapor_side_draw cfg
   then exists ms, s' !! "vap_side_draw" = Some (Port None "vapor side draw." ms)
   else s' !! "vap_side_draw" = s !! "vap_side_draw").
Proof.
  intros H. apply add_ports_stages in H as (s3 & s5 & Hs3 & _ & Hliq & Hvap).
  apply split_stage_attributes in Hliq as (Hl1 & Hl2 & Hl3 & Hl4); [|done..].
  apply split_stage_attributes in Hvap as (Hv1 & Hv2 & Hv3 & Hv4); [|done..].
  assert (Hfresh : forall q, q ∉ ["feed"; "liq_in"; "vap_in"] ->
                     s3 !! q = s !! q).
  { intros q Hq. apply Hs3. unfold inlet_roles.
    destruct (is_feed_tray cfg); cbn; rewrite !not_elem_of_cons in *; tauto. }
  assert (Hnot : forall q, q <> "feed" -> q <> "liq_in" -> q <> "vap_in" ->
                   q ∉ ["feed"; "liq_in"; "vap_in"]).
  { intros q ? ? ?. rewrite !not_elem_of_cons. split_and!; try done.
    apply not_elem_of_nil. }
  split_and!.
  - destruct (Hl2 None "liquid outlet from tray" []) as [added Hout];
      [apply lookup_insert_eq|].
    exists added. rewrite Hv1 by done.
    rewrite lookup_insert_ne by done. exact Hout.
  - destruct (Hv2 None "vapor outlet from tray" []) as [added Hout];
      [apply lookup_insert_eq|].
    eauto.
  - rewrite Hv1 by done. rewrite lookup_insert_ne by done. rewrite Hl3.
    destruct (has_liquid_side_draw cfg); [reflexivity|].
    rewrite lookup_insert_ne by done. apply Hfresh, Hnot; done.
  - rewrite Hv3. destruct (has_vapor_side_draw cfg); [reflexivity|].
    rewrite lookup_insert_ne by done.
    assert (s5 !! "vap_side_sf" = (<["liq_out" := Port None "liquid outlet from tray" []]> s3) !! "vap_side_sf") as ->
      by (apply Hl1; done).
    rewrite lookup_insert_ne by done. apply Hfresh, Hnot; done.
  - destruct (has_liquid_side_draw cfg).
    + destruct Hl4 as [ms Hd]. exists ms. rewrite Hv1 by done.
      rewrite lookup_insert_ne by done. exact Hd.
    + rewrite Hv1 by done. rewrite lookup_insert_ne by done. rewrite Hl4.
      rewrite lookup_insert_ne by done. apply Hfresh, Hnot; done.
  - destruct (has_vapor_side_draw cfg); [exact Hv4|].
    rewrite Hv4. rewrite lookup_insert_ne by done.
    assert (s5 !! "vap_side_draw" = (<["liq_out" := Port None "liquid outlet from tray" []]> s3) !! "vap_side_draw") as ->
      by (apply Hl1; done).
    rewrite lookup_insert_ne by done. apply Hfresh, Hnot; done.
Qed.

(** *** Inlet ports *)

Lemma inlet_of_insert (s : block) name c q :
  inlet_of (<[name := c]> s) q
  = if decide (q = name)
    then match c with Port (Some blk) _ _ => Some blk | _ => None end
    else inlet_of s q.
Proof.
  unfold inlet_of. destruct (decide (q = name)) as [->|Hne].
  - rewrite lookup_insert_eq. reflexivity.
  - rewrite lookup_insert_ne by done. reflexivity.
Qed.

Lemma make_phase_split_inlet_of port phase sf (s s' : block) q :
  _make_phase_split cfg time port phase sf s = (Ok tt, s') ->
  inlet_of s' q = inlet_of s q.
Proof.
  intros H. apply grows_make_phase_split in H. unfold inlet_of.
  destruct (H q) as [<-|[(-> & _ & body & ->)|(_ & io & doc & ms & ms' & -> & -> & _)]];
    reflexivity.
Qed.

Lemma split_stage_inlet_of (flag : bool) (out draw sfn phase vdoc pdoc : string)
    (s s' : block) q :
  (if flag then
     setattr sfn (Var (FloatLit 1 (-2)) vdoc) ;;
     setattr draw (Port None pdoc []) ;;
     _make_phase_split cfg time draw phase (TrayVar sfn) ;;
     _make_phase_split cfg time out phase (Sub (Num 1) (TrayVar sfn))
   else
     _make_phase_split cfg time out phase (Num 1)) s = (Ok tt, s') ->
  inlet_of s' q = None \/ inlet_of s' q = inlet_of s q.
Proof.
  intros H. destruct flag.
  - apply bind_ok_inv in H as ([] & sa & Ha & H). injection Ha as <-.
    apply bind_ok_inv in H as ([] & sb & Hb & H). injection Hb as <-.
    apply bind_ok_inv in H as ([] & sc & Hc & H).
    rewrite (make_phase_split_inlet_of _ _ _ _ _ q H).
    rewrite (make_phase_split_inlet_of _ _ _ _ _ q Hc).
    rewrite !inlet_of_insert.
    destruct (decide (q = draw)); [left; reflexivity|].
    destruct (decide (q = sfn)); [left; reflexivity|]. right. reflexivity.
  - right. eapply make_phase_split_inlet_of. exact H.
Qed.

Lemma elem_of_inlet_ports (s : block) q :
  q ∈ inlet_ports s <-> inlet_of s q <> None.
Proof.
  unfold inlet_ports, inlet_of. rewrite elem_of_dom. unfold is_Some.
  split.
  - intros [c Hc]. apply map_lookup_filter_Some in Hc as [Hc Hin].
    rewrite Hc. cbn in Hin. destruct c as [| | | |[blk|] doc ms]; done.
  - intros Hq. destruct (s !! q) as [c|] eqn:Hc; [|done].
    exists c. apply map_lookup_filter_Some. split; [done|]. cbn.
    destruct c as [| | | |[blk|] doc ms]; done.
Qed.

(** X13: [_add_ports] exposes the inlet ports [liq_in] and [vap_in], and [feed]
    on a feed tray, each passing through its own inlet state block; it
    creates no other inlet port.  On a block that had none, these two or
    three are exactly the inlet ports of the tray afterwards. *)
Theorem add_ports_inlet_ports (s s' : block) :
  _add_ports cfg time s = (Ok tt, s') ->
  (forall q blk, (q, blk) ∈ inlet_roles cfg -> inlet_of s' q = Some blk) /\
  (forall q, q ∉ (inlet_roles cfg).*1 ->
     inlet_of s' q = None \/ inlet_of s' q = inlet_of s q) /\
  (inlet_ports s = ∅ -> inlet_ports s' = list_to_set (inlet_roles cfg).*1).
Proof.
  intros H. apply add_ports_stages in H as (s3 & s5 & Hs3 & Hroles & Hliq & Hvap).
  assert (Ha : forall q blk, (q, blk) ∈ inlet_roles cfg -> inlet_of s' q = Some blk).
  { intros q blk Hq. destruct (Hroles q blk Hq) as [ms Hms].
    apply split_stage_attributes in Hliq as (Hl1 & _); [|done..].
    apply split_stage_attributes in Hvap as (Hv1 & _); [|done..].
    assert (q = "feed" \/ q = "liq_in" \/ q = "vap_in") as Hname.
    { unfold inlet_roles in Hq. destruct (is_feed_tray cfg); cbn in Hq;
        repeat (apply elem_of_cons in Hq as [[= -> ->]|Hq]; [auto|]);
        apply elem_of_nil in Hq as []. }
    unfold inlet_of.
    destruct Hname as [->|[->| ->]];
      (rewrite Hv1 by done; rewrite lookup_insert_ne by done;
       rewrite Hl1 by done; rewrite lookup_insert_ne by done;
       rewrite Hms; reflexivity). }
  assert (Hb : forall q, q ∉ (inlet_roles cfg).*1 ->
                 inlet_of s' q = None \/ inlet_of s' q = inlet_of s q).
  { intros q Hq.
    destruct (split_stage_inlet_of _ _ _ _ _ _ _ _ _ q Hvap) as [Hn|Hv];
      [left; exact Hn|].
    rewrite inlet_of_insert in Hv.
    destruct (decide (q = "vap_out")); [left; exact Hv|].
    destruct (split_stage_inlet_of _ _ _ _ _ _ _ _ _ q Hliq) as [Hn|Hl];
      [left; congruence|].
    rewrite inlet_of_insert in Hl.
    destruct (decide (q = "liq_out")); [left; congruence|].
    right. rewrite Hv, Hl. unfold inlet_of. rewrite (Hs3 q Hq). reflexivity. }
  split; [exact Ha|]. split; [exact Hb|].
  intros Hempty. apply set_eq. intros q.
  rewrite elem_of_inlet_ports, elem_of_list_to_set. split.
  - intros Hq. destruct (decide (q ∈ (inlet_roles cfg).*1)) as [|Hnot]; [done|].
    exfalso. destruct (Hb q Hnot) as [Hn|Hsame]; [done|].
    apply Hq. rewrite Hsame.
    destruct (inlet_of s q) eqn:Hs; [|reflexivity].
    assert (q ∈ inlet_ports s) as Hin
      by (apply elem_of_inlet_ports; congruence).
    rewrite Hempty in Hin. apply not_elem_of_empty in Hin as [].
  - intros Hq. apply list_elem_of_fmap in Hq as ([q' blk] & -> & Hq).
    cbn. rewrite (Ha q' blk Hq). discriminate.
Qed.

End AddPortsFacts.
(** ** Port members by kind *)

Section PortClaims.
Import Pyomo TrayData Frames Ports.

Context (cfg : config) (time : list Z).

Ltac by_dispatch k :=
  unfold member_entry, next_local_name, flow_sibling, is_fraction in *;
  destruct (PyStr.contains "flow" k), (PyStr.contains "frac" k),
           (PyStr.contains "enth" k), (PyStr.contains "mole" k),
           (PyStr.contains "mass" k), (PyStr.contains "phase" k);
  cbn in *; try discriminate; try reflexivity.

Lemma entry_intensive phase sf k m ln :
  PyStr.contains "flow" k = false ->
  PyStr.contains "frac" k = false ->
  PyStr.contains "enth" k = false ->
  member_entry time phase sf k m ln
  = Some (PReference "properties_out" (local_name m) (is_indexed m)).
Proof. intros. by_dispatch k. Qed.

Lemma entry_fraction_by_phase phase sf k m ln :
  is_fraction k = true -> PyStr.contains "phase" k = true ->
  member_entry time phase sf k m ln
  = Some (PReference "properties_out" (local_name m) true).
Proof. intros. by_dispatch k. Qed.

Lemma entry_enthalpy_by_phase phase sf k m ln :
  PyStr.contains "enth" k = true -> PyStr.contains "phase" k = true ->
  PyStr.contains "flow" k = false -> is_fraction k = false ->
  member_entry time phase sf k m ln
  = Some (PReference "properties_out" (local_name m) (is_indexed m)).
Proof. intros. by_dispatch k. Qed.

Lemma entry_flow phase sf k m ln n :
  PyStr.contains "flow" k = true -> PyStr.contains "phase" k = false ->
  is_fraction k = false -> flow_sibling m = Some n ->
  member_entry time phase sf k m ln
  = Some (PExpression
            (expression_body
               (if is_indexed m then keys2 time (index_set m) else keys1 time)
               (fun key => Mul (phase_component n phase key) sf))).
Proof.
  intros Hf Hp Hfr Hsib. by_dispatch k.
  all: destruct (is_indexed m); cbn in *;
    [| injection Hsib as <-; reflexivity].
  all: destruct (PyStr.split PyStr.underscore (local_name m))
         as [|s0 [|s1 [|s2 [|]]]]; try discriminate.
  all: destruct (bool_decide (s2 = "comp")); [|discriminate].
  all: injection Hsib as <-; reflexivity.
Qed.

Lemma entry_flow_by_phase phase sf k m ln :
  PyStr.contains "flow" k = true -> PyStr.contains "phase" k = true ->
  is_fraction k = false ->
  member_entry time phase sf k m ln = None.
Proof. intros. by_dispatch k. Qed.

Lemma distinct_keys {V} (l : list (string * V)) k v v' :
  NoDup l.*1 -> (k, v) ∈ l -> (k, v') ∈ l -> v = v'.
Proof.
  induction l as [|[k0 v0] l IH]; cbn; intros Hnd Hin Hin'.
  - apply elem_of_nil in Hin as [].
  - apply NoDup_cons in Hnd as [Hnotin Hnd].
    apply elem_of_cons in Hin as [Hin|Hin];
      apply elem_of_cons in Hin' as [Hin'|Hin'].
    + congruence.
    + exfalso. injection Hin as -> ->. apply Hnotin.
      apply list_elem_of_fmap. exists (k0, v'). done.
    + exfalso. injection Hin' as -> ->. apply Hnotin.
      apply list_elem_of_fmap. exists (k0, v). done.
    + apply IH; done.
Qed.

Lemma prefix_flow k :
  PyStr.contains "flow" k = true -> PyStr.contains "phase" k = false ->
  is_fraction k = false -> expression_prefix k = Some "e_flow_".
Proof.
  intros Hf Hp Hfr. unfold expression_prefix. rewrite Hf, Hp, Hfr.
  rewrite ?andb_false_l, ?andb_false_r. reflexivity.
Qed.

Lemma prefix_fraction k :
  is_fraction k = true -> PyStr.contains "phase" k = false ->
  expression_prefix k = Some "e_mole_frac_".
Proof.
  intros Hfr Hp. unfold expression_prefix. rewrite Hfr, Hp.
  unfold is_fraction in Hfr.
  destruct (PyStr.contains "frac" k); [|discriminate].
  rewrite ?andb_false_l, ?andb_false_r. reflexivity.
Qed.

Lemma prefix_enthalpy k :
  PyStr.contains "enth" k = true -> PyStr.contains "phase" k = false ->
  PyStr.contains "flow" k = false -> is_fraction k = false ->
  expression_prefix k = Some "e_enth_".
Proof.
  intros He Hp Hf Hfr. unfold expression_prefix. rewrite He, Hp, Hf, Hfr.
  rewrite ?andb_false_l, ?andb_false_r. reflexivity.
Qed.

(** C5, amended: a member whose name contains none of "flow", "frac" and
    "enth", a phase-indexed mole or mass fraction, and a phase-indexed
    enthalpy whose name does not contain "flow" (the resolver tests
    "flow" before "enth", and skips a name with "flow" and "phase") is
    placed on every outlet-side port as one and the same reference to the
    outlet variable.  The reference mentions neither the phase of the
    port nor its split fraction.  The names of the declared port members
    are distinct, as the keys of a Python dictionary are. *)
Theorem shared_reference_on_every_port (s s' : block) k m :
  _add_ports cfg time s = (Ok tt, s') ->
  NoDup (define_port_members (package cfg)).*1 ->
  (k, m) ∈ define_port_members (package cfg) ->
  (PyStr.contains "flow" k = false /\ PyStr.contains "frac" k = false /\
   PyStr.contains "enth" k = false) \/
  (is_fraction k = true /\ PyStr.contains "phase" k = true) \/
  (PyStr.contains "enth" k = true /\ PyStr.contains "phase" k = true /\
   PyStr.contains "flow" k = false) ->
  exists sliced,
    forall port, port ∈ outlet_ports cfg ->
      port_member_of s' port k
      = Some (PReference "properties_out" (local_name m) sliced).
Proof.
  intros Hports Hnodup Hin Hkind.
  assert (exists sliced, forall phase sf ln,
             member_entry time phase sf k m ln
             = Some (PReference "properties_out" (local_name m) sliced))
    as [sliced Hentry].
  { destruct Hkind as [(Hf & Hr & He)|[[Hfr Hp]|(He & Hp & Hf)]].
    - eexists. intros. apply entry_intensive; done.
    - eexists. intros. apply entry_fraction_by_phase; done.
    - destruct (is_fraction k) eqn:Hfr.
      + eexists. intros. apply entry_fraction_by_phase; done.
      + eexists. intros. apply entry_enthalpy_by_phase; done. }
  exists sliced.
  apply (on_every_port cfg s' k
           (fun _ => PReference "properties_out" (local_name m) sliced)).
  apply add_ports_ok in Hports as [Hnew _].
  apply (Hnew k m (fun _ _ => PReference "properties_out" (local_name m) sliced)
           Hin Hentry).
  intros m' phase sf ln0 y Hin' Hy.
  rewrite (distinct_keys _ _ _ _ Hnodup Hin' Hin) in Hy.
  rewrite Hentry in Hy. congruence.
Qed.

(** C3, amended: for a member whose name contains "flow" and not
    "phase", that the resolver does not take for a mole or mass fraction,
    and whose phase-indexed sibling is [n], the side-draw port holds,
    at every time point (and component), the sibling at the phase of the
    port times the side split fraction; the matching main outlet holds
    the same sibling times one minus that fraction; without the side
    draw the main outlet holds the sibling times [1]. *)
Theorem flow_split_between_ports (s s' : block) k m n :
  _add_ports cfg time s = (Ok tt, s') ->
  (k, m) ∈ define_port_members (package cfg) ->
  PyStr.contains "flow" k = true ->
  PyStr.contains "phase" k = false ->
  is_fraction k = false ->
  flow_sibling m = Some n ->
  let keys := if is_indexed m then keys2 time (index_set m) else keys1 time in
  let scaled phase f :=
    PExpression (expression_body keys
                   (fun key => Mul (phase_component n phase key) f)) in
  (if has_liquid_side_draw cfg
   then port_member_of s' "liq_side_draw" k
          = Some (scaled "Liq" (TrayVar "liq_side_sf")) /\
        port_member_of s' "liq_out" k
          = Some (scaled "Liq" (Sub (Num 1) (TrayVar "liq_side_sf")))
   else port_member_of s' "liq_out" k = Some (scaled "Liq" (Num 1))) /\
  (if has_vapor_side_draw cfg
   then port_member_of s' "vap_side_draw" k
          = Some (scaled "Vap" (TrayVar "vap_side_sf")) /\
        port_member_of s' "vap_out" k
          = Some (scaled "Vap" (Sub (Num 1) (TrayVar "vap_side_sf")))
   else port_member_of s' "vap_out" k = Some (scaled "Vap" (Num 1))).
Proof.
  intros Hports Hin Hf Hp Hfr Hsib keys scaled.
  apply (add_ports_expression cfg time s s' k m "e_flow_" scaled Hports Hin).
  - apply prefix_flow; done.
  - intros phase sf ln. apply entry_flow; done.
Qed.

(** C9, amended: a member whose name contains "flow" and "phase", and
    that the resolver does not take for a mole or mass fraction, is
    skipped: its iteration changes nothing and raises nothing, and no
    outlet-side port holds an entry under its name. *)
Theorem phase_indexed_flow_omitted k m :
  PyStr.contains "flow" k = true ->
  PyStr.contains "phase" k = true ->
  is_fraction k = false ->
  (forall port phase sf ln (s : block),
     phase_split_member time port phase sf k m ln s = (Ok ln, s)) /\
  (forall (s s' : block) port,
     _add_ports cfg time s = (Ok tt, s') ->
     port ∈ outlet_ports cfg ->
     port_member_of s' port k = None).
Proof.
  intros Hf Hp Hfr. split.
  - intros. unfold phase_split_member. unfold is_fraction in Hfr.
    rewrite Hf, Hp, Hfr. cbn. reflexivity.
  - intros s s' port Hports Hport.
    destruct (port_member_of s' port k) as [y|] eqn:Hy; [|reflexivity].
    apply add_ports_ok in Hports as [_ Honly].
    destruct (Honly port k y Hport Hy) as (phase & m' & ln0 & sf & _ & Hentry).
    rewrite entry_flow_by_phase in Hentry by done. discriminate.
Qed.


(** C10: the iteration for a mole or mass fraction that is not
    phase-indexed reads the third underscore-separated segment of the
    member name.  With fewer than three segments it raises [IndexError]
    and leaves the block as it was; so an iteration that returns, and a
    [_make_phase_split] that returns, had at least three. *)
Theorem total_fraction_needs_three_segments k m :
  is_fraction k = true ->
  PyStr.contains "phase" k = false ->
  (forall port phase sf ln (s : block),
     (length (PyStr.split PyStr.underscore k) < 3)%nat ->
     phase_split_member time port phase sf k m ln s = (Raise IndexError, s)) /\
  (forall port phase sf ln ln' (s s' : block),
     phase_split_member time port phase sf k m ln s = (Ok ln', s') ->
     (3 <= length (PyStr.split PyStr.underscore k))%nat) /\
  (forall port phase sf (s s' : block),
     (k, m) ∈ define_port_members (package cfg) ->
     _make_phase_split cfg time port phase sf s = (Ok tt, s') ->
     (3 <= length (PyStr.split PyStr.underscore k))%nat).
Proof.
  intros Hfr Hp.
  assert (Hraise : forall port phase sf ln (s : block),
             (length (PyStr.split PyStr.underscore k) < 3)%nat ->
             phase_split_member time port phase sf k m ln s
             = (Raise IndexError, s)).
  { intros port phase sf ln s Hlen. unfold phase_split_member.
    unfold is_fraction in Hfr.
    assert (PyStr.contains "frac" k = true) as Hc
      by (destruct (PyStr.contains "frac" k); done).
    rewrite Hfr, Hc, Hp, ?andb_false_r. cbn [negb andb].
    rewrite lookup_ge_None_2 by lia. reflexivity. }
  assert (Hok : forall port phase sf ln ln' (s s' : block),
             phase_split_member time port phase sf k m ln s = (Ok ln', s') ->
             (3 <= length (PyStr.split PyStr.underscore k))%nat).
  { intros port phase sf ln ln' s s' H.
    destruct (decide (3 <= length (PyStr.split PyStr.underscore k))%nat)
      as [|Hlt]; [done|].
    rewrite Hraise in H by lia. discriminate. }
  split; [done|]. split; [done|].
  intros port phase sf s s' Hin H.
  destruct (make_phase_split_member cfg time _ _ _ _ _ _ _ Hin H)
    as (ln0 & ln1 & s0 & s1 & H1).
  eapply Hok; done.
Qed.

End PortClaims.

(** ** More on the port resolver *)

Section ResolverFacts.
Import Pyomo TrayData Frames Ports.

Context (cfg : config) (time : list Z).

(** X5: A mole or mass fraction that is not phase-indexed, with a name of at
    least three segments [X_Y_Z...]: every outlet-side port holds, at every
    time point and index, the variable [X_Y_phase_Z] at the phase of the
    port and that index.  Segments after the third are dropped from the
    sibling's name, and the split fraction does not occur: a side draw and
    its main outlet hold the same expression. *)
Theorem total_fraction_on_every_port (s s' : block) k m s0 s1 s2 rest :
  _add_ports cfg time s = (Ok tt, s') ->
  (k, m) ∈ define_port_members (package cfg) ->
  is_fraction k = true ->
  PyStr.contains "phase" k = false ->
  PyStr.split PyStr.underscore k = s0 :: s1 :: s2 :: rest ->
  forall port, port ∈ outlet_ports cfg ->
    port_member_of s' port k
    = Some (PExpression
              (expression_body (keys2 time (index_set m))
                 (phase_component
                    (PyStr.join "_" [s0; s1] +:+ "_phase" +:+ "_" +:+ s2)
                    (phase_of_port port)))).
Proof.
  intros Hports Hin Hfr Hp Hsplit.
  apply (on_every_port cfg s' k
           (fun phase => PExpression
              (expression_body (keys2 time (index_set m))
                 (phase_component
                    (PyStr.join "_" [s0; s1] +:+ "_phase" +:+ "_" +:+ s2) phase)))).
  apply (add_ports_expression cfg time s s' k m "e_mole_frac_"
           (fun phase _ => PExpression
              (expression_body (keys2 time (index_set m))
                 (phase_component
                    (PyStr.join "_" [s0; s1] +:+ "_phase" +:+ "_" +:+ s2) phase)))
           Hports Hin).
  { apply prefix_fraction; done. }
  intros phase sf ln. unfold member_entry, is_fraction in *.
  assert (PyStr.contains "frac" k = true) as Hc
    by (destruct (PyStr.contains "frac" k); done).
  rewrite Hfr, Hc, Hp, ?andb_false_r. cbn [negb andb].
  rewrite Hsplit. reflexivity.
Qed.

(** X6: A scalar total enthalpy (a name with "enth", without "phase", that the
    resolver takes neither for a flow nor for a fraction): every
    outlet-side port holds, at every time point, the ["_phase"]-suffixed
    sibling at the phase of the port.  The split fraction does not occur:
    a side draw and its main outlet hold the same expression. *)
Theorem total_enthalpy_on_every_port (s s' : block) k m :
  _add_ports cfg time s = (Ok tt, s') ->
  (k, m) ∈ define_port_members (package cfg) ->
  PyStr.contains "enth" k = true ->
  PyStr.contains "phase" k = false ->
  PyStr.contains "flow" k = false ->
  is_fraction k = false ->
  is_indexed m = false ->
  forall port, port ∈ outlet_ports cfg ->
    port_member_of s' port k
    = Some (PExpression
              (expression_body (keys1 time)
                 (phase_component (local_name m +:+ "_phase")
                    (phase_of_port port)))).
Proof.
  intros Hports Hin He Hp Hf Hfr Hix.
  apply (on_every_port cfg s' k
           (fun phase => PExpression
              (expression_body (keys1 time)
                 (phase_component (local_name m +:+ "_phase") phase)))).
  apply (add_ports_expression cfg time s s' k m "e_enth_"
           (fun phase _ => PExpression
              (expression_body (keys1 time)
                 (phase_component (local_name m +:+ "_phase") phase)))
           Hports Hin).
  { apply prefix_enthalpy; done. }
  intros phase sf ln. unfold member_entry, is_fraction in *.
  rewrite He, Hp, Hf, Hfr, Hix, ?andb_false_r. reflexivity.
Qed.

(** X7: A member whose name contains "frac" but neither "mole" nor "mass", and
    neither "flow" nor "enth", matches no rule of the resolver: its
    iteration changes nothing and raises nothing, and no outlet-side port
    holds an entry under its name. *)
Theorem unqualified_fraction_omitted k m :
  PyStr.contains "frac" k = true ->
  PyStr.contains "mole" k = false ->
  PyStr.contains "mass" k = false ->
  PyStr.contains "flow" k = false ->
  PyStr.contains "enth" k = false ->
  (forall port phase sf ln (s : block),
     phase_split_member time port phase sf k m ln s = (Ok ln, s)) /\
  (forall (s s' : block) port,
     _add_ports cfg time s = (Ok tt, s') ->
     port ∈ outlet_ports cfg ->
     port_member_of s' port k = None).
Proof.
  intros Hfr Hmo Hma Hfl He. split.
  - intros. unfold phase_split_member.
    rewrite Hfr, Hmo, Hma, Hfl, He. reflexivity.
  - intros s s' port Hports Hport.
    destruct (port_member_of s' port k) as [y|] eqn:Hy; [|reflexivity].
    apply add_ports_ok in Hports as [_ Honly].
    destruct (Honly port k y Hport Hy) as (phase & m' & ln0 & sf & _ & Hentry).
    unfold member_entry, is_fraction in Hentry.
    rewrite Hfr, Hmo, Hma, Hfl, He in Hentry. discriminate.
Qed.

(** X8: After [_add_ports] an outlet-side port holds entries only under
    names that the outlet state declares as port members. *)
Theorem ports_hold_declared_members (s s' : block) port k y :
  _add_ports cfg time s = (Ok tt, s') ->
  port ∈ outlet_ports cfg ->
  port_member_of s' port k = Some y ->
  exists m, (k, m) ∈ define_port_members (package cfg).
Proof.
  intros Hports Hport Hy.
  apply add_ports_ok in Hports as [_ Honly].
  destruct (Honly port k y Hport Hy) as (phase & m & ln0 & sf & Hin & _).
  eauto.
Qed.

End ResolverFacts.

(** ** Segments of a member name *)

Section SegmentFacts.
Import Pyomo TrayData Frames Ports Segments.

Lemma split_cons sep s : exists w ws, PyStr.split sep s = w :: ws.
Proof.
  destruct s as [|c s]; cbn; [eauto|].
  destruct (Ascii.eqb c sep); [eauto|].
  destruct (PyStr.split sep s); eauto.
Qed.

(** [split] yields one segment more than there are separators. *)
Lemma length_split sep s :
  length (PyStr.split sep s) = S (count sep s).
Proof.
  induction s as [|c s IH]; cbn; [reflexivity|].
  destruct (Ascii.eqb c sep); cbn.
  - rewrite IH. reflexivity.
  - destruct (PyStr.split sep s) as [|w ws]; cbn in *; [discriminate|].
    exact IH.
Qed.

(** Joining the segments of a name with the separator gives the name
    back: ['_'.join(k.split('_')) == k]. *)
Theorem join_split k :
  PyStr.join "_" (PyStr.split PyStr.underscore k) = k.
Proof.
  unfold PyStr.join, PyStr.underscore.
  induction k as [|c k IH]; [reflexivity|].
  cbn [PyStr.split].
  destruct (split_cons "_" k) as (w & ws & Hs).
  destruct (Ascii.eqb c "_") eqn:Hc.
  - apply Ascii.eqb_eq in Hc as ->. rewrite Hs in *.
    change (String.concat "_" ("" :: w :: ws))
      with (String "_" (String.concat "_" (w :: ws))).
    rewrite IH. reflexivity.
  - rewrite Hs in *.
    destruct ws as [|w' ws].
    + cbn in *. rewrite IH. reflexivity.
    + change (String.concat "_" (String c w :: w' :: ws))
        with (String c (String.concat "_" (w :: w' :: ws))).
      rewrite IH. reflexivity.
Qed.

(** X14: For a mole or mass fraction that is not phase-indexed, the iteration
    raises [IndexError] exactly when the member name has fewer than two
    underscores. *)
Theorem total_fraction_index_error_iff time port phase sf k m ln (s : block) :
  is_fraction k = true ->
  PyStr.contains "phase" k = false ->
  (phase_split_member time port phase sf k m ln s).1 = Raise IndexError
  <-> (count PyStr.underscore k < 2)%nat.
Proof.
  intros Hfr Hp.
  assert (Hlen := length_split PyStr.underscore k).
  unfold phase_split_member. unfold is_fraction in Hfr.
  assert (PyStr.contains "frac" k = true) as Hc
    by (destruct (PyStr.contains "frac" k); done).
  rewrite Hfr, Hc, Hp, ?andb_false_r. cbn [negb andb].
  destruct (PyStr.split PyStr.underscore k !! 2%nat) as [s2|] eqn:Hs2.
  - apply lookup_lt_Some in Hs2. split; [|lia].
    cbv zeta. intros H. exfalso. revert H.
    unfold add_expression, add_component, port_add, getattr.
    cbv [mbind ST_bind lift setattr mret ST_ret].
    destruct (s !! _); [discriminate|].
    match goal with
    | |- context [rule_mole_frac (Some ?n) ?ph] =>
        rewrite (omap_total _ (phase_component n ph)) by reflexivity
    end.
    match goal with
    | |- context [?b !! port] => destruct (b !! port) as [[| | | |]|]
    end; discriminate.
  - apply lookup_ge_None in Hs2. split; [lia|]. reflexivity.
Qed.

End SegmentFacts.
(** ** initialize *)

Section InitializeFacts.
Import TrayData Initializer.

Context (num : Type) (half_sum : num -> num -> num).
Context (state_initialize : string -> Z -> values num -> values num).
Context (cfg : config) (name : string).

Abbreviation init := (initialize num half_sum state_initialize cfg name).

Lemma solves_snoc l e :
  solves (l ++ [e]) = solves l ++ (if is_solve e then [e] else []).
Proof.
  unfold solves. rewrite filter_app. f_equal.
  destruct e; reflexivity.
Qed.

(** C7: with a side draw configured and its split fraction not fixed,
    [initialize] raises at once.  The model it leaves is the model it
    was given: no state block was initialized, no constraint toggled, no
    variable fixed and the solver was not called. *)
Theorem initialize_unfixed_split_fraction slv outlvl (s : model num) :
  (has_liquid_side_draw cfg = true /\ liq_side_sf_fixed (flgs _ s) = Some false) \/
  (has_vapor_side_draw cfg = true /\ vap_side_sf_fixed (flgs _ s) = Some false) ->
  exists e,
    init slv outlvl s = (Raise e, s) /\
    (e = Exception_ "Liquid side draw split fraction not fixed." \/
     e = Exception_ "Vapor side draw split fraction not fixed." \/
     e = AttributeError).
Proof.
  destruct cfg as [ft ld vd ht pc pk args].
  destruct s as [v [ea pa tf pf lf vf] ev]. cbn.
  intros [[-> ->] | [-> ->]].
  - eexists. split; [reflexivity | auto].
  - destruct ld; [destruct lf as [[|]|]|];
      (eexists; split; [reflexivity | auto]).
Qed.

Ltac case_solver f H :=
  match type of H with
  | context [f ?a ?b ?c] =>
      let tc := fresh "tc" in
      destruct (f a b c) as [? tc]; cbv [fst snd] in H;
      destruct tc; cbv [is_optimal] in H
  end.

(** C1 (the code departs from it): [initialize] calls the solver twice,
    not three times.  Whenever it returns, its log holds exactly two new
    solver calls; the second one saw [pressure_drop_equation] deactivated
    and the outlet pressure fixed; the pressure balance is re-activated
    and the pressure unfixed after it, and the last record logged reports
    the status of that second call: the complete system is never solved. *)
Theorem initialize_solves_twice (f : solver num) outlvl (s s' : model num) :
  init (Some f) outlvl s = (Ok tt, s') ->
  exists tee fl1 tc1 fl2 tc2,
    solves (events _ s') =
      solves (events _ s) ++ [Solve tee fl1 tc1; Solve tee fl2 tc2] /\
    pressure_drop_equation_active fl2 = false /\
    out_pressure_fixed fl2 = true /\
    pressure_drop_equation_active (flgs _ s') = true /\
    out_pressure_fixed (flgs _ s') = false /\
    last (events _ s') =
      Some (Info (name +:+ (if is_optimal tc2
                            then " Tray initialisation complete."
                            else " Mass/Energy/Pressure balance solve failed."))).
Proof.
  destruct cfg as [ft ld vd ht pc pk args].
  destruct s as [v [ea pa tf pf lf vf] ev].
  unfold initialize. intros H.
  destruct ld; [destruct lf as [[|]|]|];
  (destruct vd; [destruct vf as [[|]|]|]);
  destruct ft;
  cbv [mbind ST_bind mret ST_ret raise get_flags get_values set_flags
       set_values emit info solve initialize_state
       enthalpy_mixing_equations_activate pressure_drop_equation_activate
       out_temperature_fix out_temperature_unfix
       out_pressure_fix out_pressure_unfix
       has_liquid_side_draw has_vapor_side_draw is_feed_tray
       liq_side_sf_fixed vap_side_sf_fixed negb vals flgs events
       enthalpy_mixing_equations_active pressure_drop_equation_active
       out_temperature_fixed out_pressure_fixed
       feed_temperature liq_temperature vap_temperature vap_pressure
       out_temperature out_pressure] in H;
  try discriminate H.
  all: repeat case_solver f H.
  all: injection H as <-; cbn [events flgs].
  all: do 5 eexists.
  all: rewrite ?solves_snoc, ?last_snoc; cbn [is_solve].
  all: rewrite ?app_nil_r, <- ?app_assoc.
  all: repeat split; reflexivity.
Qed.

End InitializeFacts.

(** ** The stages of initialize *)

Section StageFacts.
Import TrayData Initializer Stages.

Context (num : Type) (half_sum : num -> num -> num).
Context (state_initialize : string -> Z -> values num -> values num).
Context (cfg : config) (name : string).

(** The run of [initialize] with a solver, once the guards pass. *)
Lemma initialize_run (f : solver num) outlvl (s : model num) :
  guards_pass cfg (flgs num s) ->
  let fl := flgs num s in
  let tee := 2 <? outlvl in
  let v1 := first_guess num half_sum cfg
              (after_state_initialize num state_initialize cfg outlvl (vals num s)) in
  let r1 := f (mass_stage fl) tee v1 in
  let r2 := f (energy_stage fl) tee r1.1 in
  initialize num half_sum state_initialize cfg name (Some f) outlvl s
  = (Ok tt,
     mkModel num r2.1 (full_stage fl)
       (events num s
        ++ map (fun blk => StateInitialize blk outlvl) (initialized_blocks cfg)
        ++ [Solve tee (mass_stage fl) r1.2;
            Info (name +:+ (if is_optimal r1.2
                            then " Mass balance solve successful."
                            else " Mass balance solve failed."));
            Solve tee (energy_stage fl) r2.2;
            Info (name +:+ (if is_optimal r2.2
                            then " Mass/Energy balance solve successful."
                            else " Mass/Energy balance solve failed."));
            Info (name +:+ (if is_optimal r2.2
                            then " Tray initialisation complete."
                            else " Mass/Energy/Pressure balance solve failed."))])).
Proof.
  destruct cfg as [ft ld vd ht pc pk args].
  destruct s as [v [ea pa tf pf lf vf] ev].
  unfold guards_pass. cbn [flgs liq_side_sf_fixed vap_side_sf_fixed
                           has_liquid_side_draw has_vapor_side_draw].
  intros [Hl Hv]. cbv zeta.
  unfold initialize, after_state_initialize, initialized_blocks, first_guess,
    mass_stage, energy_stage, full_stage.
  destruct ld; [rewrite (Hl eq_refl)|]; clear Hl;
  (destruct vd; [rewrite (Hv eq_refl)|]; clear Hv);
  destruct ft;
    cbv [mbind ST_bind mret ST_ret raise get_flags get_values set_flags
         set_values emit info solve initialize_state
         enthalpy_mixing_equations_activate pressure_drop_equation_activate
         out_temperature_fix out_temperature_unfix
         out_pressure_fix out_pressure_unfix
         has_liquid_side_draw has_vapor_side_draw is_feed_tray
         liq_side_sf_fixed vap_side_sf_fixed negb vals flgs events
         enthalpy_mixing_equations_active pressure_drop_equation_active
         out_temperature_fixed out_pressure_fixed
         feed_temperature liq_temperature vap_temperature vap_pressure
         out_temperature out_pressure fst snd].
  all: cbn [fold_left map app].
  all: repeat match goal with
       | |- context [is_optimal ?x] => destruct (is_optimal x)
       end.
  all: rewrite <- ?app_assoc; cbn [app]; reflexivity.
Qed.

(** X17: With a solver, [initialize] returns whatever the two solves report:
    a status that is not optimal is logged, never raised.  At the end both
    balances are active, the outlet temperature and pressure are unfixed
    and the fixed flags of the split fractions are as they were. *)
Theorem initialize_returns_on_any_status (f : solver num) outlvl (s : model num) :
  guards_pass cfg (flgs num s) ->
  exists s',
    initialize num half_sum state_initialize cfg name (Some f) outlvl s = (Ok tt, s') /\
    flgs num s' = full_stage (flgs num s).
Proof.
  intros Hg. eexists. split; [apply initialize_run; exact Hg|]. reflexivity.
Qed.

(** X18: The log of a run, in order: the state blocks initialize themselves
    (the feed first on a feed tray, then liquid inlet, vapor inlet, outlet),
    each with [outlvl]; the first solve sees both the energy and the
    pressure balance deactivated and the outlet temperature and pressure
    fixed; the second sees the energy balance active and the temperature
    free, the pressure balance still deactivated and the pressure fixed;
    each solve is followed by its record and a last record closes the log.
    Both solves are asked to echo the solver output exactly when
    [outlvl > 2]. *)
Theorem initialize_log (f : solver num) outlvl (s s' : model num) :
  guards_pass cfg (flgs num s) ->
  initialize num half_sum state_initialize cfg name (Some f) outlvl s = (Ok tt, s') ->
  exists tc1 tc2 msg1 msg2 msg3,
    events num s' =
      events num s
      ++ map (fun blk => StateInitialize blk outlvl) (initialized_blocks cfg)
      ++ [Solve (2 <? outlvl) (mass_stage (flgs num s)) tc1; Info (name +:+ msg1);
          Solve (2 <? outlvl) (energy_stage (flgs num s)) tc2; Info (name +:+ msg2);
          Info (name +:+ msg3)] /\
    msg1 = (if is_optimal tc1 then " Mass balance solve successful."
            else " Mass balance solve failed.") /\
    msg2 = (if is_optimal tc2 then " Mass/Energy balance solve successful."
            else " Mass/Energy balance solve failed.") /\
    msg3 = (if is_optimal tc2 then " Tray initialisation complete."
            else " Mass/Energy/Pressure balance solve failed.").
Proof.
  intros Hg H. rewrite (initialize_run f outlvl s Hg) in H.
  injection H as <-. cbn [events]. do 5 eexists.
  split; [reflexivity|]. auto.
Qed.

(** X20: Without a solver (the default [solver=None]) and with the guards
    passed, [initialize] raises [AttributeError] at the first solve.  By
    then the state blocks have been initialized and the tray is left in the
    mass-only stage: both the energy and the pressure balance deactivated,
    the outlet temperature and pressure fixed at the guess; no solve is
    logged. *)
Theorem initialize_without_solver outlvl (s : model num) :
  guards_pass cfg (flgs num s) ->
  initialize num half_sum state_initialize cfg name None outlvl s
  = (Raise AttributeError,
     mkModel num
       (first_guess num half_sum cfg
          (after_state_initialize num state_initialize cfg outlvl (vals num s)))
       (mass_stage (flgs num s))
       (events num s
        ++ map (fun blk => StateInitialize blk outlvl) (initialized_blocks cfg))).
Proof.
  destruct cfg as [ft ld vd ht pc pk args].
  destruct s as [v [ea pa tf pf lf vf] ev].
  unfold guards_pass. cbn [flgs liq_side_sf_fixed vap_side_sf_fixed
                           has_liquid_side_draw has_vapor_side_draw].
  intros [Hl Hv].
  unfold initialize, after_state_initialize, initialized_blocks, first_guess,
    mass_stage.
  destruct ld; [rewrite (Hl eq_refl)|]; clear Hl;
  (destruct vd; [rewrite (Hv eq_refl)|]; clear Hv);
  destruct ft;
    cbv [mbind ST_bind mret ST_ret raise get_flags get_values set_flags
         set_values emit info solve initialize_state
         enthalpy_mixing_equations_activate pressure_drop_equation_activate
         out_temperature_fix out_temperature_unfix
         out_pressure_fix out_pressure_unfix
         has_liquid_side_draw has_vapor_side_draw is_feed_tray
         liq_side_sf_fixed vap_side_sf_fixed negb vals flgs events
         enthalpy_mixing_equations_active pressure_drop_equation_active
         out_temperature_fixed out_pressure_fixed
         feed_temperature liq_temperature vap_temperature vap_pressure
         out_temperature out_pressure fst snd].
  all: cbn [fold_left map app].
  all: rewrite <- ?app_assoc; cbn [app]; reflexivity.
Qed.

End StageFacts.

Section GuessFacts.
Import TrayData Initializer Stages.

Context (num : Type) (half : num) (mul add : num -> num -> num).
Context (state_initialize : string -> Z -> values num -> values num).
Context (cfg : config) (name : string).

(** X19: the values a run works on, when the guess for the outlet
    temperature is computed as the source writes it, [0.5 * (a + b)], in
    any arithmetic.  The first solve starts from the values the state
    blocks left, with the outlet temperature set to the feed temperature
    on a feed tray and to [0.5 * (liquid + vapor)] inlet temperature
    otherwise, the sum taken first, and the outlet pressure set to the
    vapor inlet's; the second solve starts from the result of the first,
    and its result is what the model holds at the end. *)
Theorem initialize_values (f : solver num) outlvl (s s' : model num) :
  guards_pass cfg (flgs num s) ->
  initialize num (average num half mul add) state_initialize cfg name
    (Some f) outlvl s = (Ok tt, s') ->
  let v0 := after_state_initialize num state_initialize cfg outlvl (vals num s) in
  let v1 := first_guess num (average num half mul add) cfg v0 in
  let tee := 2 <? outlvl in
  vals num s'
  = (f (energy_stage (flgs num s)) tee (f (mass_stage (flgs num s)) tee v1).1).1 /\
  out_temperature num v1
  = (if is_feed_tray cfg then feed_temperature num v0
     else mul half (add (liq_temperature num v0) (vap_temperature num v0))) /\
  out_pressure num v1 = vap_pressure num v0 /\
  feed_temperature num v1 = feed_temperature num v0 /\
  liq_temperature num v1 = liq_temperature num v0 /\
  vap_temperature num v1 = vap_temperature num v0 /\
  vap_pressure num v1 = vap_pressure num v0.
Proof.
  intros Hg H.
  rewrite (initialize_run num (average num half mul add) state_initialize
             cfg name f outlvl s Hg) in H.
  injection H as <-. cbn. repeat split; reflexivity.
Qed.

End GuessFacts.

(** ** The claims on sample trays *)

Import Pyomo TrayData Initializer Samples MoreSamples.

Ltac find_member := first [left | right; find_member].

Lemma flow_split_between_ports_witness :
  let cfg := side_draw_tray vle_package in
  let m := mkMember "flow_mol_comp" by_component in
  let r := _add_ports cfg [0] state_blocks in
  let scaled phase f :=
    PExpression (expression_body (keys2 [0] (index_set m))
                   (fun key => Mul (phase_component "flow_mol_phase_comp" phase key) f)) in
  r = (Ok tt, r.2) /\
  ("flow_mol_comp", m) ∈ define_port_members (package cfg) /\
  PyStr.contains "flow" "flow_mol_comp" = true /\
  PyStr.contains "phase" "flow_mol_comp" = false /\
  is_fraction "flow_mol_comp" = false /\
  flow_sibling m = Some "flow_mol_phase_comp" /\
  (port_member_of r.2 "liq_side_draw" "flow_mol_comp"
     = Some (scaled "Liq" (TrayVar "liq_side_sf")) /\
   port_member_of r.2 "liq_out" "flow_mol_comp"
     = Some (scaled "Liq" (Sub (Num 1) (TrayVar "liq_side_sf")))) /\
  port_member_of r.2 "vap_out" "flow_mol_comp" = Some (scaled "Vap" (Num 1)).
Proof.
  cbv zeta.
  assert (Hrun : _add_ports (side_draw_tray vle_package) [0] state_blocks
                 = (Ok tt, (_add_ports (side_draw_tray vle_package) [0]
                              state_blocks).2))
    by (vm_compute; reflexivity).
  assert (Hin : ("flow_mol_comp", mkMember "flow_mol_comp" by_component)
                ∈ define_port_members (package (side_draw_tray vle_package)))
    by find_member.
  do 6 (split; [first [exact Hrun | exact Hin | reflexivity]|]).
  exact (flow_split_between_ports (side_draw_tray vle_package) [0]
           state_blocks _ "flow_mol_comp" _ "flow_mol_phase_comp"
           Hrun Hin eq_refl eq_refl eq_refl eq_refl).
Defined.

(** C3 as stated fails on a flow member that the resolver takes for a
    fraction: the port holds the sibling alone, not multiplied by the
    split fraction.  The indexed flow [flow_comp] that follows is not of
    the form [X_Y_comp], and reads the sibling left by the member
    before it. *)
Lemma flow_member_counterexample :
  let cfg := side_draw_tray fraction_flow_package in
  let r := _add_ports cfg [0] state_blocks in
  let keys := keys2 [0] [Idx "benzene"; Idx "toluene"] in
  r.1 = Ok tt /\
  ("flow_mole_frac", mkMember "flow_mole_frac" by_component)
    ∈ define_port_members (package cfg) /\
  PyStr.contains "flow" "flow_mole_frac" = true /\
  PyStr.contains "phase" "flow_mole_frac" = false /\
  port_member_of r.2 "liq_side_draw" "flow_mole_frac"
    = Some (PExpression (expression_body keys
                           (phase_component "flow_mole_phase_frac" "Liq"))) /\
  (forall n,
     port_member_of r.2 "liq_side_draw" "flow_mole_frac"
     <> Some (PExpression (expression_body keys
                 (fun key => Mul (phase_component n "Liq" key)
                                 (TrayVar "liq_side_sf"))))) /\
  ("flow_comp", mkMember "flow_comp" by_component)
    ∈ define_port_members (package cfg) /\
  PyStr.contains "flow" "flow_comp" = true /\
  PyStr.contains "phase" "flow_comp" = false /\
  flow_sibling (mkMember "flow_comp" by_component) = None /\
  port_member_of r.2 "liq_side_draw" "flow_comp"
    = Some (PExpression (expression_body keys
              (fun key => Mul (phase_component "flow_mole_phase_frac" "Liq" key)
                              (TrayVar "liq_side_sf")))).
Proof.
  cbv zeta. repeat split; try (vm_compute; reflexivity); try find_member.
  intros n H. vm_compute in H. discriminate H.
Qed.

Lemma shared_reference_on_every_port_witness :
  let cfg := side_draw_tray vle_package in
  let m := mkMember "temperature" None in
  let r := _add_ports cfg [0] state_blocks in
  r = (Ok tt, r.2) /\
  NoDup (define_port_members (package cfg)).*1 /\
  ("temperature", m) ∈ define_port_members (package cfg) /\
  (PyStr.contains "flow" "temperature" = false /\
   PyStr.contains "frac" "temperature" = false /\
   PyStr.contains "enth" "temperature" = false) /\
  exists sliced,
    forall port, port ∈ outlet_ports cfg ->
      port_member_of r.2 port "temperature"
      = Some (PReference "properties_out" "temperature" sliced).
Proof.
  cbv zeta.
  assert (Hrun : _add_ports (side_draw_tray vle_package) [0] state_blocks
                 = (Ok tt, (_add_ports (side_draw_tray vle_package) [0]
                              state_blocks).2))
    by (vm_compute; reflexivity).
  assert (Hnodup : NoDup (define_port_members
                            (package (side_draw_tray vle_package))).*1)
    by compute_done.
  assert (Hin : ("temperature", mkMember "temperature" None)
                ∈ define_port_members (package (side_draw_tray vle_package)))
    by find_member.
  split; [exact Hrun|]. split; [exact Hnodup|]. split; [exact Hin|].
  split; [repeat split; reflexivity|].
  exact (shared_reference_on_every_port (side_draw_tray vle_package) [0]
           state_blocks _ "temperature" _ Hrun Hnodup Hin
           (or_introl (conj eq_refl (conj eq_refl eq_refl)))).
Defined.

(** C5 as stated fails on a phase-indexed enthalpy whose name also
    contains "flow": the resolver tests "flow" before "enth" and does
    nothing for a name with "flow" and "phase", so no port holds an entry
    under the name, while [_add_ports] returns. *)
Lemma shared_reference_counterexample :
  let cfg := side_draw_tray enthalpy_flow_phase_package in
  let r := _add_ports cfg [0] state_blocks in
  ("enth_flow_phase", mkMember "enth_flow_phase" by_phase)
    ∈ define_port_members (package cfg) /\
  PyStr.contains "enth" "enth_flow_phase" = true /\
  PyStr.contains "phase" "enth_flow_phase" = true /\
  r.1 = Ok tt /\
  port_member_of r.2 "liq_out" "enth_flow_phase" = None /\
  port_member_of r.2 "liq_side_draw" "enth_flow_phase" = None /\
  port_member_of r.2 "vap_out" "enth_flow_phase" = None /\
  port_member_of r.2 "liq_out" "temperature"
    = Some (PReference "properties_out" "temperature" false).
Proof.
  cbv zeta. repeat split; try (vm_compute; reflexivity); find_member.
Qed.

Lemma phase_indexed_flow_omitted_witness :
  let cfg := side_draw_tray vle_package in
  let m := mkMember "flow_mol_phase" by_phase in
  PyStr.contains "flow" "flow_mol_phase" = true /\
  PyStr.contains "phase" "flow_mol_phase" = true /\
  is_fraction "flow_mol_phase" = false /\
  (forall port phase sf ln (s : block),
     phase_split_member [0] port phase sf "flow_mol_phase" m ln s = (Ok ln, s)) /\
  (forall (s s' : block) port,
     _add_ports cfg [0] s = (Ok tt, s') ->
     port ∈ outlet_ports cfg ->
     port_member_of s' port "flow_mol_phase" = None).
Proof.
  cbv zeta. do 3 (split; [reflexivity|]).
  exact (phase_indexed_flow_omitted (side_draw_tray vle_package) [0]
           "flow_mol_phase" (mkMember "flow_mol_phase" by_phase)
           eq_refl eq_refl eq_refl).
Defined.

(** C9 as stated fails on a name that also reads as a fraction: the
    member is not skipped, the port holds a reference under its name. *)
Lemma phase_indexed_flow_counterexample :
  let cfg := side_draw_tray fraction_flow_phase_package in
  let r := _add_ports cfg [0] state_blocks in
  PyStr.contains "flow" "flow_mole_frac_phase" = true /\
  PyStr.contains "phase" "flow_mole_frac_phase" = true /\
  ("flow_mole_frac_phase", mkMember "flow_mole_frac_phase" by_phase)
    ∈ define_port_members (package cfg) /\
  r.1 = Ok tt /\
  "liq_out" ∈ outlet_ports cfg /\
  port_member_of r.2 "liq_out" "flow_mole_frac_phase"
    = Some (PReference "properties_out" "flow_mole_frac_phase" true).
Proof.
  cbv zeta. repeat split; try (vm_compute; reflexivity); find_member.
Qed.



Lemma total_fraction_needs_three_segments_witness :
  is_fraction "mole_frac" = true /\
  PyStr.contains "phase" "mole_frac" = false /\
  PyStr.split PyStr.underscore "mole_frac" = ["mole"; "frac"] /\
  phase_split_member [0] "liq_out" "Liq" (Num 1) "mole_frac"
    (mkMember "mole_frac" by_component) None state_blocks
  = (Raise IndexError, state_blocks).
Proof.
  do 3 (split; [reflexivity|]).
  apply (total_fraction_needs_three_segments
           (side_draw_tray vle_package) [0] "mole_frac"
           (mkMember "mole_frac" by_component) eq_refl eq_refl).
  cbn. lia.
Defined.

Lemma initialize_unfixed_split_fraction_witness :
  (has_liquid_side_draw (side_draw_tray vle_package) = true /\
   liq_side_sf_fixed (flgs float unfixed_draw) = Some false) /\
  exists e,
    initialize float mean idle_state (side_draw_tray vle_package) "fs.tray"
      (Some failing_solver) 0 unfixed_draw
    = (Raise e, unfixed_draw) /\
    (e = Exception_ "Liquid side draw split fraction not fixed." \/
     e = Exception_ "Vapor side draw split fraction not fixed." \/
     e = AttributeError).
Proof.
  split; [split; reflexivity|].
  apply (initialize_unfixed_split_fraction float mean idle_state
           (side_draw_tray vle_package) "fs.tray").
  left. split; reflexivity.
Defined.

Lemma initialize_solves_twice_witness :
  let r := initialize float mean idle_state (side_draw_tray vle_package)
             "fs.tray" (Some failing_solver) 0 fixed_draw in
  r = (Ok tt, r.2) /\
  exists tee fl1 tc1 fl2 tc2,
    solves (events float r.2) =
      solves (events float fixed_draw) ++ [Solve tee fl1 tc1; Solve tee fl2 tc2] /\
    pressure_drop_equation_active fl2 = false /\
    out_pressure_fixed fl2 = true /\
    pressure_drop_equation_active (flgs float r.2) = true /\
    out_pressure_fixed (flgs float r.2) = false /\
    last (events float r.2) =
      Some (Info ("fs.tray" +:+ (if is_optimal tc2
                                 then " Tray initialisation complete."
                                 else " Mass/Energy/Pressure balance solve failed."))).
Proof.
  cbv zeta.
  assert (Hrun : initialize float mean idle_state (side_draw_tray vle_package)
                   "fs.tray" (Some failing_solver) 0 fixed_draw
                 = (Ok tt, (initialize float mean idle_state
                              (side_draw_tray vle_package) "fs.tray"
                              (Some failing_solver) 0 fixed_draw).2))
    by (vm_compute; reflexivity).
  split; [exact Hrun|].
  exact (initialize_solves_twice float mean idle_state (side_draw_tray vle_package)
           "fs.tray" failing_solver 0 fixed_draw _ Hrun).
Defined.

(** ** The further properties on sample trays *)

Import Frames Ports Stages Segments.

Lemma run_returns {S} (r : outcome unit * S) : r.1 = Ok tt -> r = (Ok tt, r.2).
Proof. destruct r as [o s]. cbn. intros ->. reflexivity. Qed.

Lemma guards_pass_fixed_draw :
  guards_pass (side_draw_tray vle_package) (flgs float fixed_draw).
Proof. split; intros H; [reflexivity | discriminate H]. Qed.

Lemma initialize_returns_on_any_status_witness :
  guards_pass (side_draw_tray vle_package) (flgs float fixed_draw) /\
  exists s',
    initialize float mean idle_state (side_draw_tray vle_package) "fs.tray"
      (Some failing_solver) 0 fixed_draw = (Ok tt, s') /\
    flgs float s' = full_stage (flgs float fixed_draw).
Proof.
  split; [exact guards_pass_fixed_draw|].
  exact (initialize_returns_on_any_status float mean idle_state
           (side_draw_tray vle_package) "fs.tray" failing_solver 0 fixed_draw
           guards_pass_fixed_draw).
Defined.

Lemma initialize_log_witness :
  let r := initialize float mean idle_state (side_draw_tray vle_package)
             "fs.tray" (Some failing_solver) 3 fixed_draw in
  guards_pass (side_draw_tray vle_package) (flgs float fixed_draw) /\
  r = (Ok tt, r.2) /\
  exists tc1 tc2 msg1 msg2 msg3,
    events float r.2 =
      events float fixed_draw
      ++ map (fun blk => StateInitialize blk 3)
           (initialized_blocks (side_draw_tray vle_package))
      ++ [Solve (2 <? 3) (mass_stage (flgs float fixed_draw)) tc1;
          Info ("fs.tray" +:+ msg1);
          Solve (2 <? 3) (energy_stage (flgs float fixed_draw)) tc2;
          Info ("fs.tray" +:+ msg2);
          Info ("fs.tray" +:+ msg3)] /\
    msg1 = (if is_optimal tc1 then " Mass balance solve successful."
            else " Mass balance solve failed.") /\
    msg2 = (if is_optimal tc2 then " Mass/Energy balance solve successful."
            else " Mass/Energy balance solve failed.") /\
    msg3 = (if is_optimal tc2 then " Tray initialisation complete."
            else " Mass/Energy/Pressure balance solve failed.").
Proof.
  cbv zeta.
  assert (Hrun : initialize float mean idle_state (side_draw_tray vle_package)
                   "fs.tray" (Some failing_solver) 3 fixed_draw
                 = (Ok tt, (initialize float mean idle_state
                              (side_draw_tray vle_package) "fs.tray"
                              (Some failing_solver) 3 fixed_draw).2))
    by (apply run_returns; vm_compute; reflexivity).
  split; [exact guards_pass_fixed_draw|]. split; [exact Hrun|].
  exact (initialize_log float mean idle_state (side_draw_tray vle_package)
           "fs.tray" failing_solver 3 fixed_draw _
           guards_pass_fixed_draw Hrun).
Defined.

Lemma initialize_values_witness :
  let half_sum := average float 0.5%float PrimFloat.mul PrimFloat.add in
  let r := initialize float half_sum idle_state (side_draw_tray vle_package)
             "fs.tray" (Some failing_solver) 3 fixed_draw in
  let v1 := first_guess float half_sum (side_draw_tray vle_package)
              (after_state_initialize float idle_state (side_draw_tray vle_package)
                 3 (vals float fixed_draw)) in
  guards_pass (side_draw_tray vle_package) (flgs float fixed_draw) /\
  r = (Ok tt, r.2) /\
  vals float r.2
  = (failing_solver (energy_stage (flgs float fixed_draw)) (2 <? 3)
       (failing_solver (mass_stage (flgs float fixed_draw)) (2 <? 3) v1).1).1 /\
  out_temperature float v1 = (0.5 * (341 + 360))%float /\
  (0.5 * (341 + 360))%float = 350.5%float /\
  out_pressure float v1 = 101325%float.
Proof.
  cbv zeta.
  assert (Hrun : initialize float (average float 0.5%float PrimFloat.mul PrimFloat.add)
                   idle_state (side_draw_tray vle_package)
                   "fs.tray" (Some failing_solver) 3 fixed_draw
                 = (Ok tt, (initialize float
                              (average float 0.5%float PrimFloat.mul PrimFloat.add)
                              idle_state
                              (side_draw_tray vle_package) "fs.tray"
                              (Some failing_solver) 3 fixed_draw).2))
    by (apply run_returns; vm_compute; reflexivity).
  split; [exact guards_pass_fixed_draw|]. split; [exact Hrun|].
  destruct (initialize_values float 0.5%float PrimFloat.mul PrimFloat.add
              idle_state (side_draw_tray vle_package)
              "fs.tray" failing_solver 3 fixed_draw _
              guards_pass_fixed_draw Hrun)
    as (Hvals & Ht & Hp & _).
  split; [exact Hvals|]. split; [exact Ht|].
  split; [vm_compute; reflexivity | exact Hp].
Defined.

Lemma initialize_without_solver_witness :
  guards_pass (side_draw_tray vle_package) (flgs float fixed_draw) /\
  initialize float mean idle_state (side_draw_tray vle_package) "fs.tray" None 0 fixed_draw
  = (Raise AttributeError,
     mkModel float
       (mkValues float 350%float 341%float 360%float 101325%float
          350.5%float 101325%float)
       (mkFlags false false true true (Some true) None)
       [StateInitialize "properties_in_liq" 0;
        StateInitialize "properties_in_vap" 0;
        StateInitialize "properties_out" 0]).
Proof.
  split; [exact guards_pass_fixed_draw|].
  rewrite (initialize_without_solver float mean idle_state
             (side_draw_tray vle_package) "fs.tray" 0 fixed_draw
             guards_pass_fixed_draw).
  vm_compute. reflexivity.
Defined.


Lemma make_phase_split_never_generic_witness :
  let r := _make_phase_split (side_draw_tray short_fraction_package) [0]
             "liq_out" "Liq" (Num 1) with_liq_out in
  r = (Raise IndexError, r.2) /\
  forall msg, IndexError <> Exception_ msg.
Proof.
  cbv zeta.
  assert (Hrun : _make_phase_split (side_draw_tray short_fraction_package) [0]
                   "liq_out" "Liq" (Num 1) with_liq_out
                 = (Raise IndexError,
                    (_make_phase_split (side_draw_tray short_fraction_package) [0]
                       "liq_out" "Liq" (Num 1) with_liq_out).2)).
  { destruct (_make_phase_split (side_draw_tray short_fraction_package) [0]
                "liq_out" "Liq" (Num 1) with_liq_out) as [o s'] eqn:Hr.
    assert (o = Raise IndexError) as ->; [|reflexivity].
    change o with (o, s').1. rewrite <- Hr. vm_compute. reflexivity. }
  split; [exact Hrun|].
  exact (make_phase_split_never_generic (side_draw_tray short_fraction_package) [0]
           "liq_out" "Liq" (Num 1) with_liq_out _ IndexError Hrun).
Defined.

Lemma total_fraction_on_every_port_witness :
  let cfg := side_draw_tray fraction_package in
  let m := mkMember "mole_frac_comp" by_component in
  let r := _add_ports cfg [0] state_blocks in
  r = (Ok tt, r.2) /\
  ("mole_frac_comp", m) ∈ define_port_members (package cfg) /\
  is_fraction "mole_frac_comp" = true /\
  PyStr.contains "phase" "mole_frac_comp" = false /\
  PyStr.split PyStr.underscore "mole_frac_comp" = ["mole"; "frac"; "comp"] /\
  forall port, port ∈ outlet_ports cfg ->
    port_member_of r.2 port "mole_frac_comp"
    = Some (PExpression
              (expression_body (keys2 [0] (index_set m))
                 (phase_component "mole_frac_phase_comp" (phase_of_port port)))).
Proof.
  cbv zeta.
  assert (Hrun : _add_ports (side_draw_tray fraction_package) [0] state_blocks
                 = (Ok tt, (_add_ports (side_draw_tray fraction_package) [0]
                              state_blocks).2))
    by (apply run_returns; vm_compute; reflexivity).
  assert (Hin : ("mole_frac_comp", mkMember "mole_frac_comp" by_component)
                ∈ define_port_members (package (side_draw_tray fraction_package)))
    by find_member.
  split; [exact Hrun|]. split; [exact Hin|]. do 3 (split; [reflexivity|]).
  exact (total_fraction_on_every_port (side_draw_tray fraction_package) [0]
           state_blocks _ "mole_frac_comp" _ "mole" "frac" "comp" []
           Hrun Hin eq_refl eq_refl eq_refl).
Defined.

Lemma total_enthalpy_on_every_port_witness :
  let cfg := side_draw_tray vle_package in
  let m := mkMember "enth_mol" None in
  let r := _add_ports cfg [0] state_blocks in
  r = (Ok tt, r.2) /\
  ("enth_mol", m) ∈ define_port_members (package cfg) /\
  PyStr.contains "enth" "enth_mol" = true /\
  PyStr.contains "phase" "enth_mol" = false /\
  PyStr.contains "flow" "enth_mol" = false /\
  is_fraction "enth_mol" = false /\
  is_indexed m = false /\
  forall port, port ∈ outlet_ports cfg ->
    port_member_of r.2 port "enth_mol"
    = Some (PExpression
              (expression_body (keys1 [0])
                 (phase_component "enth_mol_phase" (phase_of_port port)))).
Proof.
  cbv zeta.
  assert (Hrun : _add_ports (side_draw_tray vle_package) [0] state_blocks
                 = (Ok tt, (_add_ports (side_draw_tray vle_package) [0]
                              state_blocks).2))
    by (apply run_returns; vm_compute; reflexivity).
  assert (Hin : ("enth_mol", mkMember "enth_mol" None)
                ∈ define_port_members (package (side_draw_tray vle_package)))
    by find_member.
  split; [exact Hrun|]. split; [exact Hin|]. do 5 (split; [reflexivity|]).
  exact (total_enthalpy_on_every_port (side_draw_tray vle_package) [0]
           state_blocks _ "enth_mol" _ Hrun Hin
           eq_refl eq_refl eq_refl eq_refl eq_refl).
Defined.

Lemma unqualified_fraction_omitted_witness :
  let cfg := side_draw_tray vle_package in
  let m := mkMember "vol_frac_phase" by_phase in
  PyStr.contains "frac" "vol_frac_phase" = true /\
  PyStr.contains "mole" "vol_frac_phase" = false /\
  PyStr.contains "mass" "vol_frac_phase" = false /\
  PyStr.contains "flow" "vol_frac_phase" = false /\
  PyStr.contains "enth" "vol_frac_phase" = false /\
  (forall port phase sf ln (s : block),
     phase_split_member [0] port phase sf "vol_frac_phase" m ln s = (Ok ln, s)) /\
  (forall (s s' : block) port,
     _add_ports cfg [0] s = (Ok tt, s') ->
     port ∈ outlet_ports cfg ->
     port_member_of s' port "vol_frac_phase" = None).
Proof.
  cbv zeta. do 5 (split; [reflexivity|]).
  exact (unqualified_fraction_omitted (side_draw_tray vle_package) [0]
           "vol_frac_phase" (mkMember "vol_frac_phase" by_phase)
           eq_refl eq_refl eq_refl eq_refl eq_refl).
Defined.

Lemma ports_hold_declared_members_witness :
  let cfg := side_draw_tray vle_package in
  let r := _add_ports cfg [0] state_blocks in
  r = (Ok tt, r.2) /\
  "liq_side_draw" ∈ outlet_ports cfg /\
  port_member_of r.2 "liq_side_draw" "pressure"
    = Some (PReference "properties_out" "pressure" false) /\
  exists m, ("pressure", m) ∈ define_port_members (package cfg).
Proof.
  cbv zeta.
  assert (Hrun : _add_ports (side_draw_tray vle_package) [0] state_blocks
                 = (Ok tt, (_add_ports (side_draw_tray vle_package) [0]
                              state_blocks).2))
    by (apply run_returns; vm_compute; reflexivity).
  assert (Hport : "liq_side_draw" ∈ outlet_ports (side_draw_tray vle_package))
    by (cbn; find_member).
  assert (Hy : port_member_of
                 (_add_ports (side_draw_tray vle_package) [0] state_blocks).2
                 "liq_side_draw" "pressure"
               = Some (PReference "properties_out" "pressure" false))
    by (vm_compute; reflexivity).
  split; [exact Hrun|]. split; [exact Hport|]. split; [exact Hy|].
  exact (ports_hold_declared_members (side_draw_tray vle_package) [0]
           state_blocks _ "liq_side_draw" "pressure" _ Hrun Hport Hy).
Defined.

Lemma second_member_of_a_rule_collides_witness :
  let cfg := side_draw_tray two_flows_package in
  define_port_members (package cfg)
    = [] ++ ("flow_mol", mkMember "flow_mol" None)
         :: [("temperature", mkMember "temperature" None)]
         ++ ("flow_mol_comp", mkMember "flow_mol_comp" by_component) :: [] /\
  expression_prefix "flow_mol" = Some "e_flow_" /\
  expression_prefix "flow_mol_comp" = Some "e_flow_" /\
  exists e s',
    _make_phase_split cfg [0] "liq_out" "Liq" (Num 1) with_liq_out = (Raise e, s').
Proof.
  cbv zeta. do 3 (split; [reflexivity|]).
  exact (second_member_of_a_rule_collides (side_draw_tray two_flows_package) [0]
           "liq_out" "Liq" (Num 1) with_liq_out
           [] "flow_mol" (mkMember "flow_mol" None)
           [("temperature", mkMember "temperature" None)]
           "flow_mol_comp" (mkMember "flow_mol_comp" by_component) []
           "e_flow_" eq_refl eq_refl eq_refl).
Defined.

Lemma indexed_flow_reads_leftover_name_witness :
  let m := mkMember "flow_comp" by_component in
  PyStr.contains "flow" "flow_comp" = true /\
  PyStr.contains "phase" "flow_comp" = false /\
  is_fraction "flow_comp" = false /\
  is_indexed m = true /\
  flow_sibling m = None /\
  (phase_split_member [0] "liq_out" "Liq" (Num 1) "flow_comp" m None
     with_liq_out).1 = Raise NameError.
Proof.
  cbv zeta. do 5 (split; [reflexivity|]).
  apply (proj1 (indexed_flow_reads_leftover_name [0] "liq_out" "Liq" (Num 1)
                  "flow_comp" (mkMember "flow_comp" by_component)
                  eq_refl eq_refl eq_refl eq_refl eq_refl)).
  - discriminate.
  - discriminate.
  - vm_compute. reflexivity.
Defined.

Lemma make_phase_split_reads_time_zero_witness :
  let cfg := side_draw_tray vle_package in
  (∅ : block) !! "properties_out" = None /\
  _make_phase_split cfg [0] "liq_out" "Liq" (Num 1) ∅ = (Raise AttributeError, ∅) /\
  with_liq_out !! "properties_out"
    = Some (StateBlock "State block for mixed outlet from tray" ∅) /\
  (0 ∉ [1; 2]) /\
  _make_phase_split cfg [1; 2] "liq_out" "Liq" (Num 1) with_liq_out
    = (Raise KeyError, with_liq_out).
Proof.
  cbv zeta.
  assert (Hnone : (∅ : block) !! "properties_out" = None) by apply lookup_empty.
  assert (Hout : with_liq_out !! "properties_out"
                 = Some (StateBlock "State block for mixed outlet from tray" ∅))
    by (vm_compute; reflexivity).
  assert (Htime : 0 ∉ [1; 2]) by compute_done.
  split; [exact Hnone|].
  split; [exact (proj1 (make_phase_split_reads_time_zero
                          (side_draw_tray vle_package) [0]
                          "liq_out" "Liq" (Num 1) ∅) Hnone)|].
  split; [exact Hout|]. split; [exact Htime|].
  exact (proj2 (make_phase_split_reads_time_zero
                  (side_draw_tray vle_package) [1; 2]
                  "liq_out" "Liq" (Num 1) with_liq_out) _ _ Hout Htime).
Defined.

Lemma add_ports_declares_witness :
  let cfg := side_draw_tray vle_package in
  let r := _add_ports cfg [0] state_blocks in
  r = (Ok tt, r.2) /\
  r.2 !! "liq_side_sf"
    = Some (Var (FloatLit 1 (-2)) "split fraction for the liquid side draw") /\
  r.2 !! "vap_side_sf" = None.
Proof.
  cbv zeta.
  assert (Hrun : _add_ports (side_draw_tray vle_package) [0] state_blocks
                 = (Ok tt, (_add_ports (side_draw_tray vle_package) [0]
                              state_blocks).2))
    by (apply run_returns; vm_compute; reflexivity).
  split; [exact Hrun|].
  destruct (add_ports_declares (side_draw_tray vle_package) [0]
              state_blocks _ Hrun) as (_ & _ & Hl & Hv & _).
  split; [exact Hl | exact Hv].
Defined.

Lemma add_ports_inlet_ports_witness :
  let cfg := feed_tray vle_package in
  let r := _add_ports cfg [0] state_blocks in
  r = (Ok tt, r.2) /\
  inlet_ports state_blocks = ∅ /\
  inlet_ports r.2 = {["feed"; "liq_in"; "vap_in"]}.
Proof.
  cbv zeta.
  assert (Hrun : _add_ports (feed_tray vle_package) [0] state_blocks
                 = (Ok tt, (_add_ports (feed_tray vle_package) [0]
                              state_blocks).2))
    by (apply run_returns; vm_compute; reflexivity).
  assert (Hempty : inlet_ports state_blocks = ∅) by (vm_compute; reflexivity).
  split; [exact Hrun|]. split; [exact Hempty|].
  rewrite (proj2 (proj2 (add_ports_inlet_ports (feed_tray vle_package) [0]
                           state_blocks _ Hrun)) Hempty).
  vm_compute. reflexivity.
Defined.

Lemma total_fraction_index_error_iff_witness :
  is_fraction "mole_frac" = true /\
  PyStr.contains "phase" "mole_frac" = false /\
  count PyStr.underscore "mole_frac" = 1%nat /\
  (phase_split_member [0] "liq_out" "Liq" (Num 1) "mole_frac"
     (mkMember "mole_frac" by_component) None with_liq_out).1 = Raise IndexError.
Proof.
  do 3 (split; [reflexivity|]).
  apply (total_fraction_index_error_iff [0] "liq_out" "Liq" (Num 1) "mole_frac"
           (mkMember "mole_frac" by_component) None with_liq_out
           eq_refl eq_refl).
  cbn. lia.
Defined.

Lemma material_mixing_keys_distinct_witness :
  NoDup [0; 1] /\ NoDup (component_list (package (side_draw_tray vle_package))) /\
  exists body,
    (_add_material_balance (side_draw_tray vle_package) [0; 1] state_blocks).2
      !! "material_mixing_equations"
      = Some (Constraint "material balance" body) /\
    NoDup body.*1.
Proof.
  assert (H1 : NoDup [0; 1]) by compute_done.
  assert (H2 : NoDup (component_list (package (side_draw_tray vle_package))))
    by compute_done.
  split; [exact H1|]. split; [exact H2|].
  exact (material_mixing_keys_distinct (side_draw_tray vle_package) [0; 1]
           state_blocks H1 H2).
Defined.

Lemma balance_blocks_present cfg :
  forall blk, blk ∈ balance_blocks cfg -> is_state_block state_blocks blk.
Proof.
  intros blk Hin. unfold balance_blocks, inlet_blocks in Hin.
  destruct (is_feed_tray cfg); cbn in Hin;
    repeat (apply elem_of_cons in Hin as [->|Hin];
            [eexists _, _; vm_compute; reflexivity|]);
    apply elem_of_nil in Hin as [].
Qed.

Lemma material_mixing_one_equality_per_pair_witness :
  let cfg := feed_tray vle_package in
  (forall blk, blk ∈ balance_blocks cfg -> is_state_block state_blocks blk) /\
  phase_list (package cfg) <> [] /\
  exists body,
    _add_material_balance cfg [0; 1] state_blocks =
      (Ok tt, <["material_mixing_equations" :=
                  Constraint "material balance" body]> state_blocks) /\
    body.*1 = [(0, [Idx "benzene"]); (0, [Idx "toluene"]);
               (1, [Idx "benzene"]); (1, [Idx "toluene"])].
Proof.
  cbv zeta.
  assert (Hp : phase_list (package (feed_tray vle_package)) <> []) by discriminate.
  split; [apply balance_blocks_present|]. split; [exact Hp|].
  destruct (material_mixing_one_equality_per_pair (feed_tray vle_package) [0; 1]
              state_blocks (balance_blocks_present _) Hp)
    as (body & Hrun & Hkeys & _).
  exists body. split; [exact Hrun | exact Hkeys].
Defined.

(** C4 as stated fails on a property package without phases: the sum
    over the phases is the number [0], the rule returns the Python
    Boolean [0 == 0], and the constraint refuses it.  No equality is
    produced for the first (time point, component) pair, nor for any
    other. *)
Lemma material_balance_counterexample :
  let cfg := side_draw_tray no_phase_package in
  (forall blk, blk ∈ balance_blocks cfg -> is_state_block state_blocks blk) /\
  component_list (package cfg) = ["benzene"; "toluene"] /\
  phase_list (package cfg) = [] /\
  _add_material_balance cfg [0] state_blocks
  = (Raise ValueError,
     <["material_mixing_equations" := Constraint "material balance" []]>
       state_blocks).
Proof.
  cbv zeta. split; [apply balance_blocks_present|].
  do 2 (split; [reflexivity|]). reflexivity.
Qed.

Lemma material_balance_needs_state_blocks_witness :
  let cfg := side_draw_tray vle_package in
  "properties_out" ∈ balance_blocks cfg /\
  (∅ : block) !! "properties_out" = None /\
  _add_material_balance cfg [0] ∅
  = (Raise AttributeError,
     <["material_mixing_equations" := Constraint "material balance" []]> ∅).
Proof.
  cbv zeta.
  assert (Hin : "properties_out" ∈ balance_blocks (side_draw_tray vle_package))
    by (cbn; find_member).
  split; [exact Hin|]. split; [apply lookup_empty|].
  apply (material_balance_needs_state_blocks (side_draw_tray vle_package) [0]
           ∅ "properties_out" Hin (lookup_empty _)).
  - intros b _. left. apply lookup_empty.
  - discriminate.
  - discriminate.
  - discriminate.
Defined.

Lemma enthalpy_mixing_one_equality_per_time_witness :
  let cfg := heated_feed_tray vle_package in
  (forall blk, blk ∈ balance_blocks cfg -> is_state_block state_blocks blk) /\
  (exists body s',
     _add_energy_balance cfg [0; 1] state_blocks = (Ok tt, s') /\
     s' !! "enthalpy_mixing_equations" = Some (Constraint "energy balance" body) /\
     s' !! "heat_duty" = Some (Var (IntLit 0) "heat duty for the tray") /\
     body.*1 = [(0, []); (1, [])]) /\
  (exists s',
     _add_energy_balance cfg [0; 1] ∅ = (Raise AttributeError, s') /\
     s' !! "enthalpy_mixing_equations" = Some (Constraint "energy balance" [])).
Proof.
  cbv zeta.
  destruct (enthalpy_mixing_one_equality_per_time (heated_feed_tray vle_package)
              [0; 1] state_blocks) as [Hok _].
  destruct (enthalpy_mixing_one_equality_per_time (heated_feed_tray vle_package)
              [0; 1] ∅) as [_ Hraise].
  split; [apply balance_blocks_present|]. split.
  - destruct (Hok (balance_blocks_present _) (or_intror eq_refl))
      as (body & s' & Hrun & Hc & Hh & Hkeys & _).
    exists body, s'. auto.
  - apply (Hraise "properties_out").
    + cbn. find_member.
    + apply lookup_empty.
    + intros b _. left. apply lookup_empty.
    + discriminate.
    + discriminate.
Defined.

Lemma pressure_drop_one_equality_per_time_witness :
  let cfg := heated_feed_tray vle_package in
  is_state_block state_blocks "properties_out" /\
  is_state_block state_blocks "properties_in_vap" /\
  (exists body s',
     _add_pressure_balance cfg [0; 1] state_blocks = (Ok tt, s') /\
     s' !! "pressure_drop_equation"
       = Some (Constraint "pressure balance for tray" body) /\
     s' !! "deltaP" = Some (Var (IntLit 0) "pressure drop across tray") /\
     body.*1 = [(0, []); (1, [])]) /\
  (exists s',
     _add_pressure_balance cfg [0; 1] ∅ = (Raise AttributeError, s') /\
     s' !! "pressure_drop_equation"
       = Some (Constraint "pressure balance for tray" [])).
Proof.
  cbv zeta.
  assert (Hout : is_state_block state_blocks "properties_out")
    by (eexists _, _; vm_compute; reflexivity).
  assert (Hvap : is_state_block state_blocks "properties_in_vap")
    by (eexists _, _; vm_compute; reflexivity).
  destruct (pressure_drop_one_equality_per_time (heated_feed_tray vle_package)
              [0; 1] state_blocks) as [Hok _].
  destruct (pressure_drop_one_equality_per_time (heated_feed_tray vle_package)
              [0; 1] ∅) as [_ Hraise].
  split; [exact Hout|]. split; [exact Hvap|]. split.
  - destruct (Hok Hout Hvap) as (body & s' & Hrun & Hc & Hd & Hkeys & _).
    exists body, s'. auto.
  - apply (Hraise "properties_out").
    + left.
    + apply lookup_empty.
    + intros b _. left. apply lookup_empty.
    + discriminate.
Defined.
